(** * Crop yield prediction platform: feature pipeline, confidence scoring
    and advisory rules

    A shallow embedding of the Python sources
      - [src/features.py]       (class [FeatureEngineer]),
      - [src/utils.py]          (validators, [calculate_confidence_score],
                                 yield-gap analysis, class [ConfigManager]),
      - [backend/ml_utils.py]   (class [CropYieldPredictor]),
      - [backend/main.py]       (the [/predict] endpoint),
      - [src/api/predict.py]    (class [PredictionService]),
      - [src/api/advisory.py]   (class [AdvisoryEngine]),
    followed by the properties of these definitions.

    Conventions of the embedding.
      - A Python [float] (and an [int] that is mixed with floats) is an exact
        rational of [Q]; a pandas cell that may be missing is [option Q] with
        [None] for NaN.  Rounding is written out where the code rounds.
      - A [dict] is a stdpp [gmap]; a [DataFrame] is an ordered association
        list of named columns, because column order is observable.
      - A function that can raise returns [result]; an instance method that
        writes [self] returns the new state next to its value.
      - The nested dictionaries that [ConfigManager.set] changes in place
        are objects of an explicit heap, read through references, so that
        two keys that hold the same dictionary share it.
      - Calls into numpy / scikit-learn whose results are not rational
        ([np.sin], the fit of a [StandardScaler], the univariate ranking of
        [SelectKBest]) are variables of the enclosing section. *)

From Stdlib Require Import QArith Qround Qminmax Qabs Lqa ZArith Lia.
From Stdlib Require Import Strings.String Strings.Ascii DecimalString.
From stdpp Require Import gmap strings list.
From Stdlib Require Import Sorting.Sorted.
From Stdlib Require OrderedTypeEx.

Local Open Scope Q_scope.

(** ** Python numerics *)

Module Py.

(** [round(x)] to the nearest integer, ties to the even neighbour. *)
Definition round_half_even (q : Q) : Z :=
  let f := Qfloor q in
  match Qcompare (q - inject_Z f) (1 # 2) with
  | Lt => f
  | Gt => (f + 1)%Z
  | Eq => if Z.even f then f else (f + 1)%Z
  end.

Definition pow10 (n : nat) : Q := inject_Z (10 ^ Z.of_nat n).

(** [round(x, ndigits)].  A binary float is never exactly halfway between
    two decimals of [ndigits] >= 1 digits, so the tie rule only matters for
    the rationals that the embedding adds. *)
Definition round (q : Q) (ndigits : nat) : Q :=
  inject_Z (round_half_even (q * pow10 ndigits)) / pow10 ndigits.

(** The builtins [max(a, b)] and [min(a, b)] on numbers. *)
Definition max (a b : Q) : Q := if Qlt_le_dec a b then b else a.
Definition min (a b : Q) : Q := if Qlt_le_dec b a then b else a.

Definition abs (a : Q) : Q := Qabs a.

Definition Qltb (a b : Q) : bool := negb (Qle_bool b a).
Definition Qleb (a b : Q) : bool := Qle_bool a b.

Definition str_of_Z (z : Z) : string := NilZero.string_of_int (Z.to_int z).

Definition zfill (width : nat) (s : string) : string :=
  match width - String.length s with
  | O => s
  | S k => String.append (string_of_list_ascii (repeat "0"%char (S k))) s
  end%nat.

(** The format specification [f"{q:.<d>f}"]: sign, integer part, and [d]
    decimals, the magnitude rounded half-even. *)
Definition format_f (d : nat) (q : Q) : string :=
  let scaled := round_half_even (Qabs q * pow10 d) in
  let base := (10 ^ Z.of_nat d)%Z in
  let ip := (scaled / base)%Z in
  let fp := (scaled mod base)%Z in
  String.append (if Qltb q 0 then "-" else "")
    (String.append (str_of_Z ip)
       (match d with
        | O => ""
        | S _ => String.append "." (zfill d (str_of_Z fp))
        end)).

(** ASCII part of [str.lower]. *)
Definition lower_ascii (c : ascii) : ascii :=
  let n := nat_of_ascii c in
  if ((65 <=? n) && (n <=? 90))%nat then ascii_of_nat (n + 32) else c.

Fixpoint lower (s : string) : string :=
  match s with
  | EmptyString => EmptyString
  | String c s' => String (lower_ascii c) (lower s')
  end.

Definition startswith (s p : string) : bool := String.prefix p s.

(** [sub in s]. *)
Fixpoint contains (s sub : string) : bool :=
  String.prefix sub s ||
  match s with
  | EmptyString => false
  | String _ s' => contains s' sub
  end.

Definition endswith (s suf : string) : bool :=
  let n := String.length s in
  let k := String.length suf in
  (k <=? n)%nat && String.eqb (String.substring (n - k) k s) suf.

(** [sep.join(parts)]. *)
Fixpoint join (sep : string) (parts : list string) : string :=
  match parts with
  | [] => ""
  | [p] => p
  | p :: rest => String.append p (String.append sep (join sep rest))
  end.

End Py.

(** ** Exceptions *)

Inductive exn : Type :=
| KeyError (key : string)
| TypeError
| IndexError
| AttributeError
| ValueError (msg : string).

Inductive result (A : Type) : Type :=
| Ok (a : A)
| Raise (e : exn).
Arguments Ok {A} a.
Arguments Raise {A} e.

Definition bind {A B : Type} (r : result A) (k : A -> result B) : result B :=
  match r with
  | Ok a => k a
  | Raise e => Raise e
  end.

Notation "'let*' x := r 'in' k" := (bind r (fun x => k))
  (at level 10, x pattern, r at level 100, k at level 200).

Definition raises {A : Type} (r : result A) : bool :=
  match r with Ok _ => false | Raise _ => true end.

Fixpoint mapM {A B : Type} (f : A -> result B) (l : list A) : result (list B) :=
  match l with
  | [] => Ok []
  | a :: l' => let* b := f a in let* bs := mapM f l' in Ok (b :: bs)
  end.

Fixpoint foldM {A S : Type} (f : S -> A -> result S) (l : list A) (s : S)
  : result S :=
  match l with
  | [] => Ok s
  | a :: l' => let* s' := f s a in foldM f l' s'
  end.

(** ** pandas: the fragment of [Series] and [DataFrame] the pipeline uses *)

Module Pandas.

(** A column: numeric ([float64] / [int64], NaN is [None]) or [object]
    (strings). *)
Inductive Series : Type :=
| Num (v : list (option Q))
| Obj (v : list string).

Definition DataFrame : Type := list (string * Series).

Definition columns (df : DataFrame) : list string := map fst df.

(** [col in df.columns] *)
Definition has_col (df : DataFrame) (col : string) : bool :=
  existsb (String.eqb col) (columns df).

Fixpoint lookup_col (df : DataFrame) (col : string) : option Series :=
  match df with
  | [] => None
  | (c, s) :: df' => if String.eqb c col then Some s else lookup_col df' col
  end.

(** [df[col]] *)
Definition get (df : DataFrame) (col : string) : result Series :=
  match lookup_col df col with
  | Some s => Ok s
  | None => Raise (KeyError col)
  end.

(** [df[col]] used in arithmetic: the column must be numeric. *)
Definition get_num (df : DataFrame) (col : string)
  : result (list (option Q)) :=
  let* s := get df col in
  match s with
  | Num v => Ok v
  | Obj _ => Raise TypeError
  end.

(** [df[col] = s]: overwrite in place, or append a new last column. *)
Fixpoint assign (df : DataFrame) (col : string) (s : Series) : DataFrame :=
  match df with
  | [] => [(col, s)]
  | (c, s0) :: df' =>
      if String.eqb c col then (c, s) :: df' else (c, s0) :: assign df' col s
  end.

(** [df.drop(columns=cols)] for names known to be present. *)
Definition drop (df : DataFrame) (cols : list string) : DataFrame :=
  List.filter (fun cs => negb (existsb (String.eqb (fst cs)) cols)) df.

(** [df[cols]] for a list of names. *)
Definition select (df : DataFrame) (cols : list string) : result DataFrame :=
  mapM (fun c => let* s := get df c in Ok (c, s)) cols.

Definition series_len (s : Series) : nat :=
  match s with Num v => length v | Obj v => length v end.

(** Number of rows ([len(df)]). *)
Definition nrows (df : DataFrame) : nat :=
  match df with
  | [] => O
  | (_, s) :: _ => series_len s
  end.

(** Every column has [n] cells. *)
Definition rectangular (n : nat) (df : DataFrame) : Prop :=
  Forall (fun cs => series_len (snd cs) = n) df.

(** *** Vectorised arithmetic, NaN-propagating *)

Definition vmap (f : Q -> Q) (v : list (option Q)) : list (option Q) :=
  map (option_map f) v.

Definition vzip (f : Q -> Q -> option Q) (a b : list (option Q))
  : list (option Q) :=
  zip_with (fun x y =>
              match x, y with
              | Some p, Some q => f p q
              | _, _ => None
              end) a b.

Definition vsub := vzip (fun p q => Some (p - q)).
Definition vmul := vzip (fun p q => Some (p * q)).

(** Division; a zero divisor gives a non-finite cell, rendered as NaN. *)
Definition vdiv := vzip (fun p q => if Qeq_bool q 0 then None else Some (p / q)).

(** [np.where(cond(x), t(x), e)]; a comparison with NaN is [False]. *)
Definition np_where (cond : Q -> bool) (t : Q -> Q) (e : Q)
    (v : list (option Q)) : list (option Q) :=
  map (fun x => match x with
                | Some q => if cond q then Some (t q) else Some e
                | None => Some e
                end) v.

(** *** Reductions, NaN-skipping *)

Definition dropna (v : list (option Q)) : list Q := omap id v.

Fixpoint dedup (l : list Q) : list Q :=
  match l with
  | [] => []
  | q :: l' => if existsb (Qeq_bool q) l' then dedup l' else q :: dedup l'
  end.

(** [s.nunique()] *)
Definition nunique (s : Series) : nat :=
  match s with
  | Num v => length (dedup (dropna v))
  | Obj v => length (remove_dups v)
  end.

Definition vmin (v : list (option Q)) : option Q :=
  match dropna v with
  | [] => None
  | q :: l => Some (fold_left Py.min l q)
  end.

Definition vmax (v : list (option Q)) : option Q :=
  match dropna v with
  | [] => None
  | q :: l => Some (fold_left Py.max l q)
  end.

Fixpoint insert_sorted (q : Q) (l : list Q) : list Q :=
  match l with
  | [] => [q]
  | x :: l' => if Qle_bool q x then q :: l else x :: insert_sorted q l'
  end.

Definition sort (l : list Q) : list Q := fold_right insert_sorted [] l.

(** [s.median()] *)
Definition median (v : list (option Q)) : option Q :=
  let l := sort (dropna v) in
  let n := length l in
  match n with
  | O => None
  | _ =>
      if Nat.even n
      then match l !! (n / 2 - 1)%nat, l !! (n / 2)%nat with
           | Some a, Some b => Some ((a + b) / 2)
           | _, _ => None
           end
      else l !! (n / 2)%nat
  end.

Definition fill (m : option Q) (v : list (option Q)) : list (option Q) :=
  match m with
  | None => v
  | Some q => map (fun x => match x with None => Some q | _ => x end) v
  end.

(** [X.fillna(X.median())]; [DataFrame.median] refuses an [object]
    column (pandas 2). *)
Definition fillna_median (X : DataFrame) : result DataFrame :=
  mapM (fun cs => match snd cs with
                  | Num v => Ok (fst cs, Num (fill (median v) v))
                  | Obj _ => Raise TypeError
                  end) X.

(** [df[cols].sum(axis=1)] *)
Definition row_sum (n : nat) (cols : list (list (option Q)))
  : list (option Q) :=
  fold_left (fun acc c =>
               zip_with (fun a x => match a, x with
                                    | Some p, Some q => Some (p + q)
                                    | _, _ => a
                                    end) acc c)
            cols (repeat (Some 0) n).

End Pandas.

(** ** scikit-learn preprocessing objects *)

Module Sklearn.

(** A fitted [LabelEncoder]: [classes_] is the sorted array of the distinct
    training labels. *)
Record LabelEncoder : Type := { classes_ : list string }.

Fixpoint insert_label (x : string) (l : list string) : list string :=
  match l with
  | [] => [x]
  | y :: l' =>
      match String.compare x y with
      | Lt => x :: l
      | Eq => l
      | Gt => y :: insert_label x l'
      end
  end.

(** [np.unique]: sorted, without repetitions. *)
Definition unique (xs : list string) : list string :=
  fold_right insert_label [] xs.

Fixpoint index_of (x : string) (l : list string) : option nat :=
  match l with
  | [] => None
  | y :: l' => if String.eqb x y then Some O else option_map S (index_of x l')
  end.

(** [enc.transform(xs)]: the position of each label in [classes_];
    a label that was never seen raises [ValueError]. *)
Definition transform (enc : LabelEncoder) (xs : list string)
  : result (list (option Q)) :=
  mapM (fun x => match index_of x (classes_ enc) with
                 | Some i => Ok (Some (inject_Z (Z.of_nat i)))
                 | None => Raise (ValueError "y contains previously unseen labels")
                 end) xs.

(** [enc.fit_transform(xs)] *)
Definition fit_transform (xs : list string)
  : result (LabelEncoder * list (option Q)) :=
  let enc := {| classes_ := unique xs |} in
  let* codes := transform enc xs in
  Ok (enc, codes).

(** A fitted [StandardScaler] for one column. *)
Record StandardScaler : Type := { mean_ : Q; scale_ : Q }.

(** [scaler.transform(X[[col]])] *)
Definition scale (sc : StandardScaler) (v : list (option Q))
  : list (option Q) :=
  map (fun x => match x with
                | Some q => if Qeq_bool (scale_ sc) 0 then None
                            else Some ((q - mean_ sc) / scale_ sc)
                | None => None
                end) v.

End Sklearn.

(** ** [src/features.py] *)

Module Features.
Import Pandas Sklearn.

(** What the pipeline calls in numpy / scikit-learn and cannot be computed
    over the rationals. *)
Record Extern : Type := {
  (** [t |-> np.sin(2 * np.pi * t)] *)
  sin_2pi : Q -> Q;
  (** [str(x)] of a numeric cell, for [astype(str)] *)
  str_of_float : option Q -> string;
  (** [StandardScaler().fit(X[[col]])] *)
  scaler_fit : list (option Q) -> StandardScaler;
  (** [SelectKBest(f_regression, k).fit(X, y).get_support()], one flag per
      column of [X] *)
  k_best_support : DataFrame -> Series -> nat -> result (list bool)
}.

(** The attributes of a [FeatureEngineer] instance. *)
Record FeatureEngineer : Type := {
  scalers : gmap string StandardScaler;
  encoders : gmap string LabelEncoder;
  feature_names : list string;
  selected_features : list string
}.

(** [FeatureEngineer.__init__] *)
Definition init : FeatureEngineer :=
  {| scalers := ∅; encoders := ∅; feature_names := []; selected_features := [] |}.

Definition set_scalers (st : FeatureEngineer) m : FeatureEngineer :=
  {| scalers := m; encoders := encoders st;
     feature_names := feature_names st;
     selected_features := selected_features st |}.
Definition set_encoders (st : FeatureEngineer) m : FeatureEngineer :=
  {| scalers := scalers st; encoders := m;
     feature_names := feature_names st;
     selected_features := selected_features st |}.
Definition set_feature_names (st : FeatureEngineer) l : FeatureEngineer :=
  {| scalers := scalers st; encoders := encoders st;
     feature_names := l;
     selected_features := selected_features st |}.
Definition set_selected_features (st : FeatureEngineer) l : FeatureEngineer :=
  {| scalers := scalers st; encoders := encoders st;
     feature_names := feature_names st;
     selected_features := l |}.

Definition all_in (df : DataFrame) (cols : list string) : bool :=
  forallb (has_col df) cols.

Definition gt (c : Q) : Q -> bool := fun x => Py.Qltb c x.
Definition lt (c : Q) : Q -> bool := fun x => Py.Qltb x c.
Definition between (lo hi : Q) : Q -> bool :=
  fun x => Py.Qleb lo x && Py.Qleb x hi.
Definition eps : Q := 1 # 1000000.

(** [create_weather_features] *)
Definition create_weather_features (df : DataFrame) : result DataFrame :=
  let* df :=
    if all_in df ["temp_mean"; "temp_max"; "temp_min"] then
      let* tmax := get_num df "temp_max" in
      let* tmin := get_num df "temp_min" in
      let df := assign df "temp_range" (Num (vsub tmax tmin)) in
      let df := assign df "temp_stress"
                  (Num (np_where (gt 35) (fun x => x - 35) 0 tmax)) in
      Ok (assign df "temp_cold_stress"
            (Num (np_where (lt 15) (fun x => 15 - x) 0 tmin)))
    else Ok df in
  let* df :=
    if all_in df ["precip_sum"; "precip_mean"] then
      let* psum := get_num df "precip_sum" in
      let* pmean := get_num df "precip_mean" in
      let df := assign df "precip_intensity"
                  (Num (vdiv psum (vmap (fun x => x + eps) pmean))) in
      let df := assign df "drought_stress"
                  (Num (np_where (lt 500) (fun x => 500 - x) 0 psum)) in
      Ok (assign df "flood_risk"
            (Num (np_where (gt 1500) (fun x => x - 1500) 0 psum)))
    else Ok df in
  let* df :=
    if has_col df "humidity_mean" then
      let* h := get_num df "humidity_mean" in
      Ok (assign df "humidity_stress"
            (Num (np_where (gt 85) (fun x => x - 85) 0 h)))
    else Ok df in
  let* df :=
    if has_col df "solar_mean" then
      let* sm := get_num df "solar_mean" in
      Ok (assign df "solar_deficit"
            (Num (np_where (lt 15) (fun x => 15 - x) 0 sm)))
    else Ok df in
  if has_col df "gdd" then
    let* g := get_num df "gdd" in
    let df := assign df "gdd_optimal"
                (Num (np_where (between 2000 3000) (fun _ => 1) 0 g)) in
    let df := assign df "gdd_deficit"
                (Num (np_where (lt 2000) (fun x => 2000 - x) 0 g)) in
    Ok (assign df "gdd_excess"
          (Num (np_where (gt 3000) (fun x => x - 3000) 0 g)))
  else Ok df.

(** [create_soil_features] *)
Definition create_soil_features (df : DataFrame) : result DataFrame :=
  let* df :=
    if all_in df ["soil_clay"; "soil_sand"; "soil_silt"] then
      let* clay := get_num df "soil_clay" in
      let* sand := get_num df "soil_sand" in
      let* silt := get_num df "soil_silt" in
      let df := assign df "clay_sand_ratio"
                  (Num (vdiv clay (vmap (fun x => x + eps) sand))) in
      let df := assign df "silt_clay_ratio"
                  (Num (vdiv silt (vmap (fun x => x + eps) clay))) in
      Ok (assign df "soil_texture_score"
            (Num (vzip (fun a b => Some (a + b))
                    (vzip (fun a b => Some (a + b))
                       (vmap (fun x => x * (3 # 10)) clay)
                       (vmap (fun x => x * (5 # 10)) silt))
                    (vmap (fun x => x * (2 # 10)) sand))))
    else Ok df in
  let* df :=
    if has_col df "soil_phh2o" then
      let* ph := get_num df "soil_phh2o" in
      let df := assign df "soil_ph_optimal"
                  (Num (np_where (between 6 7) (fun _ => 1) 0 ph)) in
      Ok (assign df "soil_ph_stress"
            (Num (vmap (fun x => Py.abs (x - (65 # 10))) ph)))
    else Ok df in
  let* df :=
    if has_col df "soil_soc" then
      let* soc := get_num df "soil_soc" in
      let df := assign df "soil_organic_high"
                  (Num (np_where (gt 2) (fun _ => 1) 0 soc)) in
      Ok (assign df "soil_organic_low"
            (Num (np_where (lt 1) (fun _ => 1) 0 soc)))
    else Ok df in
  if all_in df ["soil_cec"; "soil_phh2o"] then
    let* cec := get_num df "soil_cec" in
    let* stress := get_num df "soil_ph_stress" in
    Ok (assign df "nutrient_availability"
          (Num (vmul cec (vmap (fun x => 1 - x) stress))))
  else Ok df.

Section WithExtern.
Variable ext : Extern.

(** [create_temporal_features] *)
Definition create_temporal_features (df : DataFrame) : result DataFrame :=
  if has_col df "year" then
    let* year := get_num df "year" in
    let lo := vmin year in
    let hi := vmax year in
    let normalized :=
      map (fun y => match y, lo, hi with
                    | Some y, Some lo, Some hi =>
                        if Qeq_bool (hi - lo) 0 then None
                        else Some ((y - lo) / (hi - lo))
                    | _, _, _ => None
                    end) year in
    let df := assign df "year_normalized" (Num normalized) in
    let df := assign df "year_cycle_3"
                (Num (vmap (fun y => sin_2pi ext (y / 3)) year)) in
    Ok (assign df "year_cycle_5"
          (Num (vmap (fun y => sin_2pi ext (y / 5)) year)))
  else Ok df.

(** [create_interaction_features] *)
Definition create_interaction_features (df : DataFrame) : result DataFrame :=
  let* df :=
    if all_in df ["precip_sum"; "soil_clay"] then
      let* psum := get_num df "precip_sum" in
      let* clay := get_num df "soil_clay" in
      Ok (assign df "water_retention"
            (Num (vmap (fun x => x / 100) (vmul psum clay))))
    else Ok df in
  let* df :=
    if all_in df ["temp_mean"; "soil_soc"] then
      let* tmean := get_num df "temp_mean" in
      let* soc := get_num df "soil_soc" in
      Ok (assign df "temp_organic_interaction" (Num (vmul tmean soc)))
    else Ok df in
  let* df :=
    if all_in df ["gdd"; "soil_ph_optimal"] then
      let* g := get_num df "gdd" in
      let* opt := get_num df "soil_ph_optimal" in
      Ok (assign df "gdd_ph_interaction" (Num (vmul g opt)))
    else Ok df in
  let stress_cols :=
    List.filter (fun c => Py.contains c "stress") (columns df) in
  if (1 <? length stress_cols)%nat then
    let* cols := mapM (get_num df) stress_cols in
    Ok (assign df "total_stress" (Num (row_sum (nrows df) cols)))
  else Ok df.

(** [df[col].astype(str)] *)
Definition astype_str (s : Series) : list string :=
  match s with
  | Obj v => v
  | Num v => map (str_of_float ext) v
  end.

Definition categorical_cols : list string := ["state"; "district"; "crop"].

Definition encoded_name (col : string) : string :=
  String.append col "_encoded".

(** One iteration of the loop of [encode_categorical_features]. *)
Definition encode_column (fit : bool)
    (acc : DataFrame * FeatureEngineer) (col : string)
  : result (DataFrame * FeatureEngineer) :=
  let '(df, st) := acc in
  if has_col df col then
    let* s := get df col in
    if fit then
      let* (enc, codes) := fit_transform (astype_str s) in
      Ok (assign df (encoded_name col) (Num codes),
          set_encoders st (<[col := enc]> (encoders st)))
    else
      match encoders st !! col with
      | Some enc =>
          let vals := astype_str s in
          let known := fun x => existsb (String.eqb x) (classes_ enc) in
          if forallb known vals then
            let* codes := transform enc vals in
            Ok (assign df (encoded_name col) (Num codes), st)
          else
            match classes_ enc with
            | [] => Raise IndexError
            | most_frequent :: _ =>
                let vals' :=
                  map (fun x => if known x then x else most_frequent) vals in
                let df := assign df col (Obj vals') in
                let* codes := transform enc vals' in
                Ok (assign df (encoded_name col) (Num codes), st)
            end
      | None => Ok (df, st)
      end
  else Ok (df, st).

(** [encode_categorical_features] *)
Definition encode_categorical_features (st : FeatureEngineer)
    (df : DataFrame) (fit : bool) : result (DataFrame * FeatureEngineer) :=
  foldM (encode_column fit) categorical_cols (df, st).

Definition is_numeric (s : Series) : bool :=
  match s with Num _ => true | Obj _ => false end.

(** [select_features] *)
Definition select_features (st : FeatureEngineer) (X : DataFrame)
    (y : Series) (k : nat) : result (list string * FeatureEngineer) :=
  let numeric_cols :=
    map fst (List.filter (fun cs => is_numeric (snd cs)) X) in
  let* X_numeric := select X numeric_cols in
  let* X_numeric := fillna_median X_numeric in
  let* selected_mask :=
    k_best_support ext X_numeric y (Nat.min k (length numeric_cols)) in
  let selected :=
    map fst (List.filter snd (zip numeric_cols selected_mask)) in
  Ok (selected, set_selected_features st selected).

(** The first loop of [scale_features]: the columns to scale, decided
    on the frame [X] that is being scaled. *)
Definition cols_to_scale (X : DataFrame) : list string :=
  List.filter
    (fun col =>
       match lookup_col X col with
       | Some (Num v) =>
           negb (Py.endswith col "_encoded"
                 || Py.endswith col "_optimal"
                 || Py.endswith col "_high"
                 || Py.endswith col "_low"
                 || (nunique (Num v) <=? 2)%nat)
       | _ => false
       end)
    (columns X).

(** One iteration of the second loop of [scale_features]. *)
Definition scale_column (fit : bool) (acc : DataFrame * FeatureEngineer)
    (col : string) : DataFrame * FeatureEngineer :=
  let '(X, st) := acc in
  match lookup_col X col with
  | Some (Num v) =>
      if fit then
        let sc := scaler_fit ext v in
        (assign X col (Num (scale sc v)),
         set_scalers st (<[col := sc]> (scalers st)))
      else
        match scalers st !! col with
        | Some sc => (assign X col (Num (scale sc v)), st)
        | None => (X, st)
        end
  | _ => (X, st)
  end.

(** [scale_features] *)
Definition scale_features (st : FeatureEngineer) (X : DataFrame)
    (fit : bool) : DataFrame * FeatureEngineer :=
  fold_left (scale_column fit) (cols_to_scale X) (X, st).

Definition non_feature_cols : list string :=
  ["yield_t_ha"; "year"; "state"; "district"; "crop"; "area_ha";
   "production_tonnes"].

(** [engineer_features] *)
Definition engineer_features (st : FeatureEngineer) (df : DataFrame)
    (fit : bool) : result (DataFrame * FeatureEngineer) :=
  let* df := create_weather_features df in
  let* df := create_soil_features df in
  let* df := create_temporal_features df in
  let* df := create_interaction_features df in
  let* (df, st) := encode_categorical_features st df fit in
  let st :=
    if fit then
      set_feature_names st
        (List.filter
           (fun col => negb (existsb (String.eqb col) non_feature_cols))
           (columns df))
    else st in
  Ok (df, st).

Definition cols_to_remove : list string :=
  ["year"; "state"; "district"; "crop"; "area_ha"; "production_tonnes"].

(** The second branch of the selection step of [prepare_features]: the
    previously selected names that the computed frame has. *)
Definition available_features (st : FeatureEngineer) (X : DataFrame)
  : list string :=
  List.filter (has_col X) (selected_features st).

(** The first three steps of [prepare_features]: engineer the features,
    split off the target column, remove the non-feature columns.  The
    columns of the frame it returns are the computed feature set. *)
Definition feature_frame (st : FeatureEngineer) (df : DataFrame)
    (target_col : string) (fit : bool)
  : result ((DataFrame * option Series) * FeatureEngineer) :=
  let* (df_engineered, st) := engineer_features st df fit in
  let* (y, X) :=
    if has_col df_engineered target_col then
      let* y := get df_engineered target_col in
      Ok (Some y, drop df_engineered [target_col])
    else Ok (None, df_engineered) in
  let X := drop X (List.filter (has_col X) cols_to_remove) in
  Ok ((X, y), st).

(** [prepare_features] *)
Definition prepare_features (st : FeatureEngineer) (df : DataFrame)
    (target_col : string) (fit feature_selection : bool)
  : result ((DataFrame * option Series) * FeatureEngineer) :=
  let* (X, y, st) := feature_frame st df target_col fit in
  let* (X, st) :=
    match fit && feature_selection, y with
    | true, Some y_ =>
        let* (selected, st) := select_features st X y_ 50 in
        let* X := select X selected in
        Ok (X, st)
    | _, _ =>
        if negb fit && negb (Nat.eqb (length (selected_features st)) 0) then
          let* X := select X (available_features st X) in
          Ok (X, st)
        else Ok (X, st)
    end in
  let '(X, st) := scale_features st X fit in
  let* X := fillna_median X in
  Ok ((X, y), st).

End WithExtern.

End Features.

(** ** [src/utils.py] *)

Module Utils.

(** [validate_coordinates] *)
Definition validate_coordinates (lat lon : Q) : bool :=
  if negb (Py.Qleb (-90) lat && Py.Qleb lat 90) then false
  else if negb (Py.Qleb (-180) lon && Py.Qleb lon 180) then false
  else true.

Definition default_valid_crops : list string :=
  ["rice"; "wheat"; "maize"; "sugarcane"; "cotton"].

(** [validate_crop_input] with [valid_crops=None] *)
Definition validate_crop_input (crop : string) : bool :=
  existsb (String.eqb (Py.lower crop)) (map Py.lower default_valid_crops).

(** [validate_year] with the defaults; [this_year] is
    [datetime.now().year]. *)
Definition validate_year (this_year year : Z) : bool :=
  ((2000 <=? year) && (year <=? this_year + 1))%Z.

(** [calculate_confidence_score] *)
Definition calculate_confidence_score
    (prediction model_std feature_quality : Q) : Q :=
  let base_confidence :=
    Py.max 0 (if Py.Qltb 0 prediction
              then 1 - model_std / prediction
              else 1 # 2) in
  let confidence := base_confidence * feature_quality in
  Py.max (1 # 10) (Py.min 1 confidence).

End Utils.

(** ** The global numpy random generator *)

Module Random.

(** The state of [np.random]: the unit samples it will hand out, and how
    many were consumed. *)
Record RandomState : Type := { samples : nat -> Q; consumed : nat }.

(** [np.random.random_sample()] *)
Definition random_sample (g : RandomState) : Q * RandomState :=
  (samples g (consumed g),
   {| samples := samples g; consumed := S (consumed g) |}).

(** [np.random.uniform(low, high)] *)
Definition uniform (low high : Q) (g : RandomState) : Q * RandomState :=
  let '(u, g') := random_sample g in
  (low + (high - low) * u, g').

(** The generator only yields samples of the unit interval. *)
Definition unit_samples (g : RandomState) : Prop :=
  forall n, 0 <= samples g n /\ samples g n < 1.

Definition constant (u : Q) : RandomState :=
  {| samples := fun _ => u; consumed := O |}.

End Random.

(** ** A bound regression model *)

Module Model.
Import Pandas.

(** What the services use of the unpickled model object:
    [model.predict(X)[0]], and [model.feature_importances_] when the
    object has the attribute. *)
Record Model : Type := {
  type_name : string;
  predict : DataFrame -> result Q;
  feature_importances_ : option (list Q)
}.

(** An entry of a feature-attribution list: the dictionary with the keys
    ['feature'], ['value'] and ['importance'].  The value is a cell of the
    feature matrix and can be NaN. *)
Record FeatureImportance : Type := {
  feature : string;
  value : option Q;
  importance : Q
}.

(** The value of [model_metadata['metrics']['test_r2']]: a number, or
    some other JSON value. *)
Inductive metric : Type :=
| MNum (r : Q)
| MOther.

Record Metadata : Type := {
  model_name : option string;
  test_r2 : option metric
}.

End Model.

(** ** [backend/ml_utils.py] *)

Module MlUtils.
Import Pandas Sklearn Model Random.

(** The attributes of a [CropYieldPredictor] instance that [predict]
    reads. *)
Record CropYieldPredictor : Type := {
  model : option Model;
  feature_engineer : option Features.FeatureEngineer;
  model_metadata : Metadata;
  crop_encoder : LabelEncoder;
  soil_encoder : LabelEncoder;
  is_fitted : bool
}.

(** [CropYieldPredictor.__init__]: the module-level [predictor] before
    [load_model]. *)
Definition init : CropYieldPredictor :=
  {| model := None;
     feature_engineer := None;
     model_metadata := {| model_name := None; test_r2 := None |};
     crop_encoder :=
       {| classes_ := unique ["rice"; "wheat"; "maize"; "sugarcane"; "cotton";
                              "pulses"; "oilseeds"] |};
     soil_encoder :=
       {| classes_ := unique ["loamy"; "clay"; "sandy"; "silt"; "peat";
                              "alluvial"; "red"; "black"] |};
     is_fitted := false |}.

Definition set_model_metadata (self : CropYieldPredictor) (md : Metadata)
  : CropYieldPredictor :=
  {| model := model self;
     feature_engineer := feature_engineer self;
     model_metadata := md;
     crop_encoder := crop_encoder self;
     soil_encoder := soil_encoder self;
     is_fitted := is_fitted self |}.

(** A scalar of the [additional_features] dictionary. *)
Inductive scalar : Type :=
| SNum (q : Q)
| SStr (s : string).

Definition cell (v : scalar) : Series :=
  match v with
  | SNum q => Num [Some q]
  | SStr s => Obj [s]
  end.

(** [calculate_confidence_score]; the random draw is taken from, and
    advances, the global generator.  The [except] branch is reached when
    the stored metric is not a number. *)
Definition calculate_confidence_score (self : CropYieldPredictor)
    (features_df : DataFrame) (prediction : Q) (g : RandomState)
  : Q * RandomState :=
  let attempt : result Q :=
    let* base_confidence :=
      match test_r2 (model_metadata self) with
      | Some (MNum r2_score) =>
          Ok (Py.min (95 # 100) (Py.max (1 # 2) r2_score))
      | Some MOther => Raise TypeError
      | None => Ok (8 # 10)
      end in
    Ok (if Py.Qltb prediction (1 # 2) || Py.Qltb 15 prediction
        then base_confidence * (8 # 10)
        else base_confidence) in
  match attempt with
  | Ok base_confidence =>
      let '(j, g') := uniform (9 # 10) (11 # 10) g in
      (Py.max (1 # 2) (Py.min (95 # 100) (base_confidence * j)), g')
  | Raise _ => uniform (7 # 10) (9 # 10) g
  end.

(** The locals [lower_bound] and [upper_bound] of
    [calculate_prediction_interval]. *)
Definition interval_bounds (prediction confidence : Q) : Q * Q :=
  let std_error := prediction * (1 - confidence) * (1 # 2) in
  let lower_bound := Py.max 0 (prediction - (196 # 100) * std_error) in
  let upper_bound := prediction + (196 # 100) * std_error in
  (lower_bound, upper_bound).

(** [calculate_prediction_interval] *)
Definition calculate_prediction_interval (prediction confidence : Q)
  : Q * Q :=
  let '(lower_bound, upper_bound) := interval_bounds prediction confidence in
  (Py.round lower_bound 2, Py.round upper_bound 2).

(** [assess_data_quality] *)
Definition assess_data_quality (additional_features : list (string * scalar))
  : Q :=
  let important_features :=
    ["soil_phh2o"; "fertilizer_N"; "gdd"; "solar_mean"] in
  let missing_features :=
    length (List.filter
              (fun feat => negb (existsb (String.eqb feat)
                                   (map fst additional_features)))
              important_features) in
  let quality_score :=
    if (0 <? missing_features)%nat
    then 1 - (inject_Z (Z.of_nat missing_features)
              / inject_Z (Z.of_nat (length important_features))) * (3 # 10)
    else 1 in
  Py.max (3 # 10) quality_score.

(** [list.sort(key=..., reverse=True)]: descending and stable. *)
Fixpoint insert_desc {A : Type} (key : A -> Q) (x : A) (l : list A)
  : list A :=
  match l with
  | [] => [x]
  | y :: l' =>
      if Py.Qleb (key y) (key x) then x :: l else y :: insert_desc key x l'
  end.

Definition sort_desc {A : Type} (key : A -> Q) (l : list A) : list A :=
  fold_right (insert_desc key) [] l.

(** [float(features_df[name].iloc[0])] *)
Definition first_value (df : DataFrame) (name : string)
  : result (option Q) :=
  let* v := get_num df name in
  match v with
  | x :: _ => Ok x
  | [] => Raise IndexError
  end.

(** [get_feature_importance] *)
Definition get_feature_importance (self : CropYieldPredictor)
    (features_df : DataFrame) : list FeatureImportance :=
  match model self with
  | Some m =>
      match feature_importances_ m with
      | Some importances =>
          match mapM (fun ni =>
                        let* v := first_value features_df (fst ni) in
                        Ok {| feature := fst ni; importance := snd ni;
                              value := v |})
                     (zip (columns features_df) importances) with
          | Ok l => sort_desc importance l
          | Raise _ => []
          end
      | None => []
      end
  | None => []
  end.

(** [preprocess_input_basic] *)
Definition preprocess_input_basic (self : CropYieldPredictor)
    (crop soil_type : string) (rainfall temperature humidity : Q)
  : result DataFrame :=
  let known enc x := existsb (String.eqb x) (classes_ enc) in
  let crop := if known (crop_encoder self) crop then crop else "rice" in
  let soil_type :=
    if known (soil_encoder self) soil_type then soil_type else "loamy" in
  let* crop_encoded := transform (crop_encoder self) [crop] in
  let* soil_encoded := transform (soil_encoder self) [soil_type] in
  Ok [("crop_encoded", Num crop_encoded);
      ("soil_encoded", Num soil_encoded);
      ("rainfall", Num [Some rainfall]);
      ("temperature", Num [Some temperature]);
      ("humidity", Num [Some humidity])].

Section WithExtern.
Variable ext : Features.Extern.

(** [preprocess_input_advanced] *)
Definition preprocess_input_advanced (self : CropYieldPredictor)
    (crop soil_type : string) (rainfall temperature humidity : Q)
    (additional_features : option (list (string * scalar)))
  : result DataFrame :=
  let data : DataFrame :=
    [("crop", Obj [crop]); ("soil_type", Obj [soil_type]);
     ("precip_sum", Num [Some rainfall]);
     ("temp_mean", Num [Some temperature]);
     ("humidity_mean", Num [Some humidity]);
     ("year", Num [Some 2024]); ("state", Obj ["Odisha"]);
     ("district", Obj ["Unknown"]); ("area_ha", Num [Some 1])] in
  let data :=
    fold_left (fun d kv => assign d (fst kv) (cell (snd kv)))
      (default [] additional_features) data in
  let defaults : list (string * Q) :=
    [("temp_max", temperature + 5); ("temp_min", temperature - 5);
     ("solar_mean", 18); ("gdd", 2500); ("soil_phh2o", 65 # 10);
     ("soil_soc", 15 # 10); ("soil_clay", 25); ("soil_sand", 45);
     ("soil_silt", 30); ("fertilizer_N", 80); ("fertilizer_P", 40);
     ("fertilizer_K", 40); ("yield_lag1", 3); ("yield_lag2", 29 # 10);
     ("yield_lag3", 31 # 10)] in
  let df :=
    fold_left (fun d kv => if has_col d (fst kv) then d
                           else assign d (fst kv) (Num [Some (snd kv)]))
      defaults data in
  let engineered :=
    match feature_engineer self with
    | Some fe =>
        match Features.prepare_features ext fe df "yield_t_ha" false true with
        | Ok (X, _, _) => Some X
        | Raise _ => None
        end
    | None => None
    end in
  match engineered with
  | Some X => Ok X
  | None =>
      preprocess_input_basic self crop soil_type rainfall temperature
        humidity
  end.

Record PredictionInfo : Type := {
  model_type : string;
  feature_count : nat;
  top_features : list FeatureImportance;
  data_quality : Q;
  prediction_interval : Q * Q
}.

(** [predict] *)
Definition predict (self : CropYieldPredictor)
    (crop soil_type : string) (rainfall temperature humidity : Q)
    (additional_features : option (list (string * scalar)))
    (g : RandomState)
  : result ((Q * Q * PredictionInfo) * RandomState) :=
  match is_fitted self, model self with
  | true, Some m =>
      let* features_df :=
        preprocess_input_advanced self crop soil_type rainfall
          temperature humidity additional_features in
      let* yield_prediction := Model.predict m features_df in
      let '(confidence, g') :=
        calculate_confidence_score self features_df yield_prediction g in
      let feature_importance := get_feature_importance self features_df in
      let prediction_info :=
        {| model_type :=
             default (type_name m) (model_name (model_metadata self));
           feature_count := length (columns features_df);
           top_features := take 5 feature_importance;
           data_quality :=
             assess_data_quality (default [] additional_features);
           prediction_interval :=
             calculate_prediction_interval yield_prediction confidence |} in
      Ok ((yield_prediction, confidence, prediction_info), g')
  | _, _ => Raise (ValueError "Model not loaded. Please load the model first.")
  end.

End WithExtern.

End MlUtils.

(** ** [src/api/predict.py] *)

Module Predict.
Import Pandas Model.

Record FarmerInputs : Type := {
  area_ha : option Q;
  sowing_date : option string;
  fertilizer_N_kg : option Q;
  fertilizer_P_kg : option Q;
  fertilizer_K_kg : option Q;
  irrigation_events : option Z;
  cultivar : option string
}.

Record PredictionRequest : Type := {
  latitude : Q;
  longitude : Q;
  state : string;
  district : string;
  crop : string;
  year : Z;
  farmer_inputs : option FarmerInputs;
  use_satellite : bool;
  language : option string
}.

(** The value of [fetch_external_data]: two dictionaries of seasonal
    aggregates, either of which may be empty. *)
Record ExternalData : Type := {
  weather : list (string * Q);
  soil : list (string * Q)
}.

(** [datetime.now()], as far as the services read it. *)
Record Clock : Type := {
  now_year : Z;
  now_month : Z;
  now_isoformat : string
}.

(** The dictionary [result] that [PredictionService.predict] returns. *)
Record PredictionResult : Type := {
  predicted_yield : Q;
  prediction_interval : Q * Q;
  confidence : Q;
  top_features : list FeatureImportance;
  model_version : string;
  timestamp : string;
  data_quality : Q
}.

Record PredictionService : Type := {
  model : option Model;
  feature_engineer : Features.FeatureEngineer;
  model_metadata : Metadata
}.

Definition update (data : DataFrame) (d : list (string * Q)) : DataFrame :=
  fold_left (fun acc kv => assign acc (fst kv) (Num [Some (snd kv)])) d data.

(** [create_input_dataframe] *)
Definition create_input_dataframe (request : PredictionRequest)
    (external_data : ExternalData) : DataFrame :=
  let data : DataFrame :=
    [("year", Num [Some (inject_Z (year request))]);
     ("state", Obj [state request]);
     ("district", Obj [district request]);
     ("crop", Obj [crop request]);
     ("area_ha", Num [Some 1]);
     ("production_tonnes", Num [Some 0])] in
  let data := update data (weather external_data) in
  let data := update data (soil external_data) in
  match farmer_inputs request with
  | Some fi =>
      let put (name : string) (v : option Q) (d : DataFrame) : DataFrame :=
        match v with
        | Some q => assign d name (Num [Some q])
        | None => d
        end in
      put "irrigation_freq" (option_map inject_Z (irrigation_events fi))
        (put "fertilizer_K" (fertilizer_K_kg fi)
           (put "fertilizer_P" (fertilizer_P_kg fi)
              (put "fertilizer_N" (fertilizer_N_kg fi)
                 (put "area_ha" (area_ha fi) data))))
  | None => data
  end.

Definition weather_defaults : list (string * Q) :=
  [("precip_sum", 800); ("precip_mean", 45 # 10); ("temp_mean", 26);
   ("temp_max", 32); ("temp_min", 20); ("humidity_mean", 75);
   ("solar_mean", 18); ("gdd", 2500)].

Definition soil_defaults : list (string * Q) :=
  [("soil_phh2o", 65 # 10); ("soil_soc", 15 # 10); ("soil_clay", 25);
   ("soil_sand", 45); ("soil_silt", 30); ("soil_cec", 15);
   ("soil_nitrogen", 15 # 100)].

Definition lag_defaults : list (string * Q) :=
  [("yield_lag1", 3); ("yield_lag2", 29 # 10); ("yield_lag3", 31 # 10);
   ("yield_lag3_mean", 3); ("yield_trend", 5 # 100)].

Definition fill_missing (df : DataFrame) (defaults : list (string * Q))
  : DataFrame :=
  fold_left (fun d kv => if has_col d (fst kv) then d
                         else assign d (fst kv)
                                (Num (repeat (Some (snd kv)) (nrows d))))
    defaults df.

(** [add_default_features] *)
Definition add_default_features (df : DataFrame) : DataFrame :=
  fill_missing (fill_missing (fill_missing df weather_defaults) soil_defaults)
    lag_defaults.

Definition count_missing (keys : list string) (d : list (string * Q)) : Q :=
  inject_Z (Z.of_nat
    (length (List.filter
               (fun k => negb (existsb (String.eqb k) (map fst d))) keys))).

(** [assess_data_quality] *)
Definition assess_data_quality (external_data : ExternalData) : Q :=
  let quality_score := 1 in
  let quality_score :=
    match weather external_data with
    | [] => quality_score - (3 # 10)
    | w => quality_score
           - (count_missing ["precip_sum"; "temp_mean"; "gdd"] w / 3) * (2 # 10)
    end in
  let quality_score :=
    match soil external_data with
    | [] => quality_score - (2 # 10)
    | sl => quality_score
            - (count_missing ["soil_phh2o"; "soil_soc"; "soil_clay"] sl / 3)
              * (1 # 10)
    end in
  Py.max (1 # 10) quality_score.

Definition round_cell (x : option Q) (n : nat) : option Q :=
  option_map (fun q => Py.round q n) x.

(** [get_top_features] with [top_k=5] *)
Definition get_top_features (self : PredictionService) (X : DataFrame)
  : list FeatureImportance :=
  let attempt : result (list FeatureImportance) :=
    match model self ≫= feature_importances_ with
    | Some importances =>
        let pairs := MlUtils.sort_desc snd (zip (columns X) importances) in
        mapM (fun ni =>
                let* v := MlUtils.first_value X (fst ni) in
                Ok {| feature := fst ni;
                      value := round_cell v 3;
                      importance := Py.round (snd ni) 4 |})
             (take 5 pairs)
    | None =>
        mapM (fun col =>
                let* v := MlUtils.first_value X col in
                Ok {| feature := col;
                      value := round_cell v 3;
                      importance := 1 # 10 |})
             (take 5 (columns X))
    end in
  match attempt with
  | Ok l => l
  | Raise _ => []
  end.

Definition sum (l : list Q) : Q := fold_left Qplus l 0.

Section WithExtern.
Variable ext : Features.Extern.

(** [predict], given the external data that [fetch_external_data]
    returned and the clock. *)
Definition predict (self : PredictionService) (clock : Clock)
    (request : PredictionRequest) (external_data : ExternalData)
  : result PredictionResult :=
  if negb (Utils.validate_coordinates (latitude request) (longitude request))
  then Raise (ValueError "Invalid coordinates")
  else if negb (Utils.validate_year (now_year clock) (year request))
  then Raise (ValueError "Invalid year")
  else
    let input_df := create_input_dataframe request external_data in
    let input_df := add_default_features input_df in
    let* (X, _, _) :=
      Features.prepare_features ext (feature_engineer self) input_df
        "yield_t_ha" false false in
    match model self with
    | None => Raise AttributeError
    | Some m =>
        let* prediction := Model.predict m X in
        let prediction_std :=
          match feature_importances_ m with
          | Some importances => Py.max (2 # 10) (1 - sum importances)
          | None => 3 # 10
          end in
        let lower := Py.max 0 (prediction - (196 # 100) * prediction_std) in
        let upper := prediction + (196 # 100) * prediction_std in
        let data_quality := assess_data_quality external_data in
        let confidence :=
          Utils.calculate_confidence_score prediction prediction_std
            data_quality in
        let top_features := get_top_features self X in
        Ok {| predicted_yield := Py.round prediction 2;
              prediction_interval := (Py.round lower 2, Py.round upper 2);
              confidence := Py.round confidence 3;
              top_features := top_features;
              model_version :=
                default "unknown" (model_name (model_metadata self));
              timestamp := now_isoformat clock;
              data_quality := data_quality |}
    end.

End WithExtern.

End Predict.

(** ** [src/api/advisory.py] *)

Module Advisory.
Import Model Predict.

Local Open Scope string_scope.
Local Notation "a +++ b" := (String.append a b)
  (at level 60, right associativity).

Record IrrigationRules : Type := {
  low_rainfall_threshold : Q;
  high_rainfall_threshold : Q;
  optimal_irrigation_events : Z;
  critical_growth_stages : list string
}.

Record FertilizerRules : Type := {
  N_recommended : Z;
  P_recommended : Z;
  K_recommended : Z;
  split_applications : Z
}.

Record PestRules : Type := {
  high_humidity_threshold : Q;
  high_temp_threshold : Q;
  rainfall_pest_threshold : Q
}.

Record YieldThresholds : Type := { low : Q; medium : Q; high : Q }.

Record AdvisoryRules : Type := {
  irrigation : IrrigationRules;
  fertilizer : gmap string FertilizerRules;
  pest_risk : PestRules;
  yield_thresholds : gmap string YieldThresholds
}.

Definition rice_fertilizer : FertilizerRules :=
  {| N_recommended := 120; P_recommended := 60; K_recommended := 40;
     split_applications := 3 |}.
Definition wheat_fertilizer : FertilizerRules :=
  {| N_recommended := 100; P_recommended := 50; K_recommended := 30;
     split_applications := 2 |}.
Definition rice_thresholds : YieldThresholds :=
  {| low := 2; medium := 35 # 10; high := 5 |}.
Definition wheat_thresholds : YieldThresholds :=
  {| low := 15 # 10; medium := 25 # 10; high := 4 |}.

(** [load_advisory_rules] *)
Definition load_advisory_rules : AdvisoryRules :=
  {| irrigation :=
       {| low_rainfall_threshold := 500;
          high_rainfall_threshold := 1200;
          optimal_irrigation_events := 8;
          critical_growth_stages :=
            ["tillering"; "flowering"; "grain_filling"] |};
     fertilizer :=
       <["wheat" := wheat_fertilizer]> (<["rice" := rice_fertilizer]> ∅);
     pest_risk :=
       {| high_humidity_threshold := 80;
          high_temp_threshold := 30;
          rainfall_pest_threshold := 100 |};
     yield_thresholds :=
       <["wheat" := wheat_thresholds]> (<["rice" := rice_thresholds]> ∅) |}.

(** The engine: [self.advisory_rules], set once by [__init__]. *)
Record AdvisoryEngine : Type := { advisory_rules : AdvisoryRules }.

Definition new : AdvisoryEngine :=
  {| advisory_rules := load_advisory_rules |}.

(** [{f['feature']: f['value'] for f in prediction_result['top_features']}]:
    a later entry of the list overwrites an earlier one of the same name. *)
Definition feature_dict (prediction_result : PredictionResult)
  : gmap string (option Q) :=
  fold_left (fun d f => <[feature f := value f]> d)
    (top_features prediction_result) ∅.

(** [d.get(key, default)] *)
Definition get_or (d : gmap string (option Q)) (key : string) (dflt : Q)
  : option Q :=
  default (Some dflt) (d !! key).

(** Comparisons of a cell with a number; with NaN they are [False]. *)
Definition cell_lt (x : option Q) (c : Q) : bool :=
  match x with Some q => Py.Qltb q c | None => false end.
Definition cell_gt (x : option Q) (c : Q) : bool :=
  match x with Some q => Py.Qltb c q | None => false end.

(** [f"{x:.<d>f}"] of a cell *)
Definition fmt (d : nat) (x : option Q) : string :=
  match x with Some q => Py.format_f d q | None => "nan" end.

Definition str_Z (z : Z) : string := Py.str_of_Z z.

(** [generate_irrigation_advisory] *)
Definition generate_irrigation_advisory (self : AdvisoryEngine)
    (prediction_result : PredictionResult) (request : PredictionRequest)
  : string :=
  let top_features := feature_dict prediction_result in
  let precip_sum := get_or top_features "precip_sum" 800 in
  let precip_mean := get_or top_features "precip_mean" 4 in
  let current_irrigation : Z :=
    match farmer_inputs request with
    | Some fi =>
        match irrigation_events fi with
        | Some n => if (n =? 0)%Z then 0%Z else n
        | None => 0%Z
        end
    | None => 0%Z
    end in
  let rules := irrigation (advisory_rules self) in
  let advisory :=
    if cell_lt precip_sum (low_rainfall_threshold rules) then
      let recommended_events := (optimal_irrigation_events rules + 2)%Z in
      "Low rainfall detected (" +++ fmt 0 precip_sum +++ "mm). "
      +++ "Increase irrigation to " +++ str_Z recommended_events
      +++ " events. "
      +++ "Apply 50-60mm per irrigation. "
      +++ "Focus on critical growth stages: tillering and flowering."
    else if cell_gt precip_sum (high_rainfall_threshold rules) then
      "High rainfall detected (" +++ fmt 0 precip_sum +++ "mm). "
      +++ "Reduce irrigation frequency. Monitor for waterlogging. "
      +++ "Ensure proper drainage. Apply irrigation only during dry spells."
    else
      let recommended_events := optimal_irrigation_events rules in
      "Normal rainfall pattern (" +++ fmt 0 precip_sum +++ "mm). "
      +++ "Maintain " +++ str_Z recommended_events
      +++ " irrigation events. "
      +++ "Apply 40-50mm per irrigation. "
      +++ "Monitor soil moisture at 15cm depth." in
  advisory
  +++ " Best irrigation times: early morning (6-8 AM) or evening (6-8 PM).".

(** [x or 0] for an optional number *)
Definition or_zero (x : option Q) : Q :=
  match x with
  | Some q => q
  | None => 0
  end.

(** The crop table that [generate_fertilizer_advisory] uses:
    [rules.get(crop, rules['rice'])].  The literal table always has
    the key ['rice']. *)
Definition crop_fertilizer_rules (self : AdvisoryEngine) (crop : string)
  : FertilizerRules :=
  let table := fertilizer (advisory_rules self) in
  default (default rice_fertilizer (table !! "rice")) (table !! crop).

(** The local [recommended_n] of [generate_fertilizer_advisory] after the
    soil adjustments: the nitrogen target that the text is written from. *)
Definition nitrogen_target (self : AdvisoryEngine)
    (prediction_result : PredictionResult) (request : PredictionRequest)
  : Z :=
  let crop := Py.lower (crop request) in
  let top_features := feature_dict prediction_result in
  let soil_organic := get_or top_features "soil_soc" (15 # 10) in
  let recommended_n := N_recommended (crop_fertilizer_rules self crop) in
  if cell_lt soil_organic 1 then (recommended_n + 20)%Z else recommended_n.

(** [generate_fertilizer_advisory] *)
Definition generate_fertilizer_advisory (self : AdvisoryEngine)
    (prediction_result : PredictionResult) (request : PredictionRequest)
  : string :=
  let crop := Py.lower (crop request) in
  let top_features := feature_dict prediction_result in
  let soil_ph := get_or top_features "soil_phh2o" (65 # 10) in
  let soil_organic := get_or top_features "soil_soc" (15 # 10) in
  let soil_nitrogen := get_or top_features "soil_nitrogen" (15 # 100) in
  let '(current_n, current_p, current_k) :=
    match farmer_inputs request with
    | Some fi => (or_zero (fertilizer_N_kg fi),
                  or_zero (fertilizer_P_kg fi),
                  or_zero (fertilizer_K_kg fi))
    | None => (0, 0, 0)
    end in
  let crop_rules := crop_fertilizer_rules self crop in
  let recommended_p := P_recommended crop_rules in
  let recommended_k := K_recommended crop_rules in
  let advisory :=
    if cell_lt soil_ph 6 then
      "Soil pH is low (" +++ fmt 1 soil_ph
      +++ "). Apply lime before fertilization. "
    else if cell_gt soil_ph (75 # 10) then
      "Soil pH is high (" +++ fmt 1 soil_ph
      +++ "). Consider sulfur application. "
    else
      "Soil pH is optimal (" +++ fmt 1 soil_ph +++ "). " in
  let recommended_n := nitrogen_target self prediction_result request in
  let advisory :=
    if cell_lt soil_organic 1 then
      advisory +++ "Low organic matter detected. Increase nitrogen to "
      +++ str_Z recommended_n +++ " kg/ha. "
    else advisory in
  let n_gap := inject_Z recommended_n - current_n in
  let advisory :=
    if Py.Qltb 10 n_gap then
      advisory +++ "Apply additional " +++ Py.format_f 0 n_gap
      +++ " kg/ha nitrogen. "
    else if Py.Qltb n_gap (-10) then
      advisory +++ "Reduce nitrogen by " +++ Py.format_f 0 (Py.abs n_gap)
      +++ " kg/ha to avoid lodging. "
    else
      advisory +++ "Current nitrogen level is adequate. " in
  let advisory :=
    if Py.Qltb current_p (inject_Z recommended_p) then
      advisory +++ "Apply "
      +++ Py.format_f 0 (inject_Z recommended_p - current_p)
      +++ " kg/ha phosphorus. "
    else advisory in
  let advisory :=
    if Py.Qltb current_k (inject_Z recommended_k) then
      advisory +++ "Apply "
      +++ Py.format_f 0 (inject_Z recommended_k - current_k)
      +++ " kg/ha potassium. "
    else advisory in
  let splits := split_applications crop_rules in
  let advisory :=
    advisory +++ "Split fertilizer application into " +++ str_Z splits
    +++ " doses: " in
  if String.eqb crop "rice" then
    advisory +++ "basal (50%), tillering (25%), panicle initiation (25%)."
  else
    advisory +++ "basal (60%), tillering/jointing (40%).".

(** The locals [risk_level] and [risk_factors] of [generate_pest_advisory]
    once its three checks have run, in order. *)
Definition assess_pest_risk (self : AdvisoryEngine)
    (humidity temp_max precip_sum : option Q) : string * list string :=
  let rules := pest_risk (advisory_rules self) in
  let risk_level := "Low" in
  let risk_factors : list string := [] in
  let '(risk_level, risk_factors) :=
    if cell_gt humidity (high_humidity_threshold rules)
    then ("High", (risk_factors ++ ["high humidity"])%list)
    else (risk_level, risk_factors) in
  let '(risk_level, risk_factors) :=
    if cell_gt temp_max (high_temp_threshold rules)
    then ((if negb (Py.contains risk_level "High") then "Medium"
           else risk_level),
          (risk_factors ++ ["high temperature"])%list)
    else (risk_level, risk_factors) in
  if cell_gt precip_sum 1000
  then ("High", (risk_factors ++ ["excessive rainfall"])%list)
  else (risk_level, risk_factors).

(** [generate_pest_advisory] *)
Definition generate_pest_advisory (self : AdvisoryEngine)
    (prediction_result : PredictionResult) (request : PredictionRequest)
  : string :=
  let top_features := feature_dict prediction_result in
  let crop := Py.lower (crop request) in
  let humidity := get_or top_features "humidity_mean" 75 in
  let temp_max := get_or top_features "temp_max" 30 in
  let precip_sum := get_or top_features "precip_sum" 800 in
  let '(risk_level, risk_factors) :=
    assess_pest_risk self humidity temp_max precip_sum in
  let advisory := risk_level +++ " pest risk detected" in
  let advisory :=
    match risk_factors with
    | [] => advisory +++ ". "
    | _ => advisory +++ " due to " +++ Py.join ", " risk_factors +++ ". "
    end in
  let advisory :=
    if String.eqb crop "rice" then
      if String.eqb risk_level "High" then
        advisory +++ "Monitor for blast, brown spot, and stem borer. "
        +++ "Apply preventive fungicide spray. "
        +++ "Use pheromone traps for stem borer control. "
      else if String.eqb risk_level "Medium" then
        advisory +++ "Regular field monitoring recommended. "
        +++ "Watch for early signs of blast and bacterial blight. "
      else
        advisory +++ "Continue regular field inspection. "
        +++ "Maintain field hygiene. "
    else
      if String.eqb risk_level "High" then
        advisory +++ "Increase field monitoring frequency. "
        +++ "Consider preventive spray if weather continues. "
      else
        advisory +++ "Regular monitoring sufficient. "
        +++ "Maintain good field sanitation. " in
  advisory +++ "Use integrated pest management: "
  +++ "biological control, resistant varieties, and targeted pesticide use.".

(** [generate_general_advisory]; [clock] is [datetime.now()]. *)
Definition generate_general_advisory (self : AdvisoryEngine) (clock : Clock)
    (prediction_result : PredictionResult) (request : PredictionRequest)
  : string :=
  let predicted_yield := predicted_yield prediction_result in
  let confidence := confidence prediction_result in
  let crop := Py.lower (crop request) in
  let table := yield_thresholds (advisory_rules self) in
  let thresholds :=
    default (default rice_thresholds (table !! "rice")) (table !! crop) in
  let '(yield_category, improvement_potential) :=
    if Py.Qltb predicted_yield (low thresholds)
    then ("below average", "high")
    else if Py.Qltb predicted_yield (medium thresholds)
    then ("average", "medium")
    else ("above average", "low") in
  let advisory :=
    "Predicted yield is " +++ yield_category +++ " ("
    +++ Py.format_f 1 predicted_yield +++ " t/ha). " in
  let advisory :=
    if String.eqb improvement_potential "high" then
      advisory +++ "Significant improvement possible through: "
      +++ "soil testing, balanced nutrition, timely operations, "
      +++ "and improved varieties. "
    else if String.eqb improvement_potential "medium" then
      advisory +++ "Moderate improvement possible through: "
      +++ "precision nutrient management and pest control. "
    else
      advisory +++ "Maintain current good practices. "
      +++ "Focus on cost optimization and sustainability. " in
  let advisory :=
    if Py.Qltb confidence (6 # 10) then
      advisory +++ "Prediction confidence is moderate. "
      +++ "Consider multiple information sources for decision making. "
    else advisory in
  let current_month := now_month clock in
  let advisory :=
    if String.eqb crop "rice" && (4 <=? current_month)%Z
       && (current_month <=? 6)%Z then
      advisory
      +++ "Prepare for kharif season: check seed quality, repair equipment."
    else if String.eqb crop "wheat" && (10 <=? current_month)%Z
            && (current_month <=? 12)%Z then
      advisory
      +++ "Prepare for rabi season: ensure timely sowing for optimal yield."
    else advisory in
  advisory
  +++ "Monitor market prices and consider value addition opportunities. "
  +++ "Maintain harvest and post-harvest records for better planning.".

Record AdvisoryBundle : Type := {
  irrigation_text : string;
  fertilizer_text : string;
  pest_text : string;
  general_text : string;
  disclaimer : option string
}.

Record AdvisoryResult : Type := {
  advisory : AdvisoryBundle;
  advisory_confidence : Q;
  based_on_features : list string
}.

(** [generate_advisory] *)
Definition generate_advisory (self : AdvisoryEngine) (clock : Clock)
    (prediction_result : PredictionResult) (request : PredictionRequest)
  : AdvisoryResult :=
  let confidence := confidence prediction_result in
  {| advisory :=
       {| irrigation_text :=
            generate_irrigation_advisory self prediction_result request;
          fertilizer_text :=
            generate_fertilizer_advisory self prediction_result request;
          pest_text :=
            generate_pest_advisory self prediction_result request;
          general_text :=
            generate_general_advisory self clock prediction_result request;
          disclaimer :=
            if Py.Qltb confidence (7 # 10) then
              Some ("Recommendations are based on limited data. "
                    +++ "Consider consulting local agricultural experts.")
            else None |};
     advisory_confidence := confidence;
     based_on_features :=
       map feature (take 3 (top_features prediction_result)) |}.

End Advisory.

(** ** [src/utils.py]: yield-gap analysis and the configuration manager *)

Module Report.

(** The dictionary that [calculate_yield_gap] returns. *)
Record YieldGap : Type := {
  predicted_yield : Q;
  potential_yield : Q;
  yield_gap : Q;
  yield_gap_percent : Q;
  efficiency : Q
}.

(** [calculate_yield_gap].  The subtraction and the divisions are exact
    here and rounded in the code, so the properties proved of the
    figures are comparisons that rounding preserves, not identities. *)
Definition calculate_yield_gap (predicted : Q) (potential : option Q)
  : YieldGap :=
  let potential :=
    match potential with
    | None => 6
    | Some p => p
    end in
  let gap := potential - predicted in
  {| predicted_yield := predicted;
     potential_yield := potential;
     yield_gap := gap;
     yield_gap_percent :=
       if Py.Qltb 0 potential then (gap / potential) * 100 else 0;
     efficiency :=
       if Py.Qltb 0 potential then (predicted / potential) * 100 else 0 |}.

(** [generate_improvement_suggestions]; the feature dictionary holds
    numbers. *)
Definition generate_improvement_suggestions (analysis : YieldGap)
    (input_features : gmap string Q) : list string :=
  let suggestions : list string := [] in
  let suggestions :=
    if Py.Qltb 20 (yield_gap_percent analysis) then
      suggestions ++ ["Consider soil testing and nutrient management";
                      "Optimize irrigation scheduling";
                      "Use improved seed varieties"]
    else suggestions in
  let suggestions :=
    if Py.Qltb 30 (yield_gap_percent analysis) then
      suggestions ++ ["Implement integrated pest management";
                      "Consider precision agriculture techniques"]
    else suggestions in
  match input_features !! "soil_ph" with
  | Some ph =>
      if Py.Qltb ph 6 then
        suggestions ++ ["Apply lime to increase soil pH"]
      else if Py.Qltb (75 # 10) ph then
        suggestions ++ ["Apply organic matter to reduce soil pH"]
      else suggestions
  | None => suggestions
  end.

End Report.

Module Config.

(** A reference to a [dict] object of the interpreter. *)
Definition ref : Type := nat.

(** A configuration value: a JSON scalar, a list, or a reference to a
    [dict] object.  Two values that hold the same reference are the same
    dictionary: a change made through one is seen through the other. *)
#[warnings="-register-all"]
Inductive value : Type :=
| VNull
| VBool (b : bool)
| VNum (q : Q)
| VStr (s : string)
| VList (l : list value)
| VDict (r : ref).

(** [isinstance(value, dict)] *)
Definition is_dict (j : value) : bool :=
  match j with VDict _ => true | _ => false end.

(** [k in d] and [d[k]] on the entries of a dict object, in insertion
    order. *)
Fixpoint dict_get (d : list (string * value)) (k : string) : option value :=
  match d with
  | [] => None
  | (k', v) :: d' => if String.eqb k' k then Some v else dict_get d' k
  end.

(** [d[k] = v] *)
Fixpoint dict_set (d : list (string * value)) (k : string) (v : value)
  : list (string * value) :=
  match d with
  | [] => [(k, v)]
  | (k', v') :: d' =>
      if String.eqb k' k then (k', v) :: d' else (k', v') :: dict_set d' k v
  end.

(** [key.split('.')]: never empty. *)
Fixpoint split_dot (key : string) : list string :=
  match key with
  | EmptyString => [EmptyString]
  | String c rest =>
      if Ascii.eqb c "."%char then EmptyString :: split_dot rest
      else match split_dot rest with
           | [] => [String c EmptyString]
           | h :: t => String c h :: t
           end
  end.

(** The dict objects that exist, by reference. *)
Abbreviation Heap := (gmap nat (list (string * value))).

(** The text files, by path. *)
Abbreviation Files := (gmap string string).

(** The attributes of a [ConfigManager]; [config] is bound once, by
    [__init__], and [set] changes the objects it refers to. *)
Record ConfigManager : Type := {
  config_file : string;
  config : value
}.

(** [get_default_config]: the value it returns and the six dict objects
    it builds. *)
Definition get_default_config : value * Heap :=
  (VDict 0%nat,
   {[ 0%nat := [("model", VDict 1%nat); ("data", VDict 2%nat); ("api", VDict 4%nat);
                ("translation", VDict 5%nat)];
      1%nat := [("default_model_path", VStr "models/best_model.json");
                ("confidence_threshold", VNum (6 # 10));
                ("prediction_interval_confidence", VNum (95 # 100))];
      2%nat := [("default_location", VDict 3%nat);
                ("valid_crops", VList [VStr "rice"; VStr "wheat"; VStr "maize"]);
                ("year_range", VList [VNum 2000; VNum 2030])];
      3%nat := [("lat", VNum (20508973 # 1000000));
                ("lon", VNum (86418039 # 1000000));
                ("district", VStr "Kendrapara");
                ("state", VStr "Odisha")];
      4%nat := [("nasa_power_base_url",
                 VStr "https://power.larc.nasa.gov/api/temporal/daily/point");
                ("soilgrids_base_url",
                 VStr "https://rest.isric.org/soilgrids/v2.0/properties/query");
                ("request_timeout", VNum 30)];
      5%nat := [("supported_languages", VList [VStr "en"; VStr "or"]);
                ("default_language", VStr "en");
                ("cache_translations", VBool true)] ]}).

(** The loop of [get] over the split key. *)
Fixpoint get_path (h : Heap) (v : value) (keys : list string) (dflt : value)
  : value :=
  match keys with
  | [] => v
  | k :: keys' =>
      match v with
      | VDict r =>
          match h !! r with
          | Some d =>
              match dict_get d k with
              | Some v' => get_path h v' keys' dflt
              | None => dflt
              end
          | None => dflt
          end
      | _ => dflt
      end
  end.

(** [get] *)
Definition get (self : ConfigManager) (h : Heap) (key : string)
    (dflt : value) : value :=
  get_path h (config self) (split_dot key) dflt.

(** The loop of [set] over [keys[:-1]] and the final assignment.  The
    dict objects are changed in place; a missing key gets a new, empty
    dict object.  A value on the path that is not a [dict] makes the
    membership test, the indexing or the item assignment raise
    [TypeError].  (A reference always names an object of the heap; the
    case of a reference without an object is not reached.) *)
Fixpoint set_path (h : Heap) (config : value) (keys : list string)
    (last : string) (v : value) : result Heap :=
  match config with
  | VDict r =>
      match h !! r with
      | Some d =>
          match keys with
          | [] => Ok (<[r := dict_set d last v]> h)
          | k :: keys' =>
              match dict_get d k with
              | Some sub => set_path h sub keys' last v
              | None =>
                  let r' := fresh (dom h) in
                  let h' :=
                    <[r' := []]> (<[r := dict_set d k (VDict r')]> h) in
                  set_path h' (VDict r') keys' last v
              end
          end
      | None => Raise TypeError
      end
  | _ => Raise TypeError
  end.

Section WithJson.

(** [json.dumps] of a value and the objects it refers to; it raises on a
    circular reference. *)
Variable json_dumps : Heap -> value -> result string.

(** [save_config] *)
Definition save_config (self : ConfigManager) (h : Heap) (files : Files)
  : result Files :=
  let* text := json_dumps h (config self) in
  Ok (<[config_file self := text]> files).

(** [set]: the objects after the assignment and the files after the
    save. *)
Definition set (self : ConfigManager) (h : Heap) (key : string) (v : value)
    (files : Files) : result (Heap * Files) :=
  let keys := split_dot key in
  let* h' :=
    set_path h (config self) (removelast keys) (List.last keys EmptyString)
      v in
  let* files' := save_config self h' files in
  Ok (h', files').

End WithJson.

End Config.

(** ** [src/api/advisory.py]: [get_advisory_confidence] *)

Module AdvisoryConfidence.


End AdvisoryConfidence.

(** ** [backend/main.py]: the [/predict] endpoint *)

Module BackendMain.
Import Random.

(** [backend/models.py]: the request body. *)
Record PredictionRequest : Type := {
  crop : string;
  soil_type : string;
  rainfall : Q;
  temperature : Q;
  humidity : Q
}.

(** [backend/models.py]: the response body. *)
Record PredictionResponse : Type := {
  yield_estimate : Q;
  confidence : Q;
  inputs_used : PredictionRequest
}.

(** What the endpoint does: it returns a response or raises
    [HTTPException(status_code, detail)]. *)
Inductive outcome : Type :=
| Returned (response : PredictionResponse)
| HTTPException (status_code : Z) (detail : string).

(** What can be raised inside the [try] block: a Python exception, or the
    [HTTPException] that the block raises itself. *)
Inductive raised : Type :=
| PyError (e : exn)
| Http (status_code : Z) (detail : string).

(** [str(e)] of the exceptions that carry a message. *)
Definition str_of_exn (e : exn) : string :=
  match e with
  | ValueError msg => msg
  | KeyError k => k
  | _ => ""
  end.

(** The assignment [yield_estimate, confidence = t] for the tuple of three
    values that [CropYieldPredictor.predict] returns: two targets cannot
    take three values. *)
Definition unpack_two {A B C : Type} (t : A * B * C) : result (A * B) :=
  Raise (ValueError "too many values to unpack (expected 2)").

Section WithExtern.
Variable ext : Features.Extern.

(** The [try] block of [predict_yield]. *)
Definition predict_yield_body (predictor : MlUtils.CropYieldPredictor)
    (request : PredictionRequest) (g : RandomState)
  : PredictionResponse + raised :=
  if negb (MlUtils.is_fitted predictor) then
    inr (Http 503 "ML model not loaded. Please check server logs.")
  else
    match MlUtils.predict ext predictor (crop request) (soil_type request)
            (rainfall request) (temperature request) (humidity request)
            None g with
    | Raise e => inr (PyError e)
    | Ok (t, _) =>
        match unpack_two t with
        | Raise e => inr (PyError e)
        | Ok (yield_estimate, confidence) =>
            inl {| yield_estimate := Py.round yield_estimate 2;
                   confidence := Py.round confidence 2;
                   inputs_used := request |}
        end
    end.

(** [predict_yield]: the block and its two handlers, [except ValueError]
    and [except Exception]; [HTTPException] is an [Exception]. *)
Definition predict_yield (predictor : MlUtils.CropYieldPredictor)
    (request : PredictionRequest) (g : RandomState) : outcome :=
  match predict_yield_body predictor request g with
  | inl response => Returned response
  | inr (PyError (ValueError msg)) => HTTPException 400 msg
  | inr _ => HTTPException 500 "Internal server error during prediction"
  end.

End WithExtern.

End BackendMain.

(** ** Notions used in the further statements *)

(** The numbers of the list never increase. *)
Definition descending (l : list Q) : Prop :=
  StronglySorted (fun a b => b <= a) l.

(** The names that [add_default_features] fills in. *)
Definition default_names : list string :=
  map fst (Predict.weather_defaults ++ Predict.soil_defaults
           ++ Predict.lag_defaults).

(** The strict order of strings by character code, the order of
    [np.unique]. *)
Abbreviation string_lt := OrderedTypeEx.String_as_OT.lt.

(** The dict objects that the loop of [ConfigManager.set] visits for the
    segments [keys], before it changes anything. *)
Fixpoint path_refs (h : Config.Heap) (v : Config.value) (keys : list string)
  : list Config.ref :=
  match v with
  | Config.VDict r =>
      r :: match keys with
           | [] => []
           | k :: keys' =>
               match h !! r with
               | Some d =>
                   match Config.dict_get d k with
                   | Some sub => path_refs h sub keys'
                   | None => []
                   end
               | None => []
               end
           end
  | _ => []
  end.

(** * Notions used in the statements *)

Section StatementNotions.
Import Pandas Sklearn Features Model Predict Advisory.

(** Every column of the frame is numeric. *)
Definition all_numeric (X : DataFrame) : Prop :=
  Forall (fun cs => Features.is_numeric (snd cs) = true) X.

(** [x in known_vals] *)
Definition known (enc : LabelEncoder) (x : string) : bool :=
  existsb (String.eqb x) (classes_ enc).

(** The integer that [transform] gives a learned label (0 for one that was
    never learned, where [transform] itself raises). *)
Definition label_code (enc : LabelEncoder) (x : string) : option Q :=
  Some (inject_Z (Z.of_nat (default O (index_of x (classes_ enc))))).

(** The label that the serve-time branch encodes in place of [x]. *)
Definition remap (enc : LabelEncoder) (x : string) : string :=
  if known enc x then x else hd x (classes_ enc).

(** The integer that serve-time encoding produces for the label [x]. *)
Definition serve_code (enc : LabelEncoder) (x : string) : option Q :=
  label_code enc (remap enc x).

(** The text that follows the pH sentence when nothing but the crop table
    decides the amounts. *)
Definition base_table_advice (crop_name : string) : string :=
  let rules := crop_fertilizer_rules new crop_name in
  String.append "Apply additional "
    (String.append (str_Z (N_recommended rules))
       (String.append " kg/ha nitrogen. Apply "
          (String.append (str_Z (P_recommended rules))
             (String.append " kg/ha phosphorus. Apply "
                (String.append (str_Z (K_recommended rules))
                   (String.append " kg/ha potassium. Split fertilizer application into "
                      (String.append (str_Z (split_applications rules))
                         (String.append " doses: "
                            (if String.eqb crop_name "rice"
                             then "basal (50%), tillering (25%), panicle initiation (25%)."
                             else "basal (60%), tillering/jointing (40%).")))))))))%string.

End StatementNotions.

(** * Sample inputs *)

Section Examples.
Import Pandas Sklearn Features.
Local Open Scope string_scope.

(** The state of an engineer as training leaves it: scalers for two
    retained features, an encoder for the crop, and the frozen selection,
    one name of which ([ndvi_mean]) comes from an input family that the
    serving code no longer computes. *)
Definition fitted_engineer : FeatureEngineer :=
  {| scalers :=
       <["temp_max" := {| mean_ := 30; scale_ := 2 |}]>
         (<["precip_sum" := {| mean_ := 800; scale_ := 100 |}]> ∅);
     encoders := <["crop" := {| classes_ := ["Rice"; "Wheat"] |}]> ∅;
     feature_names := [];
     selected_features :=
       ["precip_sum"; "temp_max"; "ndvi_mean"; "crop_encoded"] |}.

(** Three training rows of the retained columns, as [scale_features] sees
    them at fit time. *)
Definition training_frame : DataFrame :=
  [("precip_sum", Num [Some 700; Some 800; Some 900]);
   ("temp_max", Num [Some 28; Some 30; Some 32]);
   ("crop_encoded", Num [Some 0; Some 1; Some 0])].

Definition serve_request : Predict.PredictionRequest :=
  {| Predict.latitude := 20; Predict.longitude := 86;
     Predict.state := "Odisha"; Predict.district := "Kendrapara";
     Predict.crop := "Rice"; Predict.year := 2024;
     Predict.farmer_inputs := None; Predict.use_satellite := false;
     Predict.language := Some "en" |}.

Definition serve_external : Predict.ExternalData :=
  {| Predict.weather := [("precip_sum", 900)]; Predict.soil := [] |}.

(** The one-row frame that [PredictionService.predict] hands to
    [prepare_features] for this request. *)
Definition serve_frame : DataFrame :=
  Predict.add_default_features
    (Predict.create_input_dataframe serve_request serve_external).

Definition serve_clock : Predict.Clock :=
  {| Predict.now_year := 2026; Predict.now_month := 11;
     Predict.now_isoformat := "2026-11-03T00:00:00" |}.

(** A regressor whose output for the request is negative, as a linear or
    boosted model can produce. *)
Definition negative_model : Model.Model :=
  {| Model.type_name := "LinearRegression";
     Model.predict := fun _ => Ok (- (1 # 2));
     Model.feature_importances_ := None |}.

Definition negative_service : Predict.PredictionService :=
  {| Predict.model := Some negative_model;
     Predict.feature_engineer := fitted_engineer;
     Predict.model_metadata :=
       {| Model.model_name := Some "linear"; Model.test_r2 := None |} |}.

End Examples.


Section AdvisoryExamples.
Import Model Predict.
Local Open Scope string_scope.

Definition result_with (features : list FeatureImportance)
  : PredictionResult :=
  {| predicted_yield := 3; prediction_interval := (241 # 100, 359 # 100);
     confidence := 8 # 10; top_features := features;
     model_version := "unknown"; timestamp := "2026-11-03T00:00:00";
     data_quality := 1 |}.

Definition attribution (name : string) (v : Q) : FeatureImportance :=
  {| feature := name; value := Some v; importance := 1 # 10 |}.

Definition request_for (crop_name : string)
    (inputs : option FarmerInputs) : PredictionRequest :=
  {| latitude := 20; longitude := 86; state := "Odisha";
     district := "Kendrapara"; crop := crop_name; year := 2024;
     farmer_inputs := inputs; use_satellite := false; language := Some "en" |}.

(** A predictor of the simple path whose metadata stores a test metric
    that is not a number. *)
Definition predictor_with_bad_metric : MlUtils.CropYieldPredictor :=
  MlUtils.set_model_metadata MlUtils.init
    {| Model.model_name := None; Model.test_r2 := Some Model.MOther |}.

End AdvisoryExamples.

Section FurtherExamples.
Local Open Scope string_scope.

(** A forest regressor that reports an importance for each of the five
    columns of the basic feature frame. *)
Definition forest_model : Model.Model :=
  {| Model.type_name := "RandomForestRegressor";
     Model.predict := fun _ => Ok 3;
     Model.feature_importances_ :=
       Some [1 # 10; 2 # 10; 3 # 10; 25 # 100; 15 # 100] |}.

(** The module-level [predictor] after [load_model] read a plain pickled
    model. *)
Definition loaded_predictor : MlUtils.CropYieldPredictor :=
  {| MlUtils.model := Some forest_model;
     MlUtils.feature_engineer := None;
     MlUtils.model_metadata := MlUtils.model_metadata MlUtils.init;
     MlUtils.crop_encoder := MlUtils.crop_encoder MlUtils.init;
     MlUtils.soil_encoder := MlUtils.soil_encoder MlUtils.init;
     MlUtils.is_fitted := true |}.

(** A predictor whose pickled model dictionary brought a crop encoder
    that was fitted without ['rice']. *)
Definition narrow_predictor : MlUtils.CropYieldPredictor :=
  {| MlUtils.model := Some forest_model;
     MlUtils.feature_engineer := None;
     MlUtils.model_metadata := MlUtils.model_metadata MlUtils.init;
     MlUtils.crop_encoder :=
       {| Sklearn.classes_ := Sklearn.unique ["wheat"; "maize"] |};
     MlUtils.soil_encoder := MlUtils.soil_encoder MlUtils.init;
     MlUtils.is_fitted := true |}.

(** Three labelled training rows. *)
Definition labelled_frame : Pandas.DataFrame :=
  [("crop", Pandas.Obj ["Rice"; "Wheat"; "Rice"]);
   ("gdd", Pandas.Num [Some 1800; Some 2500; None]);
   ("year", Pandas.Num [Some 2020; Some 2021; Some 2022]);
   ("yield_t_ha", Pandas.Num [Some 3; Some (7 # 2); Some 4])].

(** Stand-ins for the numeric library calls: a selector that keeps every
    column and a scaler that is the identity. *)
Definition keep_all : Features.Extern :=
  {| Features.sin_2pi := fun _ => 0;
     Features.str_of_float := fun _ => "nan";
     Features.scaler_fit := fun _ => {| Sklearn.mean_ := 0;
                                        Sklearn.scale_ := 1 |};
     Features.k_best_support := fun X _ _ => Ok (map (fun _ => true) X) |}.

(** A prediction service around the forest regressor. *)
Definition forest_service : Predict.PredictionService :=
  {| Predict.model := Some forest_model;
     Predict.feature_engineer := fitted_engineer;
     Predict.model_metadata :=
       {| Model.model_name := Some "forest"; Model.test_r2 := None |} |}.

(** A manager on the default configuration, and a serialiser that stands
    in for [json.dumps]. *)
Definition default_manager : Config.ConfigManager :=
  {| Config.config_file := "config.json";
     Config.config := fst Config.get_default_config |}.

(** The only dict object of a configuration file that holds
    [{"timeout": 30}]. *)
Definition flat_heap : Config.Heap :=
  {[ 0%nat := [("timeout", Config.VNum 30)] ]}.

Definition write_braces (h : Config.Heap) (v : Config.value)
  : result string :=
  Ok "{}".

Definition backend_request : BackendMain.PredictionRequest :=
  {| BackendMain.crop := "rice"; BackendMain.soil_type := "clay";
     BackendMain.rainfall := 900; BackendMain.temperature := 28;
     BackendMain.humidity := 70 |}.

End FurtherExamples.

(** * Properties *)

(** ** Arithmetic of the Python builtins *)

Ltac py_minmax :=
  unfold Py.max, Py.min in *;
  repeat match goal with
         | |- context [Qlt_le_dec ?a ?b] => destruct (Qlt_le_dec a b)
         | H : context [Qlt_le_dec ?a ?b] |- _ => destruct (Qlt_le_dec a b)
         end.

Lemma max_lower_l (a b : Q) : a <= Py.max a b.
Proof. py_minmax; lra. Qed.

Lemma max_lower_r (a b : Q) : b <= Py.max a b.
Proof. py_minmax; lra. Qed.

Lemma clamp_range (lo hi x : Q) :
  lo <= hi -> lo <= Py.max lo (Py.min hi x) /\ Py.max lo (Py.min hi x) <= hi.
Proof. intros; py_minmax; lra. Qed.

Lemma Qltb_lt (a b : Q) : Py.Qltb a b = true <-> a < b.
Proof.
  unfold Py.Qltb. rewrite negb_true_iff. split.
  - intros H. apply Qnot_le_lt. intros Hle.
    apply Qle_bool_iff in Hle. congruence.
  - intros H. destruct (Qle_bool b a) eqn:E; [|reflexivity].
    apply Qle_bool_iff in E. lra.
Qed.

Lemma Qltb_ge (a b : Q) : Py.Qltb a b = false <-> b <= a.
Proof.
  unfold Py.Qltb. rewrite negb_false_iff. apply Qle_bool_iff.
Qed.

Lemma floor_bounds (x : Q) :
  inject_Z (Qfloor x) <= x /\ x < inject_Z (Qfloor x) + 1.
Proof.
  split; [apply Qfloor_le|].
  pose proof (Qlt_floor x) as H. rewrite inject_Z_plus in H. exact H.
Qed.

Lemma Qcompare_elim (x y : Q) :
  match Qcompare x y with
  | Eq => x == y
  | Lt => x < y
  | Gt => y < x
  end.
Proof.
  destruct (Qcompare x y) eqn:E;
    [apply Qeq_alt | apply Qlt_alt | apply Qgt_alt]; exact E.
Qed.

Lemma round_half_even_spec (x : Q) :
  let r := Py.round_half_even x in
  (r = Qfloor x \/ r = (Qfloor x + 1)%Z) /\
  (x - inject_Z (Qfloor x) < 1 # 2 -> r = Qfloor x) /\
  (1 # 2 < x - inject_Z (Qfloor x) -> r = (Qfloor x + 1)%Z).
Proof.
  unfold Py.round_half_even.
  pose proof (Qcompare_elim (x - inject_Z (Qfloor x)) (1 # 2)) as E.
  destruct (Qcompare (x - inject_Z (Qfloor x)) (1 # 2)).
  - split; [destruct (Z.even (Qfloor x)); auto|].
    split; intros; lra.
  - split; [auto|]. split; intros; [reflexivity|lra].
  - split; [auto|]. split; intros; [lra|reflexivity].
Qed.

(** Rounding to the nearest integer is monotone. *)
Lemma round_half_even_mono (x y : Q) :
  x <= y -> (Py.round_half_even x <= Py.round_half_even y)%Z.
Proof.
  intros Hxy.
  pose proof (Qfloor_resp_le _ _ Hxy) as Hf.
  destruct (Z.eq_dec (Qfloor x) (Qfloor y)) as [Heq | Hne].
  - unfold Py.round_half_even. rewrite <- Heq.
    pose proof (Qcompare_elim (x - inject_Z (Qfloor x)) (1 # 2)) as Ex.
    pose proof (Qcompare_elim (y - inject_Z (Qfloor x)) (1 # 2)) as Ey.
    destruct (Qcompare (x - inject_Z (Qfloor x)) (1 # 2));
      destruct (Qcompare (y - inject_Z (Qfloor x)) (1 # 2));
      try (exfalso; lra);
      destruct (Z.even (Qfloor x)); lia.
  - destruct (round_half_even_spec x) as [[Hx | Hx] _];
      destruct (round_half_even_spec y) as [[Hy | Hy] _];
      cbv zeta in *; lia.
Qed.

Lemma pow10_pos (n : nat) : 0 < Py.pow10 n.
Proof.
  unfold Py.pow10. replace 0 with (inject_Z 0) by reflexivity.
  rewrite <- Zlt_Qlt. apply Z.pow_pos_nonneg; lia.
Qed.

(** [round(_, n)] is monotone. *)
Lemma round_mono (n : nat) (x y : Q) :
  x <= y -> Py.round x n <= Py.round y n.
Proof.
  intros Hxy. unfold Py.round.
  pose proof (pow10_pos n) as Hp.
  assert (Hs : x * Py.pow10 n <= y * Py.pow10 n).
  { apply Qmult_le_compat_r; lra. }
  apply round_half_even_mono in Hs. rewrite Zle_Qle in Hs.
  unfold Qdiv. apply Qmult_le_compat_r; [exact Hs|].
  apply Qlt_le_weak, Qinv_lt_0_compat, Hp.
Qed.

Lemma round_zero (n : nat) : Py.round 0 n == 0.
Proof.
  unfold Py.round.
  assert (E : 0 * Py.pow10 n == 0) by lra.
  assert (R : Py.round_half_even (0 * Py.pow10 n) = 0%Z).
  { destruct (round_half_even_spec (0 * Py.pow10 n)) as (_ & H & _).
    assert (F : Qfloor (0 * Py.pow10 n) = 0%Z) by (rewrite E; reflexivity).
    cbv zeta in H. rewrite F in H. apply H.
    change (inject_Z 0) with 0. lra. }
  rewrite R. pose proof (pow10_pos n). field. lra.
Qed.

Lemma round_nonneg (n : nat) (x : Q) : 0 <= x -> 0 <= Py.round x n.
Proof.
  intros H. rewrite <- (round_zero n). apply round_mono, H.
Qed.

(** ** Confidence scores *)

Lemma uniform_range (low high : Q) (g : Random.RandomState) :
  low <= high -> Random.unit_samples g ->
  low <= fst (Random.uniform low high g) /\
  fst (Random.uniform low high g) <= high.
Proof.
  intros Hlh Hg. unfold Random.uniform, Random.random_sample. simpl.
  destruct (Hg (Random.consumed g)) as [H0 H1]. split; nra.
Qed.

(** C4. The confidence of the full pipeline ([utils.calculate_confidence_score])
    lies in [0.1, 1.0] for every estimate, every model dispersion and every
    data-quality score (so in particular for non-negative estimates and
    dispersions and a quality in [0, 1]); the confidence of the simple path
    ([CropYieldPredictor.calculate_confidence_score]) lies in [0.5, 0.95] for
    every input, whatever the generator draws from the unit interval.  The
    two ranges are distinct: the full pipeline reaches 0.1 and 1.0, both
    outside the clamp of the simple path. *)
Theorem confidence_clamp_ranges
    (prediction model_std feature_quality : Q)
    (self : MlUtils.CropYieldPredictor) (features_df : Pandas.DataFrame)
    (simple_prediction : Q) (g : Random.RandomState) :
  Random.unit_samples g ->
  ((1 # 10) <= Utils.calculate_confidence_score prediction model_std feature_quality
   /\ Utils.calculate_confidence_score prediction model_std feature_quality <= 1)
  /\ ((1 # 2) <= fst (MlUtils.calculate_confidence_score self features_df
                        simple_prediction g)
      /\ fst (MlUtils.calculate_confidence_score self features_df
                simple_prediction g) <= (95 # 100))
  /\ Utils.calculate_confidence_score 1 1 1 == (1 # 10)
  /\ Utils.calculate_confidence_score 1 0 1 == 1.
Proof.
  intros Hg. split; [|split; [|split]].
  - unfold Utils.calculate_confidence_score. apply clamp_range. lra.
  - unfold MlUtils.calculate_confidence_score.
    destruct (Model.test_r2 (MlUtils.model_metadata self)) as [[r|]|];
      cbn -[Random.uniform Py.max Py.min].
    + apply clamp_range; lra.
    + pose proof (uniform_range (7 # 10) (9 # 10) g) as H.
      destruct H as [Hlo Hhi]; [lra | exact Hg |]. split; lra.
    + apply clamp_range; lra.
  - vm_compute. reflexivity.
  - vm_compute. reflexivity.
Qed.

Lemma confidence_clamp_ranges_witness :
  Random.unit_samples (Random.constant (1 # 2)) /\
  (1 # 2) <= fst (MlUtils.calculate_confidence_score
                    predictor_with_bad_metric [] 20
                    (Random.constant (1 # 2)))
  /\ fst (MlUtils.calculate_confidence_score
            predictor_with_bad_metric [] 20 (Random.constant (1 # 2)))
     <= (95 # 100).
Proof.
  assert (Hg : Random.unit_samples (Random.constant (1 # 2))).
  { intros n. simpl. split; lra. }
  split; [exact Hg|].
  exact (proj1 (proj2
    (confidence_clamp_ranges 3 (3 # 10) 1 predictor_with_bad_metric [] 20
       _ Hg))).
Defined.

(** ** Prediction interval *)

(** C5, the counterexample.  For the estimate 0.004 and the confidence 0.95
    (inside both clamp ranges) [calculate_prediction_interval] returns
    [0.0, 0.0]: the returned upper bound is below the estimate. *)
Lemma rounded_interval_misses_estimate :
  0 <= (4 # 1000) /\ (1 # 2) <= (95 # 100) /\ (95 # 100) <= (95 # 100) /\
  fst (MlUtils.calculate_prediction_interval (4 # 1000) (95 # 100)) == 0 /\
  snd (MlUtils.calculate_prediction_interval (4 # 1000) (95 # 100)) == 0 /\
  ~ (4 # 1000) <= snd (MlUtils.calculate_prediction_interval (4 # 1000) (95 # 100)).
Proof.
  repeat split; try (vm_compute; congruence).
Qed.

(** C5, as amended.  For an estimate >= 0 and a confidence in [0.1, 1.0]
    (which contains the clamp [0.5, 0.95] of the simple path), the bounds
    [max(0, e - 1.96 s)] and [e + 1.96 s] with [s = e (1 - c) 0.5] satisfy
    [0 <= lower <= e <= upper].  What [calculate_prediction_interval]
    returns are these bounds rounded to two decimals: the returned lower
    bound is >= 0, and the returned bounds bracket the estimate rounded to
    two decimals. *)
Theorem interval_brackets_estimate (estimate confidence : Q) :
  0 <= estimate -> (1 # 10) <= confidence -> confidence <= 1 ->
  (0 <= fst (MlUtils.interval_bounds estimate confidence)
   /\ fst (MlUtils.interval_bounds estimate confidence) <= estimate
   /\ estimate <= snd (MlUtils.interval_bounds estimate confidence))
  /\ (0 <= fst (MlUtils.calculate_prediction_interval estimate confidence)
      /\ fst (MlUtils.calculate_prediction_interval estimate confidence)
         <= Py.round estimate 2
      /\ Py.round estimate 2
         <= snd (MlUtils.calculate_prediction_interval estimate confidence)).
Proof.
  intros He Hc0 Hc1.
  assert (Hs : 0 <= estimate * (1 - confidence) * (1 # 2)) by nra.
  assert (B : 0 <= fst (MlUtils.interval_bounds estimate confidence)
              /\ fst (MlUtils.interval_bounds estimate confidence) <= estimate
              /\ estimate <= snd (MlUtils.interval_bounds estimate confidence)).
  { unfold MlUtils.interval_bounds. cbv zeta. simpl fst. simpl snd.
    set (s := estimate * (1 - confidence) * (1 # 2)) in *.
    repeat split; py_minmax; lra. }
  split; [exact B|].
  destruct B as (B0 & B1 & B2).
  unfold MlUtils.calculate_prediction_interval.
  destruct (MlUtils.interval_bounds estimate confidence) as [lo hi].
  simpl in *. repeat split.
  - apply round_nonneg, B0.
  - apply round_mono, B1.
  - apply round_mono, B2.
Qed.

Lemma interval_brackets_estimate_witness :
  0 <= fst (MlUtils.calculate_prediction_interval 3 (8 # 10))
  /\ fst (MlUtils.calculate_prediction_interval 3 (8 # 10)) <= Py.round 3 2
  /\ Py.round 3 2 <= snd (MlUtils.calculate_prediction_interval 3 (8 # 10)).
Proof.
  apply (interval_brackets_estimate 3 (8 # 10)); vm_compute; congruence.
Defined.

(** ** Dependence on the random generator *)


(** C7, the counterexample.  Two successive invocations of the simple-path
    confidence calculation on the same predictor, the same feature frame and
    the same prediction: the generator hands out 0 and then 1/2, and the
    two results are 0.72 and 0.80. *)
Lemma repeated_confidence_calls_differ :
  let g := {| Random.samples := fun n => match n with O => 0 | S _ => 1 # 2 end;
              Random.consumed := 0 |} in
  let first := MlUtils.calculate_confidence_score MlUtils.init [] 3 g in
  let second :=
    MlUtils.calculate_confidence_score MlUtils.init [] 3 (snd first) in
  fst first == (72 # 100) /\ fst second == (80 # 100)
  /\ ~ fst first == fst second.
Proof.
  repeat split; vm_compute; congruence.
Qed.

(** ** Data frames *)

Section FrameFacts.
Import Pandas.

Lemma eqb_true (a b : string) : String.eqb a b = true <-> a = b.
Proof. apply String.eqb_eq. Qed.

Lemma lookup_col_In (X : DataFrame) (col : string) (s : Series) :
  lookup_col X col = Some s -> In (col, s) X.
Proof.
  induction X as [|[c s0] X IH]; simpl; [discriminate|].
  destruct (String.eqb c col) eqn:E.
  - apply eqb_true in E. intros [= ->]. left. congruence.
  - intros H. right. apply IH, H.
Qed.

Lemma has_col_lookup (X : DataFrame) (col : string) :
  has_col X col = true <-> exists s, lookup_col X col = Some s.
Proof.
  unfold has_col, columns.
  induction X as [|[c s0] X IH]; simpl.
  - split; [discriminate | intros [s H]; discriminate].
  - rewrite (String.eqb_sym col c).
    destruct (String.eqb c col); simpl; [|exact IH].
    split; [eauto | reflexivity].
Qed.

Lemma has_col_false_lookup (X : DataFrame) (col : string) :
  has_col X col = false -> lookup_col X col = None.
Proof.
  intros H. destruct (lookup_col X col) eqn:E; [|reflexivity].
  assert (has_col X col = true) by (apply has_col_lookup; eauto).
  congruence.
Qed.

Lemma lookup_assign_eq (X : DataFrame) (col : string) (s : Series) :
  lookup_col (assign X col s) col = Some s.
Proof.
  induction X as [|[c s0] X IH]; simpl.
  - rewrite String.eqb_refl. reflexivity.
  - destruct (String.eqb c col) eqn:E; simpl; rewrite E; [reflexivity|exact IH].
Qed.

Lemma lookup_assign_ne (X : DataFrame) (col n : string) (s : Series) :
  n <> col -> lookup_col (assign X col s) n = lookup_col X n.
Proof.
  intros Hne.
  assert (Hf : String.eqb col n = false).
  { apply String.eqb_neq. congruence. }
  induction X as [|[c s0] X IH]; simpl.
  - rewrite Hf. reflexivity.
  - destruct (String.eqb c col) eqn:E; simpl.
    + apply eqb_true in E. subst c. rewrite Hf. reflexivity.
    + rewrite IH. reflexivity.
Qed.

Lemma columns_assign_present (X : DataFrame) (col : string) (s s' : Series) :
  lookup_col X col = Some s -> columns (assign X col s') = columns X.
Proof.
  unfold columns.
  induction X as [|[c s0] X IH]; simpl; [discriminate|].
  destruct (String.eqb c col) eqn:E; simpl; [reflexivity|].
  intros H. f_equal. apply IH, H.
Qed.

Lemma Forall_assign (P : Series -> Prop) (X : DataFrame) (col : string)
    (s : Series) :
  Forall (fun cs => P (snd cs)) X -> P s ->
  Forall (fun cs => P (snd cs)) (assign X col s).
Proof.
  intros HX Hs.
  induction X as [|[c s0] X IH]; simpl.
  - repeat constructor. exact Hs.
  - apply Forall_cons in HX. destruct HX as [H0 HX].
    destruct (String.eqb c col); constructor; auto.
Qed.

Lemma filter_all_false {A : Type} (f : A -> bool) (l : list A) :
  (forall x, f x = false) -> List.filter f l = [].
Proof.
  intros H. induction l as [|a l IH]; simpl; [reflexivity|].
  rewrite H. exact IH.
Qed.

Lemma filter_Forall {A : Type} (f : A -> bool) (l : list A) :
  Forall (fun x => f x = true) (List.filter f l).
Proof.
  induction l as [|a l IH]; simpl; [constructor|].
  destruct (f a) eqn:E; [constructor|]; auto.
Qed.

Lemma dedup_length (l : list Q) : (length (dedup l) <= length l)%nat.
Proof.
  induction l as [|q l IH]; simpl; [lia|].
  destruct (existsb (Qeq_bool q) l); simpl; lia.
Qed.

Lemma dropna_length (v : list (option Q)) :
  (length (dropna v) <= length v)%nat.
Proof.
  unfold dropna.
  induction v as [|[q|] v IH]; cbn in *; lia.
Qed.

(** A numeric column has at most as many distinct values as cells. *)
Lemma nunique_le_length (v : list (option Q)) :
  (nunique (Num v) <= length v)%nat.
Proof.
  simpl. pose proof (dedup_length (dropna v)). pose proof (dropna_length v).
  lia.
Qed.

Lemma get_lookup (X : DataFrame) (col : string) (s : Series) :
  lookup_col X col = Some s -> get X col = Ok s.
Proof. unfold get. intros ->. reflexivity. Qed.

Lemma select_present (X : DataFrame) (l : list string) :
  Forall (fun c => has_col X c = true) l ->
  exists X', select X l = Ok X' /\ columns X' = l
             /\ Forall (fun cs => lookup_col X (fst cs) = Some (snd cs)) X'.
Proof.
  unfold select.
  induction 1 as [|c l Hc Hl IH]; simpl.
  - exists []. repeat split. constructor.
  - apply has_col_lookup in Hc. destruct Hc as [s Hs].
    destruct IH as (X' & E & Hcols & Hall).
    rewrite (get_lookup _ _ _ Hs). simpl. rewrite E. simpl.
    exists ((c, s) :: X'). repeat split.
    + simpl. congruence.
    + constructor; [exact Hs | exact Hall].
Qed.


Lemma fillna_median_numeric (X : DataFrame) :
  all_numeric X ->
  exists X', fillna_median X = Ok X' /\ columns X' = columns X.
Proof.
  unfold fillna_median, all_numeric.
  induction 1 as [|[c s] X Hs HX IH]; simpl.
  - exists []. split; reflexivity.
  - destruct IH as (X' & E & Hc).
    destruct s as [v|v]; simpl in Hs; [|discriminate].
    rewrite E. simpl. eexists. split; [reflexivity|]. simpl. congruence.
Qed.

End FrameFacts.

(** ** Scaling *)

Section ScalingFacts.
Import Pandas Sklearn Features.
Variable ext : Extern.

(** On a frame of at most two rows the heuristic [nunique() <= 2] holds of
    every numeric column, so no column is chosen for scaling. *)
Lemma cols_to_scale_short (X : DataFrame) :
  Forall (fun cs => (series_len (snd cs) <= 2)%nat) X ->
  cols_to_scale X = [].
Proof.
  intros HX. unfold cols_to_scale. apply filter_all_false. intros col.
  destruct (lookup_col X col) as [[v|v]|] eqn:E; try reflexivity.
  apply lookup_col_In in E.
  rewrite List.Forall_forall in HX. specialize (HX _ E). simpl in HX.
  pose proof (nunique_le_length v) as Hn.
  assert (Hle : (nunique (Num v) <=? 2)%nat = true).
  { apply Nat.leb_le. lia. }
  rewrite Hle. rewrite !orb_true_r. reflexivity.
Qed.

Lemma scale_features_short (st : FeatureEngineer) (X : DataFrame)
    (fit : bool) :
  Forall (fun cs => (series_len (snd cs) <= 2)%nat) X ->
  scale_features ext st X fit = (X, st).
Proof.
  intros HX. unfold scale_features.
  rewrite (cols_to_scale_short X HX). reflexivity.
Qed.

Lemma scale_column_invariant (fit : bool) (X : DataFrame)
    (st : FeatureEngineer) (col : string) :
  columns (fst (scale_column ext fit (X, st) col)) = columns X
  /\ (all_numeric X -> all_numeric (fst (scale_column ext fit (X, st) col)))
  /\ (fit = false -> snd (scale_column ext fit (X, st) col) = st).
Proof.
  unfold scale_column.
  destruct (lookup_col X col) as [[v|v]|] eqn:E; simpl; auto.
  destruct fit; simpl.
  - split; [eapply columns_assign_present, E|].
    split; [|discriminate].
    intros HX. apply (Forall_assign (fun s => is_numeric s = true)); auto.
  - destruct (scalers st !! col) as [sc|]; simpl; auto.
    split; [eapply columns_assign_present, E|].
    split; [|reflexivity].
    intros HX. apply (Forall_assign (fun s => is_numeric s = true)); auto.
Qed.

Lemma scale_fold_invariant (fit : bool) (cols : list string) :
  forall (X : DataFrame) (st : FeatureEngineer),
    columns (fst (fold_left (scale_column ext fit) cols (X, st))) = columns X
    /\ (all_numeric X ->
        all_numeric (fst (fold_left (scale_column ext fit) cols (X, st))))
    /\ (fit = false ->
        snd (fold_left (scale_column ext fit) cols (X, st)) = st).
Proof.
  induction cols as [|col cols IH]; intros X st; [simpl; auto|].
  cbn [fold_left].
  destruct (scale_column_invariant fit X st col) as (Hc & Hn & Hs).
  destruct (scale_column ext fit (X, st) col) as [X1 st1]; simpl in *.
  destruct (IH X1 st1) as (Hc' & Hn' & Hs').
  split; [congruence|]. split; [auto|].
  intros Hf. rewrite (Hs' Hf). auto.
Qed.

(** [scale_features] keeps the names and the order of the columns, keeps
    numeric columns numeric and, at serve time, does not write the state. *)
Lemma scale_features_invariant (st : FeatureEngineer) (X : DataFrame)
    (fit : bool) :
  columns (fst (scale_features ext st X fit)) = columns X
  /\ (all_numeric X -> all_numeric (fst (scale_features ext st X fit)))
  /\ (fit = false -> snd (scale_features ext st X fit) = st).
Proof. apply scale_fold_invariant. Qed.

End ScalingFacts.

(** ** Categorical encoding *)

Section EncodingFacts.
Import Pandas Sklearn Features.
Variable ext : Extern.

Lemma insert_label_nonempty (x : string) (l : list string) :
  insert_label x l <> [].
Proof.
  destruct l as [|y l]; simpl; [discriminate|].
  destruct (String.compare x y); discriminate.
Qed.

(** An encoder fitted on at least one training label has learned at least
    one category. *)
Lemma fitted_encoder_has_a_category (x : string) (xs : list string) :
  unique (x :: xs) <> [].
Proof. apply insert_label_nonempty. Qed.

Lemma known_index (l : list string) (x : string) :
  existsb (String.eqb x) l = true -> exists i, index_of x l = Some i.
Proof.
  induction l as [|y l IH]; simpl; [discriminate|].
  destruct (String.eqb x y); simpl; [eauto|].
  intros H. destruct (IH H) as [i ->]. simpl. eauto.
Qed.

Lemma transform_known (enc : LabelEncoder) (xs : list string) :
  forallb (known enc) xs = true ->
  transform enc xs = Ok (map (label_code enc) xs).
Proof.
  unfold transform.
  induction xs as [|x xs IH]; simpl; [reflexivity|].
  intros H. apply andb_true_iff in H. destruct H as [Hx Hxs].
  destruct (known_index _ _ Hx) as [i Hi].
  unfold label_code at 1. rewrite Hi. simpl.
  rewrite (IH Hxs). reflexivity.
Qed.

Lemma remap_known (enc : LabelEncoder) (c0 : string) (rest : list string)
    (x : string) :
  classes_ enc = c0 :: rest -> known enc (remap enc x) = true.
Proof.
  intros Hc. unfold remap.
  destruct (known enc x) eqn:E; [exact E|].
  unfold known. rewrite Hc. simpl. rewrite String.eqb_refl. reflexivity.
Qed.

Lemma map_remap_known (enc : LabelEncoder) (xs : list string) :
  forallb (known enc) xs = true -> map (remap enc) xs = xs.
Proof.
  induction xs as [|x xs IH]; simpl; [reflexivity|].
  intros H. apply andb_true_iff in H. destruct H as [Hx Hxs].
  unfold remap at 1. rewrite Hx. rewrite (IH Hxs). reflexivity.
Qed.

(** One serve-time iteration never raises when the learned category set
    is not empty, leaves the state alone, writes only the column and its
    [_encoded] companion, and stores the serve codes. *)
Lemma encode_column_serve (st : FeatureEngineer) (df : DataFrame)
    (col : string) :
  (forall enc, encoders st !! col = Some enc -> classes_ enc <> []) ->
  exists df1,
    encode_column ext false (df, st) col = Ok (df1, st)
    /\ (forall n, n <> col -> n <> encoded_name col ->
                  lookup_col df1 n = lookup_col df n)
    /\ (forall enc s,
          encoders st !! col = Some enc -> lookup_col df col = Some s ->
          lookup_col df1 (encoded_name col)
          = Some (Num (map (serve_code enc) (astype_str ext s)))).
Proof.
  intros Hne. unfold encode_column.
  destruct (has_col df col) eqn:Hc.
  2:{ exists df. split; [reflexivity|]. split; [auto|].
      intros enc s _ Hs. apply has_col_false_lookup in Hc. congruence. }
  apply has_col_lookup in Hc. destruct Hc as [s Hs].
  rewrite (get_lookup _ _ _ Hs). simpl.
  destruct (encoders st !! col) as [enc|] eqn:He.
  2:{ exists df. split; [reflexivity|]. split; [auto|].
      intros enc s' H. discriminate. }
  specialize (Hne enc eq_refl).
  fold (known enc).
  destruct (forallb (known enc) (astype_str ext s)) eqn:Hall.
  - rewrite (transform_known _ _ Hall). simpl.
    eexists. split; [reflexivity|]. split.
    + intros n _ Hn. apply lookup_assign_ne, Hn.
    + intros enc' s' [= <-] Hs'. rewrite Hs in Hs'. injection Hs' as <-.
      rewrite lookup_assign_eq. unfold serve_code.
      rewrite <- (map_remap_known enc _ Hall) at 1.
      rewrite map_map. reflexivity.
  - destruct (classes_ enc) as [|c0 rest] eqn:Hcl; [congruence|].
    match goal with
    | |- context [map ?f (astype_str ext s)] =>
        assert (Hmap : map f (astype_str ext s)
                       = map (remap enc) (astype_str ext s))
    end.
    { apply map_ext. intros x. unfold remap, known. rewrite Hcl.
      reflexivity. }
    rewrite Hmap.
    assert (Hk : forallb (known enc) (map (remap enc) (astype_str ext s))
                 = true).
    { apply forallb_forall. intros x Hx. apply in_map_iff in Hx.
      destruct Hx as (x0 & <- & _). eapply remap_known, Hcl. }
    rewrite (transform_known _ _ Hk). simpl.
    eexists. split; [reflexivity|]. split.
    + intros n Hn1 Hn2.
      rewrite lookup_assign_ne by exact Hn2.
      apply lookup_assign_ne, Hn1.
    + intros enc' s' [= <-] Hs'.
      rewrite lookup_assign_eq. unfold serve_code. rewrite map_map.
      rewrite Hs in Hs'. injection Hs' as <-. reflexivity.
Qed.

End EncodingFacts.

Section PipelineFacts.
Import Pandas Sklearn Features.
Variable ext : Extern.

Ltac names_differ :=
  let H := fresh in intro H; vm_compute in H; discriminate H.

Lemma encode_column_serve_state (df df' : DataFrame)
    (st st' : FeatureEngineer) (col : string) :
  encode_column ext false (df, st) col = Ok (df', st') -> st' = st.
Proof.
  unfold encode_column, bind. intros H.
  repeat case_match; simplify_eq; reflexivity.
Qed.

Lemma encode_serve_state (cols : list string) :
  forall (df df' : DataFrame) (st st' : FeatureEngineer),
    foldM (encode_column ext false) cols (df, st) = Ok (df', st') -> st' = st.
Proof.
  induction cols as [|col cols IH]; intros df df' st st'; cbn [foldM].
  - intros H. congruence.
  - destruct (encode_column ext false (df, st) col) as [[df1 st1]|e] eqn:E;
      cbn [bind]; [|discriminate].
    apply encode_column_serve_state in E. subst st1. apply IH.
Qed.

(** At serve time the computed feature frame is produced without writing
    the engineer state. *)
Lemma feature_frame_serve_state (st st1 : FeatureEngineer) (df X : DataFrame)
    (target_col : string) (y : option Series) :
  feature_frame ext st df target_col false = Ok (X, y, st1) -> st1 = st.
Proof.
  unfold feature_frame, engineer_features.
  destruct (create_weather_features df) as [d1|]; cbn [bind]; [|discriminate].
  destruct (create_soil_features d1) as [d2|]; cbn [bind]; [|discriminate].
  destruct (create_temporal_features ext d2) as [d3|]; cbn [bind];
    [|discriminate].
  destruct (create_interaction_features d3) as [d4|]; cbn [bind];
    [|discriminate].
  unfold encode_categorical_features.
  destruct (foldM (encode_column ext false) categorical_cols (d4, st))
    as [[d5 st5]|] eqn:E; cbn [bind]; [|discriminate].
  apply encode_serve_state in E. subst st5.
  destruct (has_col d5 target_col); cbn [bind].
  - destruct (get d5 target_col); cbn [bind]; [|discriminate].
    intros H. congruence.
  - intros H. congruence.
Qed.

(** C3.  At serve time ([fit=False]) categorical encoding never raises when
    every fitted encoder has learned at least one category: it returns a
    frame and the unchanged engineer state.  For each categorical field with
    a fitted encoder, the [_encoded] column holds, cell by cell, the code of
    the value itself when the value was learned, and the code of
    [classes_[0]], which is 0, when it was not; the code is a function of the
    encoder and the value alone, so a repeated call yields it again. *)
Theorem serve_time_encoding_never_raises
    (st : FeatureEngineer) (df : DataFrame) :
  (forall col enc, encoders st !! col = Some enc -> classes_ enc <> []) ->
  (exists df',
      encode_categorical_features ext st df false = Ok (df', st)
      /\ forall col enc s,
          In col categorical_cols ->
          encoders st !! col = Some enc -> lookup_col df col = Some s ->
          lookup_col df' (encoded_name col)
          = Some (Num (map (serve_code enc) (astype_str ext s))))
  /\ (forall enc x, known enc x = true -> serve_code enc x = label_code enc x)
  /\ (forall enc x c0 rest,
        classes_ enc = c0 :: rest -> known enc x = false ->
        serve_code enc x = label_code enc c0 /\ serve_code enc x = Some 0).
Proof.
  intros Hne. split; [|split].
  - destruct (encode_column_serve ext st df "state" (Hne "state"%string))
      as (df1 & E1 & P1 & C1).
    destruct (encode_column_serve ext st df1 "district" (Hne "district"%string))
      as (df2 & E2 & P2 & C2).
    destruct (encode_column_serve ext st df2 "crop" (Hne "crop"%string))
      as (df3 & E3 & P3 & C3).
    exists df3. split.
    { unfold encode_categorical_features, categorical_cols.
      cbn [foldM]. rewrite E1. cbn [bind]. rewrite E2. cbn [bind].
      rewrite E3. reflexivity. }
    intros col enc s Hin He Hs.
    simpl in Hin. destruct Hin as [<- | [<- | [<- | []]]].
    + rewrite P3 by names_differ. rewrite P2 by names_differ.
      apply C1; assumption.
    + rewrite P3 by names_differ. apply C2; [assumption|].
      rewrite P1 by names_differ. exact Hs.
    + apply C3; [assumption|].
      rewrite P2 by names_differ. rewrite P1 by names_differ. exact Hs.
  - intros enc x Hk. unfold serve_code, remap. rewrite Hk. reflexivity.
  - intros enc x c0 rest Hc Hk.
    assert (E : serve_code enc x = label_code enc c0).
    { unfold serve_code, remap. rewrite Hk, Hc. reflexivity. }
    split; [exact E|]. rewrite E. unfold label_code. rewrite Hc. simpl.
    rewrite String.eqb_refl. reflexivity.
Qed.

(** C2, as amended.  At serve time, when the computed feature frame [X] is
    produced, the frozen selection is not empty and the selected columns that
    [X] has are numeric, [prepare_features] returns: it raises nothing for a
    selected name that [X] lacks.  The names of the returned feature vector
    are the frozen selected names that [X] has, in the frozen order; they
    are the whole frozen list when no name is missing.  The engineer state
    is returned unchanged. *)
Theorem serve_time_selection_keeps_available
    (st st1 : FeatureEngineer) (df X : DataFrame) (target_col : string)
    (feature_selection : bool) (y : option Series) :
  feature_frame ext st df target_col false = Ok (X, y, st1) ->
  selected_features st <> [] ->
  (forall c s, In c (selected_features st) -> lookup_col X c = Some s ->
               is_numeric s = true) ->
  exists X',
    prepare_features ext st df target_col false feature_selection
    = Ok (X', y, st)
    /\ columns X' = List.filter (has_col X) (selected_features st)
    /\ (Forall (fun c => has_col X c = true) (selected_features st) ->
        columns X' = selected_features st).
Proof.
  intros Hff Hsel Hnum.
  pose proof (feature_frame_serve_state _ _ _ _ _ _ Hff) as ->.
  unfold prepare_features. rewrite Hff. cbn [bind].
  cbn [andb negb].
  assert (Hlen : negb (length (selected_features st) =? 0)%nat = true).
  { destruct (selected_features st); [congruence | reflexivity]. }
  rewrite Hlen.
  destruct (select_present X (available_features st X)) as (Xs & Es & Hc & Hl).
  { apply filter_Forall. }
  rewrite Es. cbn [bind].
  destruct (scale_features_invariant ext st Xs false) as (Sc & Sn & Ss).
  destruct (scale_features ext st Xs false) as [X2 st2] eqn:Esc.
  simpl in Sc, Sn, Ss. rewrite (Ss eq_refl).
  assert (HnXs : all_numeric Xs).
  { unfold all_numeric. apply List.Forall_forall. intros [c s] Hin.
    rewrite List.Forall_forall in Hl. specialize (Hl _ Hin). simpl in *.
    apply (Hnum c s); [|exact Hl].
    assert (Hin' : In c (columns Xs)).
    { unfold columns. apply in_map_iff. exists (c, s). auto. }
    rewrite Hc in Hin'. unfold available_features in Hin'.
    apply filter_In in Hin'. tauto. }
  destruct (fillna_median_numeric X2 (Sn HnXs)) as (X3 & E3 & Hc3).
  rewrite E3. cbn [bind].
  exists X3. split; [reflexivity|].
  assert (Hnames : columns X3 = List.filter (has_col X) (selected_features st)).
  { rewrite Hc3, Sc, Hc. reflexivity. }
  split; [exact Hnames|].
  intros Hall. rewrite Hnames.
  clear - Hall. induction Hall as [|c l Hc Hl IH]; simpl; [reflexivity|].
  rewrite Hc, IH. reflexivity.
Qed.

End PipelineFacts.

Section PipelineExamples.
Import Pandas Sklearn Features.
Local Open Scope string_scope.

(** C1.  The serve-time transform of the sample request, under an engineer
    whose state holds frozen scalers for [precip_sum] (mean 800, scale 100)
    and [temp_max] (mean 30, scale 2).  On a training frame both columns are
    chosen for scaling and get a scaler; the frozen parameters map 900 to 1
    and 32 to 1; and [prepare_features] returns both columns unscaled, 900
    and 32, because [scale_features] decides again, on the one-row frame,
    which columns to scale, and finds none. *)
Theorem serve_time_features_left_unscaled :
  (forall ext,
      cols_to_scale training_frame = ["precip_sum"; "temp_max"]
      /\ dom (scalers (snd (scale_features ext init training_frame true)))
         = dom (scalers fitted_engineer))
  /\ (scalers fitted_engineer !! "precip_sum"
   = Some {| mean_ := 800; scale_ := 100 |}
   /\ scalers fitted_engineer !! "temp_max"
      = Some {| mean_ := 30; scale_ := 2 |})
  /\ (scale {| mean_ := 800; scale_ := 100 |} [Some 900] = [Some (100 # 100)]
      /\ scale {| mean_ := 30; scale_ := 2 |} [Some 32] = [Some (2 # 2)])
  /\ forall ext,
      cols_to_scale
        [("precip_sum", Num [Some 900]); ("temp_max", Num [Some 32]);
         ("crop_encoded", Num [Some 0])] = []
      /\ prepare_features ext fitted_engineer serve_frame "yield_t_ha"
           false false
         = Ok ([("precip_sum", Num [Some 900]); ("temp_max", Num [Some 32]);
                ("crop_encoded", Num [Some 0])],
               None, fitted_engineer).
Proof.
  split; [intros ext; split; vm_compute; reflexivity|].
  split; [split; vm_compute; reflexivity|].
  split; [split; vm_compute; reflexivity|].
  intros ext. split; vm_compute; reflexivity.
Qed.

(** C2, the counterexample.  The frozen selection names [ndvi_mean], the
    computed feature frame of the request has no such column, and the
    serve-time call returns normally: the name is dropped and the vector
    has three of the four frozen names. *)
Lemma missing_selected_name_is_dropped :
  In "ndvi_mean" (selected_features fitted_engineer)
  /\ forall ext,
      (exists X y st1,
          feature_frame ext fitted_engineer serve_frame "yield_t_ha" false
          = Ok (X, y, st1)
          /\ has_col X "ndvi_mean" = false)
      /\ raises (prepare_features ext fitted_engineer serve_frame
                   "yield_t_ha" false false) = false
      /\ (exists X' y st1,
             prepare_features ext fitted_engineer serve_frame "yield_t_ha"
               false false = Ok (X', y, st1)
             /\ columns X' = ["precip_sum"; "temp_max"; "crop_encoded"]
             /\ columns X' <> selected_features fitted_engineer).
Proof.
  split; [simpl; tauto|].
  intros ext. split; [|split].
  - eexists _, _, _. split; [vm_compute; reflexivity|].
    vm_compute. reflexivity.
  - vm_compute. reflexivity.
  - eexists _, _, _. split; [vm_compute; reflexivity|].
    split; [vm_compute; reflexivity|].
    vm_compute. discriminate.
Qed.

Lemma serve_time_selection_keeps_available_witness :
  selected_features fitted_engineer <> []
  /\ forall ext,
      exists X',
        prepare_features ext fitted_engineer serve_frame "yield_t_ha"
          false false = Ok (X', None, fitted_engineer)
        /\ columns X' = ["precip_sum"; "temp_max"; "crop_encoded"].
Proof.
  split; [discriminate|].
  intros ext.
  eassert (E : feature_frame ext fitted_engineer serve_frame "yield_t_ha" false
               = Ok (_, _, _)) by (vm_compute; reflexivity).
  destruct (serve_time_selection_keeps_available ext _ _ _ _ _ false _ E)
    as (X' & Hp & Hc & _).
  - discriminate.
  - intros c s Hin. simpl in Hin.
    destruct Hin as [<- | [<- | [<- | [<- | []]]]];
      vm_compute; intros H; inversion H; reflexivity.
  - exists X'. split; [exact Hp|]. rewrite Hc. vm_compute. reflexivity.
Defined.

Lemma serve_time_encoding_never_raises_witness :
  (forall col enc,
      encoders fitted_engineer !! col = Some enc -> classes_ enc <> [])
  /\ forall ext,
      exists df',
        encode_categorical_features ext fitted_engineer
          [("crop", Obj ["Maize"; "Wheat"; "Rice"])] false
        = Ok (df', fitted_engineer)
        /\ lookup_col df' "crop_encoded"
           = Some (Num [Some 0; Some 1; Some 0]).
Proof.
  assert (H : forall col enc,
             encoders fitted_engineer !! col = Some enc -> classes_ enc <> []).
  { intros col enc H. simpl in H.
    apply lookup_insert_Some in H. destruct H as [[_ <-] | [_ H]].
    - discriminate.
    - rewrite lookup_empty in H. discriminate. }
  split; [exact H|].
  intros ext.
  destruct (serve_time_encoding_never_raises ext fitted_engineer
              [("crop", Obj ["Maize"; "Wheat"; "Rice"])] H)
    as [(df' & E & L) _].
  exists df'. split; [exact E|].
  change (lookup_col df' "crop_encoded")
    with (lookup_col df' (encoded_name "crop")).
  rewrite (L "crop" {| classes_ := ["Rice"; "Wheat"] |}
             (Obj ["Maize"; "Wheat"; "Rice"])).
  - vm_compute. reflexivity.
  - simpl. tauto.
  - vm_compute. reflexivity.
  - reflexivity.
Defined.

End PipelineExamples.

(** ** The point estimate *)

Section EstimateFacts.
Import Pandas Features.

(** C6, the counterexample.  The bound model answers -0.5 for the request;
    the service completes and returns [predicted_yield = -0.5]. *)
Lemma negative_estimate_is_returned :
  Model.predict negative_model [] = Ok (- (1 # 2))
  /\ forall ext,
      exists r,
        Predict.predict ext negative_service serve_clock serve_request
          serve_external = Ok r
        /\ Predict.predicted_yield r == - (1 # 2)
        /\ Predict.predicted_yield r < 0.
Proof.
  split; [reflexivity|].
  intros ext. eexists. split; [vm_compute; reflexivity|].
  split; vm_compute; reflexivity.
Qed.

(** C6, as amended.  When [PredictionService.predict] completes, the
    returned [predicted_yield] is the output of the bound model on the
    feature matrix, rounded to two decimals, with no clamp: it is >= 0
    when the model's output is >= 0, and a negative returned estimate
    comes from a negative model output. *)
Theorem predicted_yield_is_rounded_model_output
    (ext : Extern) (self : Predict.PredictionService) (clock : Predict.Clock)
    (request : Predict.PredictionRequest)
    (external_data : Predict.ExternalData) (r : Predict.PredictionResult) :
  Predict.predict ext self clock request external_data = Ok r ->
  exists m X prediction,
    Predict.model self = Some m
    /\ Model.predict m X = Ok prediction
    /\ Predict.predicted_yield r = Py.round prediction 2
    /\ (0 <= prediction -> 0 <= Predict.predicted_yield r)
    /\ (Predict.predicted_yield r < 0 -> prediction < 0).
Proof.
  unfold Predict.predict.
  destruct (negb (Utils.validate_coordinates _ _)); [discriminate|].
  destruct (negb (Utils.validate_year _ _)); [discriminate|].
  destruct (prepare_features ext _ _ _ _ _) as [[[X y] st]|];
    cbn [bind]; [|discriminate].
  destruct (Predict.model self) as [m|]; [|discriminate].
  destruct (Model.predict m X) as [prediction|] eqn:Ep;
    cbn [bind]; [|discriminate].
  intros H. injection H as <-. cbn [Predict.predicted_yield].
  exists m, X, prediction.
  split; [reflexivity|]. split; [exact Ep|]. split; [reflexivity|].
  split.
  - apply round_nonneg.
  - intros Hneg. destruct (Qlt_le_dec prediction 0) as [Hlt|Hge];
      [exact Hlt|].
    apply (round_nonneg 2) in Hge. lra.
Qed.

Lemma predicted_yield_is_rounded_model_output_witness :
  Model.predict negative_model [] = Ok (- (1 # 2))
  /\ forall ext,
      exists r m X prediction,
        Predict.predict ext negative_service serve_clock serve_request
          serve_external = Ok r
        /\ Predict.model negative_service = Some m
        /\ Model.predict m X = Ok prediction
        /\ Predict.predicted_yield r = Py.round prediction 2.
Proof.
  split; [reflexivity|].
  intros ext.
  eassert (E : Predict.predict ext negative_service serve_clock serve_request
                 serve_external = Ok _) by (vm_compute; reflexivity).
  destruct (predicted_yield_is_rounded_model_output _ _ _ _ _ _ E)
    as (m & X & prediction & Hm & Hp & Hy & _).
  eexists _, m, X, prediction. split; [exact E|]. auto.
Defined.

(** The simple path returns the model's output as it is. *)
Lemma simple_path_returns_model_output
    (ext : Extern) (self : MlUtils.CropYieldPredictor)
    (crop soil_type : string) (rainfall temperature humidity : Q)
    (additional_features : option (list (string * MlUtils.scalar)))
    (g g' : Random.RandomState) (y c : Q) (info : MlUtils.PredictionInfo) :
  MlUtils.predict ext self crop soil_type rainfall temperature humidity
    additional_features g = Ok (y, c, info, g') ->
  exists m X, MlUtils.model self = Some m /\ Model.predict m X = Ok y.
Proof.
  unfold MlUtils.predict.
  destruct (MlUtils.is_fitted self); [|discriminate].
  destruct (MlUtils.model self) as [m|]; [|discriminate].
  destruct (MlUtils.preprocess_input_advanced _ _ _ _ _ _ _ _) as [X|];
    cbn [bind]; [|discriminate].
  destruct (Model.predict m X) as [p|] eqn:Ep; cbn [bind]; [|discriminate].
  destruct (MlUtils.calculate_confidence_score self X p g) as [c0 g0].
  intros H. injection H as <- _ _ _. eauto.
Qed.

(** X12.  The interval of the full pipeline: built from the model dispersion, and
    rounded like the estimate, it brackets the returned estimate when the
    returned estimate is not negative. *)
Lemma service_interval_brackets_estimate
    (ext : Extern) (self : Predict.PredictionService) (clock : Predict.Clock)
    (request : Predict.PredictionRequest)
    (external_data : Predict.ExternalData) (r : Predict.PredictionResult) :
  Predict.predict ext self clock request external_data = Ok r ->
  0 <= Predict.predicted_yield r ->
  0 <= fst (Predict.prediction_interval r)
  /\ fst (Predict.prediction_interval r) <= Predict.predicted_yield r
  /\ Predict.predicted_yield r <= snd (Predict.prediction_interval r).
Proof.
  unfold Predict.predict.
  destruct (negb (Utils.validate_coordinates _ _)); [discriminate|].
  destruct (negb (Utils.validate_year _ _)); [discriminate|].
  destruct (prepare_features ext _ _ _ _ _) as [[[X y] st]|];
    cbn [bind]; [|discriminate].
  destruct (Predict.model self) as [m|]; [|discriminate].
  destruct (Model.predict m X) as [prediction|] eqn:Ep;
    cbn [bind]; [|discriminate].
  intros H. injection H as <-.
  cbn [Predict.predicted_yield Predict.prediction_interval fst snd].
  intros Hy.
  set (sd := match Model.feature_importances_ m with
             | Some importances => Py.max (2 # 10) (1 - Predict.sum importances)
             | None => 3 # 10
             end).
  assert (Hsd : 0 <= sd).
  { unfold sd. destruct (Model.feature_importances_ m).
    - pose proof (max_lower_l (2 # 10) (1 - Predict.sum l)). lra.
    - lra. }
  split; [apply round_nonneg, max_lower_l|].
  destruct (Qlt_le_dec prediction 0) as [Hneg|Hpos].
  - assert (Hr : Py.round prediction 2 <= 0).
    { rewrite <- (round_zero 2). apply round_mono. lra. }
    assert (Hz : Py.round prediction 2 == 0) by lra.
    split.
    + rewrite Hz. rewrite <- (round_zero 2) at 2. apply round_mono.
      py_minmax; lra.
    + apply round_mono. lra.
  - split; apply round_mono; py_minmax; lra.
Qed.

End EstimateFacts.

(** ** Purity *)

Lemma clamp_compat (lo hi x y : Q) :
  x == y -> Py.max lo (Py.min hi x) == Py.max lo (Py.min hi y).
Proof. intros H. py_minmax; lra. Qed.

(** C7, as amended.  The simple-path confidence calculation is a function
    of the predictor's metadata, the prediction and the next sample of the
    process-wide random generator: two invocations that see the same next
    sample return the same confidence, whatever the feature frames, and each
    invocation consumes exactly one sample and leaves the sample sequence
    as it was. *)
Theorem simple_confidence_is_a_function_of_the_draw
    (self : MlUtils.CropYieldPredictor) (df1 df2 : Pandas.DataFrame)
    (prediction : Q) (g1 g2 : Random.RandomState) :
  Random.samples g1 (Random.consumed g1)
  == Random.samples g2 (Random.consumed g2) ->
  fst (MlUtils.calculate_confidence_score self df1 prediction g1)
  == fst (MlUtils.calculate_confidence_score self df2 prediction g2)
  /\ Random.consumed
       (snd (MlUtils.calculate_confidence_score self df1 prediction g1))
     = S (Random.consumed g1)
  /\ Random.samples
       (snd (MlUtils.calculate_confidence_score self df1 prediction g1))
     = Random.samples g1.
Proof.
  intros Hu. unfold MlUtils.calculate_confidence_score.
  destruct (Model.test_r2 (MlUtils.model_metadata self)) as [[r|]|];
    cbn [bind]; unfold Random.uniform, Random.random_sample;
    cbn [fst snd Random.consumed Random.samples].
  - split; [|split; reflexivity]. apply clamp_compat. rewrite Hu. reflexivity.
  - split; [|split; reflexivity]. rewrite Hu. reflexivity.
  - split; [|split; reflexivity]. apply clamp_compat. rewrite Hu. reflexivity.
Qed.

Lemma simple_confidence_is_a_function_of_the_draw_witness :
  fst (MlUtils.calculate_confidence_score MlUtils.init [] 3
         (Random.constant (1 # 2)))
  == fst (MlUtils.calculate_confidence_score MlUtils.init
            [("precip_sum"%string, Pandas.Num [Some 900])] 3
            {| Random.samples := fun n => 1 # 2; Random.consumed := 7 |}).
Proof.
  apply (simple_confidence_is_a_function_of_the_draw MlUtils.init [] _ 3
           (Random.constant (1 # 2))
           {| Random.samples := fun n => 1 # 2; Random.consumed := 7 |}).
  reflexivity.
Defined.

(** ** Advisory rules *)

Section AdvisoryFacts.
Import Model Predict Advisory.
Local Open Scope string_scope.

Lemma fold_insert_absent (l : list FeatureImportance) (k : string) :
  forall d : gmap string (option Q),
    ~ In k (map feature l) -> d !! k = None ->
    fold_left (fun d f => <[feature f := value f]> d) l d !! k = None.
Proof.
  induction l as [|f l IH]; intros d Hin Hd; simpl; [exact Hd|].
  apply IH.
  - intros H. apply Hin. right. exact H.
  - rewrite lookup_insert_ne; [exact Hd|].
    intros E. apply Hin. left. exact E.
Qed.

(** A name that is not in the attribution list is not a key of the
    dictionary built from it. *)
Lemma feature_dict_absent (pr : PredictionResult) (k : string) :
  ~ In k (map feature (top_features pr)) -> feature_dict pr !! k = None.
Proof.
  intros H. unfold feature_dict. apply fold_insert_absent; [exact H|].
  apply lookup_empty.
Qed.

(** C10.  The irrigation advisory takes the seasonal precipitation from the
    top-feature dictionary only.  For every prediction result whose
    top-feature list has no entry named [precip_sum], and every request
    (whatever its farmer inputs), 800 mm is used, the normal-rainfall branch
    is taken, and the text recommends 8 events of 40-50mm. *)
Theorem irrigation_defaults_to_normal_rainfall
    (pr : PredictionResult) (request : PredictionRequest) :
  ~ In "precip_sum" (map feature (top_features pr)) ->
  get_or (feature_dict pr) "precip_sum" 800 = Some 800
  /\ generate_irrigation_advisory new pr request
     = "Normal rainfall pattern (800mm). Maintain 8 irrigation events. Apply 40-50mm per irrigation. Monitor soil moisture at 15cm depth. Best irrigation times: early morning (6-8 AM) or evening (6-8 PM).".
Proof.
  intros H. apply feature_dict_absent in H.
  unfold generate_irrigation_advisory, get_or. rewrite H.
  split; reflexivity.
Qed.

Lemma irrigation_defaults_to_normal_rainfall_witness :
  Py.contains
    (generate_irrigation_advisory new
       (result_with [attribution "temp_max" 32; attribution "soil_phh2o" 6])
       (request_for "rice"
          (Some {| area_ha := Some 2; sowing_date := None;
                   fertilizer_N_kg := None; fertilizer_P_kg := None;
                   fertilizer_K_kg := None; irrigation_events := Some 3%Z;
                   cultivar := None |})))
    "Maintain 8 irrigation events. Apply 40-50mm per irrigation." = true.
Proof.
  rewrite (proj2 (irrigation_defaults_to_normal_rainfall
                    (result_with [attribution "temp_max" 32;
                                  attribution "soil_phh2o" 6])
                    (request_for "rice" _)
                    ltac:(simpl; intros [H|[H|[]]]; discriminate H))).
  reflexivity.
Defined.

(** C8.  In the pest advisory a risk of "High", set by humidity above the
    high-humidity threshold (80) or by precipitation above 1000 mm, is what
    the text reports: no later check lowers it.  For the top-feature values
    humidity_mean = 90, temp_max = 32, precip_sum = 1200 and the crop
    "rice", the text classifies the risk as High and carries the rice
    guidance on blast and stem borer. *)
Theorem pest_high_risk_is_never_downgraded
    (pr : PredictionResult) (request : PredictionRequest) :
  (cell_gt (get_or (feature_dict pr) "humidity_mean" 75) 80 = true
   \/ cell_gt (get_or (feature_dict pr) "precip_sum" 800) 1000 = true ->
   fst (assess_pest_risk new
          (get_or (feature_dict pr) "humidity_mean" 75)
          (get_or (feature_dict pr) "temp_max" 30)
          (get_or (feature_dict pr) "precip_sum" 800)) = "High"
   /\ Py.startswith (generate_pest_advisory new pr request)
        "High pest risk detected" = true)
  /\ (feature_dict pr !! "humidity_mean" = Some (Some 90) ->
      feature_dict pr !! "temp_max" = Some (Some 32) ->
      feature_dict pr !! "precip_sum" = Some (Some 1200) ->
      Py.lower (crop request) = "rice" ->
      generate_pest_advisory new pr request
      = "High pest risk detected due to high humidity, high temperature, excessive rainfall. Monitor for blast, brown spot, and stem borer. Apply preventive fungicide spray. Use pheromone traps for stem borer control. Use integrated pest management: biological control, resistant varieties, and targeted pesticide use."
      /\ Py.contains (generate_pest_advisory new pr request) "blast" = true
      /\ Py.contains (generate_pest_advisory new pr request) "stem borer"
         = true).
Proof.
  split.
  - intros H. unfold generate_pest_advisory, assess_pest_risk.
    cbn [advisory_rules new load_advisory_rules pest_risk
         high_humidity_threshold high_temp_threshold].
    destruct (cell_gt (get_or (feature_dict pr) "humidity_mean" 75) 80) eqn:Eh;
      destruct (cell_gt (get_or (feature_dict pr) "temp_max" 30) 30) eqn:Et;
      destruct (cell_gt (get_or (feature_dict pr) "precip_sum" 800) 1000)
        eqn:Ep;
      try (destruct H; discriminate);
      destruct (String.eqb (Py.lower (crop request)) "rice");
      split; reflexivity.
  - intros Hh Ht Hp Hc.
    assert (E : generate_pest_advisory new pr request
                = "High pest risk detected due to high humidity, high temperature, excessive rainfall. Monitor for blast, brown spot, and stem borer. Apply preventive fungicide spray. Use pheromone traps for stem borer control. Use integrated pest management: biological control, resistant varieties, and targeted pesticide use.").
    { unfold generate_pest_advisory, get_or. rewrite Hh, Ht, Hp, Hc.
      reflexivity. }
    rewrite E. repeat split; reflexivity.
Qed.

Lemma pest_high_risk_is_never_downgraded_witness :
  Py.startswith
    (generate_pest_advisory new
       (result_with [attribution "humidity_mean" 90; attribution "temp_max" 32;
                     attribution "precip_sum" 1200])
       (request_for "Rice" None))
    "High pest risk detected" = true.
Proof.
  apply (proj1 (pest_high_risk_is_never_downgraded
                  (result_with [attribution "humidity_mean" 90;
                                attribution "temp_max" 32;
                                attribution "precip_sum" 1200])
                  (request_for "Rice" None))).
  left. reflexivity.
Defined.

End AdvisoryFacts.

Section FertilizerFacts.
Import Model Predict Advisory.
Local Open Scope string_scope.

(** The table lookup with its fallback: wheat has its own entry and every
    other crop gets the rice entry. *)
Lemma crop_fertilizer_rules_cases (crop_name : string) :
  crop_fertilizer_rules new crop_name
  = if String.eqb crop_name "wheat" then wheat_fertilizer
    else rice_fertilizer.
Proof.
  unfold crop_fertilizer_rules.
  cbn [advisory_rules new load_advisory_rules fertilizer].
  destruct (String.eqb_spec crop_name "wheat") as [-> | Hw].
  - rewrite lookup_insert_eq. reflexivity.
  - rewrite (lookup_insert_ne _ "wheat" crop_name) by congruence.
    destruct (String.eqb_spec crop_name "rice") as [-> | Hr].
    + rewrite lookup_insert_eq. reflexivity.
    + rewrite (lookup_insert_ne _ "rice" crop_name) by congruence.
      rewrite lookup_empty. reflexivity.
Qed.

(** C9, the counterexample.  Soil pH 5.5 in the top features, everything
    else at its default, crop rice: the text opens with the lime
    recommendation, and the nitrogen it states is 120 kg/ha, the base-table
    [N_recommended] of rice, not more. *)
Lemma low_ph_keeps_base_nitrogen :
  generate_fertilizer_advisory new
    (result_with [attribution "soil_phh2o" (55 # 10)]) (request_for "rice" None)
  = "Soil pH is low (5.5). Apply lime before fertilization. Apply additional 120 kg/ha nitrogen. Apply 60 kg/ha phosphorus. Apply 40 kg/ha potassium. Split fertilizer application into 3 doses: basal (50%), tillering (25%), panicle initiation (25%)."
  /\ nitrogen_target new (result_with [attribution "soil_phh2o" (55 # 10)])
       (request_for "rice" None)
     = N_recommended rice_fertilizer
  /\ N_recommended rice_fertilizer = 120%Z
  /\ ~ (N_recommended rice_fertilizer
        < nitrogen_target new
            (result_with [attribution "soil_phh2o" (55 # 10)])
            (request_for "rice" None))%Z.
Proof.
  repeat split; vm_compute; congruence.
Qed.

(** C9, as amended.  With soil pH 5.5 among the top features the
    fertilizer text opens with the lime recommendation, whatever the other
    inputs.  The pH does not change the nitrogen target: with the organic
    matter at its default (no [soil_soc] among the top features) and no
    farmer inputs, the target is the crop's base-table [N_recommended] and
    the text advises exactly the base-table amounts; the target is raised,
    by 20 kg/ha, only when the organic matter is below 1.0.  The last
    two parts make the "only when" exact: the target is the base value
    plus 20 if and only if the top features hold a [soil_soc] number
    below 1.0, and in every other case ([soil_soc] absent, NaN, or 1.0
    and above) the target is the base value and, without farmer inputs,
    the text advises exactly the base-table amounts. *)
Theorem low_ph_advises_lime_and_base_nitrogen
    (pr : PredictionResult) (request : PredictionRequest) :
  feature_dict pr !! "soil_phh2o" = Some (Some (55 # 10)) ->
  Py.startswith (generate_fertilizer_advisory new pr request)
    "Soil pH is low (5.5). Apply lime before fertilization. " = true
  /\ (feature_dict pr !! "soil_soc" = None ->
      farmer_inputs request = None ->
      nitrogen_target new pr request
      = N_recommended (crop_fertilizer_rules new (Py.lower (crop request)))
      /\ generate_fertilizer_advisory new pr request
         = String.append
             "Soil pH is low (5.5). Apply lime before fertilization. "
             (base_table_advice (Py.lower (crop request))))
  /\ (forall soc, feature_dict pr !! "soil_soc" = Some (Some soc) ->
                  soc < 1 ->
      nitrogen_target new pr request
      = (N_recommended (crop_fertilizer_rules new (Py.lower (crop request)))
         + 20)%Z)
  /\ (nitrogen_target new pr request
      = (N_recommended (crop_fertilizer_rules new (Py.lower (crop request)))
         + 20)%Z
      <-> exists soc, feature_dict pr !! "soil_soc" = Some (Some soc)
                      /\ soc < 1)
  /\ (~ (exists soc, feature_dict pr !! "soil_soc" = Some (Some soc)
                     /\ soc < 1) ->
      nitrogen_target new pr request
      = N_recommended (crop_fertilizer_rules new (Py.lower (crop request)))
      /\ (farmer_inputs request = None ->
          generate_fertilizer_advisory new pr request
          = String.append
              "Soil pH is low (5.5). Apply lime before fertilization. "
              (base_table_advice (Py.lower (crop request))))).
Proof.
  intros Hph.
  assert (Hcell :
            cell_lt (default (Some (15 # 10)) (feature_dict pr !! "soil_soc"))
              1 = true
            <-> exists soc, feature_dict pr !! "soil_soc" = Some (Some soc)
                            /\ soc < 1).
  { destruct (feature_dict pr !! "soil_soc") as [[soc|]|]; cbn.
    - rewrite Qltb_lt. split.
      + intros H. exists soc. split; [reflexivity|exact H].
      + intros (soc' & [= <-] & H). exact H.
    - split; [discriminate|]. intros (soc & Hs & _). discriminate Hs.
    - split; [discriminate|]. intros (soc & Hs & _). discriminate Hs. }
  split; [|split; [|split; [|split]]].
  - unfold generate_fertilizer_advisory, get_or. rewrite Hph.
    change (default (Some (65 # 10)) (Some (Some (55 # 10))))
      with (Some (55 # 10)).
    change (cell_lt (Some (55 # 10)) 6) with true. cbv iota.
    repeat match goal with
           | |- context [if ?c then _ else _] => destruct c
           | |- context [let '(_, _) := ?p in _] => destruct p
           end; reflexivity.
  - intros Hsoc Hfi.
    unfold generate_fertilizer_advisory, nitrogen_target, base_table_advice,
      get_or.
    rewrite Hph, Hsoc, Hfi.
    rewrite crop_fertilizer_rules_cases.
    destruct (String.eqb (Py.lower (crop request)) "wheat") eqn:Ew.
    + apply String.eqb_eq in Ew. rewrite Ew. split; reflexivity.
    + destruct (String.eqb (Py.lower (crop request)) "rice") eqn:Er;
        split; reflexivity.
  - intros soc Hsoc Hlt.
    unfold nitrogen_target, get_or. rewrite Hsoc.
    change (default (Some (15 # 10)) (Some (Some soc))) with (Some soc).
    cbn [cell_lt]. apply Qltb_lt in Hlt. rewrite Hlt. reflexivity.
  - unfold nitrogen_target, get_or. rewrite <- Hcell.
    destruct (cell_lt (default (Some (15 # 10))
                         (feature_dict pr !! "soil_soc")) 1).
    + split; reflexivity.
    + split; [|discriminate]. intros H. lia.
  - intros Hnot.
    assert (Hc : cell_lt (default (Some (15 # 10))
                            (feature_dict pr !! "soil_soc")) 1 = false).
    { destruct (cell_lt (default (Some (15 # 10))
                           (feature_dict pr !! "soil_soc")) 1) eqn:E;
        [|reflexivity].
      exfalso. apply Hnot, Hcell. reflexivity. }
    split.
    + unfold nitrogen_target, get_or. rewrite Hc. reflexivity.
    + intros Hfi.
      unfold generate_fertilizer_advisory, nitrogen_target,
        base_table_advice, get_or.
      rewrite Hc, Hph, Hfi.
      rewrite crop_fertilizer_rules_cases.
      destruct (String.eqb (Py.lower (crop request)) "wheat") eqn:Ew.
      * apply String.eqb_eq in Ew. rewrite Ew. reflexivity.
      * destruct (String.eqb (Py.lower (crop request)) "rice") eqn:Er;
          reflexivity.
Qed.

Lemma low_ph_advises_lime_and_base_nitrogen_witness :
  Py.startswith
    (generate_fertilizer_advisory new
       (result_with [attribution "soil_phh2o" (55 # 10)])
       (request_for "Wheat" None))
    "Soil pH is low (5.5). Apply lime before fertilization. " = true.
Proof.
  apply (low_ph_advises_lime_and_base_nitrogen
           (result_with [attribution "soil_phh2o" (55 # 10)])
           (request_for "Wheat" None)).
  reflexivity.
Defined.

End FertilizerFacts.

(** * Further properties *)

(** ** Yield-gap analysis *)

Section ReportFacts.
Import Report.

Lemma yield_gap_fields (predicted potential : Q) :
  0 < potential ->
  yield_gap (calculate_yield_gap predicted (Some potential))
  = potential - predicted
  /\ yield_gap_percent (calculate_yield_gap predicted (Some potential))
     = (potential - predicted) / potential * 100
  /\ efficiency (calculate_yield_gap predicted (Some potential))
     = predicted / potential * 100.
Proof.
  intros Hp. unfold calculate_yield_gap. simpl.
  apply Qltb_lt in Hp. rewrite Hp. auto.
Qed.

Lemma gap_percent_sign (predicted potential : Q) :
  0 < potential ->
  (predicted <= potential ->
   0 <= (potential - predicted) / potential * 100)
  /\ (potential <= predicted ->
      (potential - predicted) / potential * 100 <= 0)
  /\ (0 <= predicted ->
      (potential - predicted) / potential * 100 <= 100)
  /\ (predicted <= 0 ->
      100 <= (potential - predicted) / potential * 100).
Proof.
  intros Hp. repeat split; intros H.
  - assert (0 <= (potential - predicted) / potential)
      by (apply Qle_shift_div_l; lra). lra.
  - assert ((potential - predicted) / potential <= 0)
      by (apply Qle_shift_div_r; lra). lra.
  - assert ((potential - predicted) / potential <= 1)
      by (apply Qle_shift_div_r; lra). lra.
  - assert (1 <= (potential - predicted) / potential)
      by (apply Qle_shift_div_l; lra). lra.
Qed.

(** X1.  The sides on which the yield-gap figures fall.  For a positive
    potential yield: an estimate that does not exceed the potential has a
    gap and a gap percentage that are not negative and an efficiency of
    at most 100; an estimate that reaches the potential has a gap and a
    gap percentage of at most 0 and an efficiency of at least 100; an
    estimate that is not negative has a gap percentage of at most 100 and
    an efficiency that is not negative.  For a potential that is not
    positive both percentages are 0 (nothing is divided); without a
    potential the analysis is made against 6 t/ha.  Only comparisons that
    correctly rounded arithmetic preserves are stated. *)
Theorem yield_gap_figures_are_bounded (predicted potential : Q) :
  (0 < potential ->
   (predicted <= potential ->
    0 <= yield_gap (calculate_yield_gap predicted (Some potential))
    /\ 0 <= yield_gap_percent (calculate_yield_gap predicted (Some potential))
    /\ efficiency (calculate_yield_gap predicted (Some potential)) <= 100)
   /\ (potential <= predicted ->
       yield_gap (calculate_yield_gap predicted (Some potential)) <= 0
       /\ yield_gap_percent (calculate_yield_gap predicted (Some potential))
          <= 0
       /\ 100 <= efficiency (calculate_yield_gap predicted (Some potential)))
   /\ (0 <= predicted ->
       yield_gap_percent (calculate_yield_gap predicted (Some potential))
       <= 100
       /\ 0 <= efficiency (calculate_yield_gap predicted (Some potential))))
  /\ (potential <= 0 ->
      yield_gap_percent (calculate_yield_gap predicted (Some potential)) = 0
      /\ efficiency (calculate_yield_gap predicted (Some potential)) = 0)
  /\ potential_yield (calculate_yield_gap predicted None) = 6.
Proof.
  split; [|split].
  - intros Hp.
    destruct (yield_gap_fields predicted potential Hp) as (-> & -> & ->).
    destruct (gap_percent_sign predicted potential Hp) as (G1 & G2 & G3 & _).
    split; [|split].
    + intros H. split; [lra|]. split; [apply G1, H|].
      assert (predicted / potential <= 1)
        by (apply Qle_shift_div_r; lra). lra.
    + intros H. split; [lra|]. split; [apply G2, H|].
      assert (1 <= predicted / potential)
        by (apply Qle_shift_div_l; lra). lra.
    + intros H. split; [apply G3, H|].
      assert (0 <= predicted / potential)
        by (apply Qle_shift_div_l; lra). lra.
  - intros Hp. unfold calculate_yield_gap. simpl.
    apply Qltb_ge in Hp. rewrite Hp. split; reflexivity.
  - reflexivity.
Qed.

Lemma yield_gap_figures_are_bounded_witness :
  0 <= yield_gap_percent (calculate_yield_gap 3 (Some 6))
  /\ efficiency (calculate_yield_gap 3 (Some 6)) <= 100.
Proof.
  assert (H0 : 0 < 6) by reflexivity.
  assert (H1 : 3 <= 6) by discriminate.
  destruct (proj1 (proj1 (yield_gap_figures_are_bounded 3 6) H0) H1)
    as (_ & Hg & He).
  split; assumption.
Defined.

(** X2.  The suggestions follow the gap percentage of the analysis.  Up to 20
    percent there is no general suggestion, so with no ['soil_ph'] entry
    the list is empty; above 20 and up to 30 percent the list opens with
    the three basic suggestions and has at most four entries; above 30
    percent it opens with all five general suggestions, in order, ahead
    of any pH suggestion; it never has more than six entries.  Composed
    with [calculate_yield_gap] for a positive potential: an estimate that
    reaches the potential gets no general suggestion, and an estimate
    that is not positive gets all five. *)
Theorem suggestions_follow_the_gap
    (analysis : YieldGap) (input_features : gmap string Q)
    (predicted potential : Q) :
  (yield_gap_percent analysis <= 20 ->
   input_features !! "soil_ph"%string = None ->
   generate_improvement_suggestions analysis input_features = [])
  /\ (20 < yield_gap_percent analysis -> yield_gap_percent analysis <= 30 ->
      take 3 (generate_improvement_suggestions analysis input_features)
      = ["Consider soil testing and nutrient management";
         "Optimize irrigation scheduling";
         "Use improved seed varieties"]%string
      /\ (length (generate_improvement_suggestions analysis input_features)
          <= 4)%nat)
  /\ (30 < yield_gap_percent analysis ->
      take 5 (generate_improvement_suggestions analysis input_features)
      = ["Consider soil testing and nutrient management";
         "Optimize irrigation scheduling";
         "Use improved seed varieties";
         "Implement integrated pest management";
         "Consider precision agriculture techniques"]%string)
  /\ (length (generate_improvement_suggestions analysis input_features)
      <= 6)%nat
  /\ (0 < potential -> potential <= predicted ->
      input_features !! "soil_ph"%string = None ->
      generate_improvement_suggestions
        (calculate_yield_gap predicted (Some potential)) input_features = [])
  /\ (0 < potential -> predicted <= 0 ->
      take 5 (generate_improvement_suggestions
                (calculate_yield_gap predicted (Some potential))
                input_features)
      = ["Consider soil testing and nutrient management";
         "Optimize irrigation scheduling";
         "Use improved seed varieties";
         "Implement integrated pest management";
         "Consider precision agriculture techniques"]%string).
Proof.
  assert (Low : forall a,
             yield_gap_percent a <= 20 ->
             input_features !! "soil_ph"%string = None ->
             generate_improvement_suggestions a input_features = []).
  { intros a H Hph. unfold generate_improvement_suggestions. rewrite Hph.
    rewrite (proj2 (Qltb_ge 20 _)) by exact H.
    rewrite (proj2 (Qltb_ge 30 _)) by lra. reflexivity. }
  assert (High : forall a,
             30 < yield_gap_percent a ->
             take 5 (generate_improvement_suggestions a input_features)
             = ["Consider soil testing and nutrient management";
                "Optimize irrigation scheduling";
                "Use improved seed varieties";
                "Implement integrated pest management";
                "Consider precision agriculture techniques"]%string).
  { intros a H. unfold generate_improvement_suggestions.
    rewrite (proj2 (Qltb_lt 20 _)) by lra.
    rewrite (proj2 (Qltb_lt 30 _)) by exact H.
    destruct (input_features !! "soil_ph"%string) as [ph|];
      [destruct (Py.Qltb ph 6); [|destruct (Py.Qltb (75 # 10) ph)]|];
      reflexivity. }
  split; [apply Low|]. split; [|split; [apply High|split; [|split]]].
  - intros H20 H30. unfold generate_improvement_suggestions.
    rewrite (proj2 (Qltb_lt 20 _)) by exact H20.
    rewrite (proj2 (Qltb_ge 30 _)) by exact H30.
    destruct (input_features !! "soil_ph"%string) as [ph|];
      [destruct (Py.Qltb ph 6); [|destruct (Py.Qltb (75 # 10) ph)]|];
      split; simpl; (reflexivity || lia).
  - unfold generate_improvement_suggestions.
    destruct (Py.Qltb 20 _); destruct (Py.Qltb 30 _);
      (destruct (input_features !! "soil_ph"%string) as [ph|];
       [destruct (Py.Qltb ph 6); [|destruct (Py.Qltb (75 # 10) ph)]|]);
      simpl; lia.
  - intros Hp Hge Hph. apply Low; [|exact Hph].
    destruct (yield_gap_fields predicted potential Hp) as (_ & -> & _).
    destruct (gap_percent_sign predicted potential Hp) as (_ & G2 & _).
    specialize (G2 Hge). lra.
  - intros Hp Hle. apply High.
    destruct (yield_gap_fields predicted potential Hp) as (_ & -> & _).
    destruct (gap_percent_sign predicted potential Hp) as (_ & _ & _ & G4).
    specialize (G4 Hle). lra.
Qed.

Lemma suggestions_follow_the_gap_witness :
  generate_improvement_suggestions (calculate_yield_gap 6 (Some 6))
    {["soil_phh2o"%string := 55 # 10]} = [].
Proof.
  assert (H0 : 0 < 6) by reflexivity.
  assert (H1 : 6 <= 6) by discriminate.
  apply (proj1 (proj2 (proj2 (proj2 (proj2
           (suggestions_follow_the_gap (calculate_yield_gap 6 (Some 6))
              {["soil_phh2o"%string := 55 # 10]} 6 6))))) H0 H1).
  vm_compute. reflexivity.
Defined.

End ReportFacts.

(** ** Advisory confidence *)



(** ** Configuration manager *)

Section ConfigFacts.
Import Config.
Variable json_dumps : Heap -> value -> result string.

Lemma dict_get_set_eq (d : list (string * value)) (k : string) (v : value) :
  dict_get (dict_set d k v) k = Some v.
Proof.
  induction d as [|[k' v'] d IH]; simpl.
  - rewrite String.eqb_refl. reflexivity.
  - destruct (String.eqb k' k) eqn:E; simpl; rewrite E; [reflexivity|exact IH].
Qed.

Lemma dict_get_set_ne (d : list (string * value)) (k k2 : string)
    (v : value) :
  k2 <> k -> dict_get (dict_set d k v) k2 = dict_get d k2.
Proof.
  intros Hne.
  assert (Hf : String.eqb k k2 = false) by (apply String.eqb_neq; congruence).
  induction d as [|[k' v'] d IH]; simpl.
  - rewrite Hf. reflexivity.
  - destruct (String.eqb k' k) eqn:E; simpl.
    + apply String.eqb_eq in E. subst k'. rewrite Hf. reflexivity.
    + rewrite IH. reflexivity.
Qed.

Lemma split_dot_nonempty (key : string) : split_dot key <> [].
Proof.
  destruct key as [|c rest]; simpl; [discriminate|].
  destruct (Ascii.eqb c "."); [discriminate|].
  destruct (split_dot rest); discriminate.
Qed.

Lemma fresh_ref_unused (h : Heap) : h !! fresh (dom h) = None.
Proof. apply not_elem_of_dom, is_fresh. Qed.

(** What the loop of [set] does to the objects: read along the same
    segments the value is found, and every object off the path is as it
    was. *)
Lemma set_path_spec (keys : list string) :
  forall (h h' : Heap) (c : value) (last : string) (v dflt : value),
    set_path h c keys last v = Ok h' ->
    List.NoDup (path_refs h c keys) ->
    get_path h' c (keys ++ [last]) dflt = v
    /\ forall x, is_Some (h !! x) -> ~ In x (path_refs h c keys) ->
                 h' !! x = h !! x.
Proof.
  induction keys as [|k keys IH]; intros h h' c last v dflt H Hnd;
    destruct c as [| | | | |r]; try discriminate H;
    cbn [set_path] in H;
    destruct (h !! r) as [d|] eqn:Hr; try discriminate H.
  - injection H as <-. split.
    + cbn. rewrite lookup_insert_eq, dict_get_set_eq. reflexivity.
    + intros x _ Hx. cbn in Hx. apply lookup_insert_ne. tauto.
  - cbn [path_refs] in Hnd. rewrite Hr in Hnd.
    destruct (dict_get d k) as [sub|] eqn:Hk.
    + apply List.NoDup_cons_iff in Hnd. destruct Hnd as [Hnin Hnd].
      destruct (IH h h' sub last v dflt H Hnd) as [Hg Hf].
      assert (Hr' : h' !! r = Some d).
      { rewrite Hf; [exact Hr| rewrite Hr; eauto | exact Hnin]. }
      split.
      * cbn. rewrite Hr', Hk. exact Hg.
      * intros x Hx Hnx. cbn [path_refs] in Hnx. rewrite Hr, Hk in Hnx.
        apply Hf; [exact Hx|]. intros Hin. apply Hnx. now right.
    + cbv zeta in H.
      set (r' := fresh (dom h)) in *.
      assert (Hfresh : h !! r' = None) by apply fresh_ref_unused.
      assert (Hne : r <> r') by congruence.
      set (h1 := <[r' := []]> (<[r := dict_set d k (VDict r')]> h)) in *.
      assert (Hp : path_refs h1 (VDict r') keys = [r']).
      { destruct keys as [|k' keys']; [reflexivity|]. cbn [path_refs].
        unfold h1. rewrite lookup_insert_eq. reflexivity. }
      destruct (IH h1 h' (VDict r') last v dflt H) as [Hg Hf].
      { rewrite Hp. repeat constructor. simpl. tauto. }
      assert (Hr' : h' !! r = Some (dict_set d k (VDict r'))).
      { rewrite Hf.
        - unfold h1. rewrite lookup_insert_ne by congruence.
          apply lookup_insert_eq.
        - unfold h1. rewrite lookup_insert_ne by congruence.
          rewrite lookup_insert_eq. eauto.
        - rewrite Hp. simpl. intros [E|[]]. congruence. }
      split.
      * cbn. rewrite Hr', dict_get_set_eq. exact Hg.
      * intros x Hx Hnx. cbn [path_refs] in Hnx. rewrite Hr, Hk in Hnx.
        assert (Hxr : x <> r) by (intros ->; apply Hnx; now left).
        assert (Hxr' : x <> r').
        { intros ->. rewrite Hfresh in Hx. destruct Hx; discriminate. }
        rewrite Hf.
        -- unfold h1. rewrite !lookup_insert_ne by congruence. reflexivity.
        -- unfold h1. rewrite !lookup_insert_ne by congruence. exact Hx.
        -- rewrite Hp. simpl. intros [E|[]]. congruence.
Qed.

(** The entries of the first object of the path under other names. *)
Lemma set_path_root (keys : list string) (h h' : Heap) (r : ref)
    (last : string) (v : value) :
  set_path h (VDict r) keys last v = Ok h' ->
  List.NoDup (path_refs h (VDict r) keys) ->
  exists d d',
    h !! r = Some d /\ h' !! r = Some d'
    /\ forall k2, k2 <> hd EmptyString (keys ++ [last]) ->
                  dict_get d' k2 = dict_get d k2.
Proof.
  intros H Hnd.
  destruct keys as [|k keys]; cbn [set_path] in H;
    (destruct (h !! r) as [d|] eqn:Hr; [|discriminate H]).
  - injection H as <-. exists d, (dict_set d last v).
    split; [reflexivity|]. split; [apply lookup_insert_eq|].
    intros k2 Hk2. apply dict_get_set_ne, Hk2.
  - cbn [path_refs] in Hnd. rewrite Hr in Hnd.
    destruct (dict_get d k) as [sub|] eqn:Hk.
    + apply List.NoDup_cons_iff in Hnd. destruct Hnd as [Hnin Hnd].
      destruct (set_path_spec keys h h' sub last v VNull H Hnd) as [_ Hf].
      exists d, d. split; [reflexivity|]. split; [|reflexivity].
      rewrite Hf; [exact Hr| rewrite Hr; eauto | exact Hnin].
    + cbv zeta in H.
      set (r' := fresh (dom h)) in *.
      assert (Hfresh : h !! r' = None) by apply fresh_ref_unused.
      assert (Hne : r <> r') by congruence.
      set (h1 := <[r' := []]> (<[r := dict_set d k (VDict r')]> h)) in *.
      assert (Hp : path_refs h1 (VDict r') keys = [r']).
      { destruct keys as [|k' keys']; [reflexivity|]. cbn [path_refs].
        unfold h1. rewrite lookup_insert_eq. reflexivity. }
      destruct (set_path_spec keys h1 h' (VDict r') last v VNull H)
        as [_ Hf].
      { rewrite Hp. repeat constructor. simpl. tauto. }
      exists d, (dict_set d k (VDict r')).
      split; [reflexivity|]. split.
      * rewrite Hf.
        -- unfold h1. rewrite lookup_insert_ne by congruence.
           apply lookup_insert_eq.
        -- unfold h1. rewrite lookup_insert_ne by congruence.
           rewrite lookup_insert_eq. eauto.
        -- rewrite Hp. simpl. intros [E|[]]. congruence.
      * intros k2 Hk2. apply dict_get_set_ne. exact Hk2.
Qed.

Lemma split_dot_segment (k rest : string) :
  Py.contains k "." = false ->
  split_dot (String.append k (String "." rest)) = k :: split_dot rest.
Proof.
  induction k as [|c k IH]; intros Hk; [reflexivity|].
  cbn [Py.contains String.prefix] in Hk.
  apply orb_false_iff in Hk. destruct Hk as [Hc Hk].
  assert (Hdot : Ascii.eqb c "." = false).
  { destruct (Ascii.eqb_spec c ".") as [->|]; [|reflexivity].
    destruct k; discriminate Hc. }
  change (split_dot (String.append (String c k) (String "." rest)))
    with (if Ascii.eqb c "."
          then EmptyString :: split_dot (String.append k (String "." rest))
          else match split_dot (String.append k (String "." rest)) with
               | [] => [String c EmptyString]
               | h :: t => String c h :: t
               end).
  rewrite Hdot, (IH Hk). reflexivity.
Qed.

Lemma split_dot_plain (k : string) :
  Py.contains k "." = false -> split_dot k = [k].
Proof.
  induction k as [|c k IH]; intros Hk; [reflexivity|].
  cbn [Py.contains String.prefix] in Hk.
  apply orb_false_iff in Hk. destruct Hk as [Hc Hk].
  assert (Hdot : Ascii.eqb c "." = false).
  { destruct (Ascii.eqb_spec c ".") as [->|]; [|reflexivity].
    destruct k; discriminate Hc. }
  cbn [split_dot]. rewrite Hdot, (IH Hk). reflexivity.
Qed.

(** X3.  Setting a dotted key and reading it back, on the dict objects
    themselves.  When [set] returns and no dict object occurs twice on
    the path of the key (as in every configuration that was loaded from a
    file or built by [get_default_config]), [get] of the same key gives
    the value that was set, whatever the default, and every top-level
    key other than the first segment of the key set still gives the value
    it gave before. *)
Theorem config_set_then_get
    (self : ConfigManager) (h h' : Heap) (files files' : Files)
    (key : string) (v dflt : value) :
  set json_dumps self h key v files = Ok (h', files') ->
  List.NoDup (path_refs h (config self) (removelast (split_dot key))) ->
  get self h' key dflt = v
  /\ forall key2 dflt2,
       Py.contains key2 "." = false ->
       key2 <> hd EmptyString (split_dot key) ->
       get self h' key2 dflt2 = get self h key2 dflt2.
Proof.
  unfold set. intros H Hnd.
  destruct (set_path h (config self) (removelast (split_dot key))
              (List.last (split_dot key) EmptyString) v) as [h1|] eqn:E;
    cbn [bind] in H; [|discriminate H].
  destruct (save_config json_dumps self h1 files) as [f1|];
    cbn [bind] in H; [|discriminate H].
  injection H as <- <-.
  pose proof (split_dot_nonempty key) as Hne.
  pose proof (app_removelast_last EmptyString Hne) as Hsplit.
  split.
  - unfold get. rewrite Hsplit at 1.
    apply (proj1 (set_path_spec _ _ _ _ _ _ dflt E Hnd)).
  - intros key2 dflt2 Hplain Hk2. unfold get.
    rewrite (split_dot_plain _ Hplain).
    destruct (config self) as [| | | | |r] eqn:Hc;
      try (destruct (removelast (split_dot key)); discriminate E).
    destruct (set_path_root _ _ _ _ _ _ E Hnd) as (d & d' & Hd & Hd' & Hsame).
    cbn. rewrite Hd, Hd'. rewrite Hsame; [reflexivity|].
    rewrite <- Hsplit. exact Hk2.
Qed.

(** X4.  A dotted key whose first segment names a value that is not a
    dictionary: [get] answers the default, and [set] raises [TypeError]
    instead of writing. *)
Theorem config_path_through_a_leaf
    (self : ConfigManager) (h : Heap) (files : Files) (r : ref)
    (d : list (string * value)) (k rest : string) (leaf v dflt : value) :
  config self = VDict r ->
  h !! r = Some d ->
  dict_get d k = Some leaf ->
  is_dict leaf = false ->
  Py.contains k "." = false ->
  get self h (String.append k (String "." rest)) dflt = dflt
  /\ set json_dumps self h (String.append k (String "." rest)) v files
     = Raise TypeError.
Proof.
  intros Hc Hr Hd Hleaf Hk.
  pose proof (split_dot_nonempty rest) as Hne.
  unfold get, set. rewrite Hc, (split_dot_segment _ _ Hk).
  destruct (split_dot rest) as [|k2 ks] eqn:Er; [congruence|].
  split.
  - cbn. rewrite Hr, Hd. destruct leaf; try reflexivity. discriminate Hleaf.
  - cbn [removelast]. cbn [set_path]. rewrite Hr, Hd.
    destruct leaf; try discriminate Hleaf; destruct ks; reflexivity.
Qed.

End ConfigFacts.

Lemma config_set_then_get_witness :
  exists h' files',
    Config.set write_braces default_manager (snd Config.get_default_config)
      "alerts.email.enabled" (Config.VBool true) ∅ = Ok (h', files')
    /\ Config.get default_manager h' "alerts.email.enabled" Config.VNull
       = Config.VBool true
    /\ Config.get default_manager h' "model" Config.VNull = Config.VDict 1%nat.
Proof.
  eassert (E : Config.set write_braces default_manager
                 (snd Config.get_default_config) "alerts.email.enabled"
                 (Config.VBool true) ∅ = Ok (_, _))
    by (vm_compute; reflexivity).
  assert (Hnd : List.NoDup
                  (path_refs (snd Config.get_default_config)
                     (Config.config default_manager)
                     (removelast (Config.split_dot "alerts.email.enabled")))).
  { vm_compute. repeat constructor. simpl. tauto. }
  destruct (config_set_then_get write_braces _ _ _ _ _ _ _ Config.VNull E Hnd)
    as (Hg & Ho).
  eexists _, _. split; [exact E|]. split; [exact Hg|].
  rewrite Ho; [reflexivity|reflexivity|]. vm_compute. discriminate.
Defined.

Lemma config_path_through_a_leaf_witness :
  Config.get default_manager flat_heap "timeout.seconds" (Config.VNum 5)
  = Config.VNum 5
  /\ Config.set write_braces default_manager flat_heap "timeout.seconds"
       (Config.VNum 5) ∅ = Raise TypeError.
Proof.
  exact (config_path_through_a_leaf write_braces default_manager flat_heap ∅
           0%nat [("timeout"%string, Config.VNum 30)] "timeout" "seconds"
           (Config.VNum 30) (Config.VNum 5) (Config.VNum 5)
           eq_refl eq_refl eq_refl eq_refl eq_refl).
Defined.

(** ** Data quality *)

Section QualityFacts.
Import Predict.

Lemma count_missing_range (keys : list string) (d : list (string * Q)) :
  0 <= count_missing keys d
  /\ count_missing keys d <= inject_Z (Z.of_nat (length keys)).
Proof.
  unfold count_missing. split.
  - replace 0 with (inject_Z 0) by reflexivity. rewrite <- Zle_Qle. lia.
  - rewrite <- Zle_Qle. apply inj_le. apply List.filter_length_le.
Qed.

Lemma data_quality_bounds (external_data : ExternalData) :
  (49 # 100) <= assess_data_quality external_data
  /\ assess_data_quality external_data <= 1.
Proof.
  unfold assess_data_quality.
  assert (R : forall keys d,
             length keys = 3%nat ->
             0 <= count_missing keys d * (1 # 3)
             /\ count_missing keys d * (1 # 3) <= 1).
  { intros keys d Hk. destruct (count_missing_range keys d) as [H0 H3].
    rewrite Hk in H3. change (inject_Z (Z.of_nat 3)) with 3 in H3.
    split; lra. }
  unfold Qdiv. change (/ 3) with (1 # 3).
  destruct (weather external_data) as [|pw lw];
    destruct (soil external_data) as [|ps sl];
    try (pose proof (R ["precip_sum"; "temp_mean"; "gdd"]%string (pw :: lw)
                       eq_refl) as [? ?]);
    try (pose proof (R ["soil_phh2o"; "soil_soc"; "soil_clay"]%string
                       (ps :: sl) eq_refl) as [? ?]);
    split; py_minmax; lra.
Qed.

(** X6.  The data-quality score of the full pipeline lies between 0.49 and
    1.0: the floor of 0.1 in the code is never reached.  It is lowest
    when both families are absent, where it is at most 0.5 (one half, up
    to the rounding of the two subtractions, which can only lower it),
    and it is 1.0 when all six key parameters are there. *)
Theorem data_quality_range (external_data : ExternalData) :
  ((49 # 100) <= assess_data_quality external_data
   /\ assess_data_quality external_data <= 1)
  /\ (weather external_data = [] -> soil external_data = [] ->
      (49 # 100) <= assess_data_quality external_data
      /\ assess_data_quality external_data <= (1 # 2))
  /\ (forallb (fun k => existsb (String.eqb k) (map fst (weather external_data)))
        ["precip_sum"; "temp_mean"; "gdd"]%string = true ->
      forallb (fun k => existsb (String.eqb k) (map fst (soil external_data)))
        ["soil_phh2o"; "soil_soc"; "soil_clay"]%string = true ->
      assess_data_quality external_data == 1).
Proof.
  unfold assess_data_quality.
  assert (R : forall keys d,
             length keys = 3%nat ->
             0 <= count_missing keys d * (1 # 3)
             /\ count_missing keys d * (1 # 3) <= 1).
  { intros keys d Hk. destruct (count_missing_range keys d) as [H0 H3].
    rewrite Hk in H3. change (inject_Z (Z.of_nat 3)) with 3 in H3.
    split; lra. }
  unfold Qdiv. change (/ 3) with (1 # 3).
  split; [|split].
  - fold (assess_data_quality external_data). apply data_quality_bounds.
  - intros -> ->. vm_compute. split; discriminate.
  - intros Hw Hs.
    destruct (weather external_data) as [|pw lw] eqn:W; [discriminate Hw|].
    destruct (soil external_data) as [|ps sl] eqn:S; [discriminate Hs|].
    assert (Ew : count_missing ["precip_sum"; "temp_mean"; "gdd"]%string
                   (pw :: lw) == 0).
    { unfold count_missing. cbn [List.filter].
      cbn [forallb] in Hw. apply andb_true_iff in Hw. destruct Hw as [H1 Hw].
      apply andb_true_iff in Hw. destruct Hw as [H2 Hw].
      apply andb_true_iff in Hw. destruct Hw as [H3 _].
      rewrite H1, H2, H3. reflexivity. }
    assert (Es : count_missing ["soil_phh2o"; "soil_soc"; "soil_clay"]%string
                   (ps :: sl) == 0).
    { unfold count_missing. cbn [List.filter].
      cbn [forallb] in Hs. apply andb_true_iff in Hs. destruct Hs as [H1 Hs].
      apply andb_true_iff in Hs. destruct Hs as [H2 Hs].
      apply andb_true_iff in Hs. destruct Hs as [H3 _].
      rewrite H1, H2, H3. reflexivity. }
    py_minmax; lra.
Qed.

Lemma data_quality_range_witness :
  assess_data_quality {| weather := []; soil := [] |} <= (1 # 2).
Proof.
  apply (proj1 (proj2 (data_quality_range {| weather := []; soil := [] |})));
    reflexivity.
Defined.

Lemma simple_data_quality_bounds
    (additional_features : list (string * MlUtils.scalar)) :
  (7 # 10) <= MlUtils.assess_data_quality additional_features
  /\ MlUtils.assess_data_quality additional_features <= 1.
Proof.
  unfold MlUtils.assess_data_quality.
  set (keys := ["soil_phh2o"; "fertilizer_N"; "gdd"; "solar_mean"]%string).
  set (n := length (List.filter _ keys)).
  assert (Hn : (n <= 4)%nat).
  { unfold n. change 4%nat with (length keys). apply List.filter_length_le. }
  change (inject_Z (Z.of_nat (length keys))) with 4.
  assert (H0 : 0 <= inject_Z (Z.of_nat n)).
  { replace 0 with (inject_Z 0) by reflexivity. rewrite <- Zle_Qle. lia. }
  assert (H4 : inject_Z (Z.of_nat n) <= 4).
  { replace 4 with (inject_Z 4) by reflexivity. rewrite <- Zle_Qle. lia. }
  clearbody n. unfold Qdiv. change (/ 4) with (1 # 4).
  destruct (0 <? n)%nat; split; py_minmax; lra.
Qed.

End QualityFacts.

(** ** Default filling and the input frame *)

Section InputFrameFacts.
Import Pandas Predict.

Lemma has_col_assign (d : DataFrame) (k n : string) (s : Series) :
  has_col (assign d k s) n = true <-> n = k \/ has_col d n = true.
Proof.
  rewrite !has_col_lookup.
  destruct (String.eqb_spec n k) as [->|Hne].
  - rewrite lookup_assign_eq. split; eauto.
  - rewrite lookup_assign_ne by exact Hne.
    split; [auto | intros [?|?]; [congruence|assumption]].
Qed.

Lemma fill_missing_keeps (defaults : list (string * Q)) :
  forall (df : DataFrame) (name : string) (s : Series),
    lookup_col df name = Some s ->
    lookup_col (fill_missing df defaults) name = Some s.
Proof.
  unfold fill_missing.
  induction defaults as [|[k v] defaults IH]; intros df name s H; simpl;
    [exact H|].
  apply IH. destruct (has_col df k) eqn:E; [exact H|].
  rewrite lookup_assign_ne; [exact H|].
  intros ->. apply has_col_false_lookup in E. congruence.
Qed.

Lemma fill_missing_has (defaults : list (string * Q)) :
  forall (df : DataFrame) (name : string),
    In name (map fst defaults) \/ has_col df name = true ->
    has_col (fill_missing df defaults) name = true.
Proof.
  unfold fill_missing.
  induction defaults as [|[k v] defaults IH]; intros df name H; simpl.
  - destruct H as [[]|H]. exact H.
  - apply IH. simpl in H.
    destruct H as [[<-|H]|H]; [right| left; exact H | right].
    + destruct (has_col df k) eqn:E; [exact E|].
      apply has_col_assign. left. reflexivity.
    + destruct (has_col df k); [exact H|].
      apply has_col_assign. right. exact H.
Qed.

Lemma fill_missing_complete (defaults : list (string * Q)) (df : DataFrame) :
  (forall name, In name (map fst defaults) -> has_col df name = true) ->
  fill_missing df defaults = df.
Proof.
  unfold fill_missing.
  induction defaults as [|[k v] defaults IH]; intros H; simpl; [reflexivity|].
  rewrite (H k) by (left; reflexivity).
  apply IH. intros name Hin. apply H. right. exact Hin.
Qed.

(** X7.  After [add_default_features] every one of the twenty default names is
    a column; a column that was already there keeps its cells (a default
    never overwrites a fetched or entered value); and filling twice is
    filling once. *)
Theorem defaults_fill_only_what_is_missing (df : DataFrame) :
  (forall name, In name default_names ->
                has_col (add_default_features df) name = true)
  /\ (forall name s, lookup_col df name = Some s ->
                     lookup_col (add_default_features df) name = Some s)
  /\ add_default_features (add_default_features df) = add_default_features df.
Proof.
  assert (Hhas : forall d name, In name default_names ->
                                has_col (add_default_features d) name = true).
  { intros d name Hin. unfold add_default_features, default_names in *.
    rewrite !map_app in Hin. apply in_app_or in Hin.
    destruct Hin as [Hin|Hin]; [|apply in_app_or in Hin; destruct Hin as [Hin|Hin]].
    - apply fill_missing_has. right. apply fill_missing_has. right.
      apply fill_missing_has. left. exact Hin.
    - apply fill_missing_has. right. apply fill_missing_has. left. exact Hin.
    - apply fill_missing_has. left. exact Hin. }
  split; [apply Hhas|]. split.
  - intros name s H. unfold add_default_features.
    apply fill_missing_keeps, fill_missing_keeps, fill_missing_keeps, H.
  - set (d1 := add_default_features df).
    unfold add_default_features at 1.
    assert (Hin : forall (l : list (string * Q)) name,
               (forall n, In n (map fst l) -> In n default_names)
                                 -> In name (map fst l) ->
                                 has_col d1 name = true).
    { intros l name Hl Hn. apply Hhas, Hl, Hn. }
    rewrite (fill_missing_complete weather_defaults d1).
    2:{ intros name Hn. apply (Hin weather_defaults); [|exact Hn].
        intros n Hn'. unfold default_names. rewrite !map_app.
        apply in_or_app. left. exact Hn'. }
    rewrite (fill_missing_complete soil_defaults d1).
    2:{ intros name Hn. apply (Hin soil_defaults); [|exact Hn].
        intros n Hn'. unfold default_names. rewrite !map_app.
        apply in_or_app. right. apply in_or_app. left. exact Hn'. }
    apply fill_missing_complete.
    intros name Hn. apply (Hin lag_defaults); [|exact Hn].
    intros n Hn'. unfold default_names. rewrite !map_app.
    apply in_or_app. right. apply in_or_app. right. exact Hn'.
Qed.

Lemma update_has (d : list (string * Q)) :
  forall (data : DataFrame) (name : string),
    has_col data name = true -> has_col (update data d) name = true.
Proof.
  unfold update.
  induction d as [|[k v] d IH]; intros data name H; simpl; [exact H|].
  apply IH. apply has_col_assign. right. exact H.
Qed.

Ltac str_ne := let H := fresh in intro H; discriminate H.

(** X8.  The input frame always has the six base columns, and what the farmer
    entered wins over external data of the same name: an entered nitrogen
    amount, area or irrigation count is the cell of its column. *)
Theorem farmer_inputs_take_precedence
    (request : PredictionRequest) (external_data : ExternalData) :
  (forall name,
      In name ["year"; "state"; "district"; "crop"; "area_ha";
               "production_tonnes"]%string ->
      has_col (create_input_dataframe request external_data) name = true)
  /\ (forall fi,
         farmer_inputs request = Some fi ->
         (forall q, area_ha fi = Some q ->
                    lookup_col (create_input_dataframe request external_data)
                      "area_ha" = Some (Num [Some q]))
         /\ (forall q, fertilizer_N_kg fi = Some q ->
                       lookup_col (create_input_dataframe request external_data)
                         "fertilizer_N" = Some (Num [Some q]))
         /\ (forall n, irrigation_events fi = Some n ->
                       lookup_col (create_input_dataframe request external_data)
                         "irrigation_freq" = Some (Num [Some (inject_Z n)]))).
Proof.
  unfold create_input_dataframe.
  set (base := [("year"%string, _); _; _; _; _; _]).
  set (data := update (update base (weather external_data))
                 (soil external_data)).
  assert (Hput : forall name v d n,
             has_col d n = true ->
             has_col (match v with
                      | Some q => assign d name (Num [Some q])
                      | None => d
                      end) n = true).
  { intros name [q|] d n H; [apply has_col_assign; right|]; exact H. }
  split.
  - intros name Hin.
    assert (Hb : has_col data name = true).
    { unfold data. apply update_has, update_has.
      simpl in Hin.
      destruct Hin as [<-|[<-|[<-|[<-|[<-|[<-|[]]]]]]]; reflexivity. }
    destruct (farmer_inputs request) as [fi|]; [|exact Hb].
    repeat apply Hput. exact Hb.
  - intros fi ->. split; [|split].
    + intros q Hq. rewrite Hq.
      destruct (irrigation_events fi); destruct (fertilizer_K_kg fi);
        destruct (fertilizer_P_kg fi); destruct (fertilizer_N_kg fi);
        cbn [option_map];
        repeat (rewrite lookup_assign_ne by str_ne);
        apply lookup_assign_eq.
    + intros q Hq. rewrite Hq.
      destruct (irrigation_events fi); destruct (fertilizer_K_kg fi);
        destruct (fertilizer_P_kg fi);
        cbn [option_map];
        repeat (rewrite lookup_assign_ne by str_ne);
        apply lookup_assign_eq.
    + intros n Hn. rewrite Hn. cbn [option_map]. apply lookup_assign_eq.
Qed.

Lemma farmer_inputs_take_precedence_witness :
  lookup_col
    (create_input_dataframe
       (request_for "rice"
          (Some {| area_ha := Some 2; sowing_date := None;
                   fertilizer_N_kg := Some 90; fertilizer_P_kg := None;
                   fertilizer_K_kg := None; irrigation_events := None;
                   cultivar := None |}))
       {| weather := [("fertilizer_N"%string, 10)]; soil := [] |})
    "fertilizer_N" = Some (Num [Some 90]).
Proof.
  refine (proj1 (proj2 (proj2 (farmer_inputs_take_precedence
                                 (request_for "rice" _) _) _ eq_refl)) 90 _).
  reflexivity.
Defined.

End InputFrameFacts.

(** ** Ranking of the feature attributions *)

Section RankingFacts.
Import Pandas Model.

Lemma insert_desc_In {A : Type} (key : A -> Q) (x a : A) (l : list A) :
  In a (MlUtils.insert_desc key x l) <-> a = x \/ In a l.
Proof.
  induction l as [|y l IH]; simpl; [intuition congruence|].
  destruct (Py.Qleb (key y) (key x)); simpl; [intuition congruence|].
  rewrite IH. intuition.
Qed.

Lemma sort_desc_In {A : Type} (key : A -> Q) (a : A) (l : list A) :
  In a (MlUtils.sort_desc key l) <-> In a l.
Proof.
  unfold MlUtils.sort_desc.
  induction l as [|x l IH]; simpl; [tauto|].
  rewrite insert_desc_In, IH. intuition congruence.
Qed.

Lemma insert_desc_descending {A : Type} (key : A -> Q) (x : A) (l : list A) :
  descending (map key l) -> descending (map key (MlUtils.insert_desc key x l)).
Proof.
  unfold descending.
  induction l as [|y l IH]; intros Hl; simpl.
  - repeat constructor.
  - simpl in Hl. apply StronglySorted_inv in Hl. destruct Hl as [Hs Hf].
    destruct (Py.Qleb (key y) (key x)) eqn:E.
    + apply Qle_bool_iff in E. simpl. constructor.
      * constructor; assumption.
      * constructor; [exact E|].
        eapply List.Forall_impl; [|exact Hf]. intros b Hb. simpl in *. lra.
    + assert (Hxy : key x <= key y).
      { destruct (Qlt_le_dec (key x) (key y)) as [H|H]; [lra|].
        apply Qle_bool_iff in H. unfold Py.Qleb in E. congruence. }
      simpl. constructor; [apply IH, Hs|].
      apply List.Forall_forall. intros b Hb.
      apply in_map_iff in Hb. destruct Hb as (a & <- & Ha).
      apply insert_desc_In in Ha. destruct Ha as [->|Ha]; [exact Hxy|].
      rewrite List.Forall_forall in Hf. apply Hf.
      apply in_map_iff. eauto.
Qed.

(** [sort(key=..., reverse=True)] leaves the keys in descending order. *)
Lemma sort_desc_descending {A : Type} (key : A -> Q) (l : list A) :
  descending (map key (MlUtils.sort_desc key l)).
Proof.
  unfold MlUtils.sort_desc.
  induction l as [|x l IH]; simpl; [constructor|].
  apply insert_desc_descending, IH.
Qed.

Lemma descending_take (n : nat) (l : list Q) :
  descending l -> descending (take n l).
Proof.
  unfold descending. revert n.
  induction l as [|a l IH]; intros [|n] H; simpl; try constructor.
  - apply StronglySorted_inv in H. apply IH, H.
  - apply StronglySorted_inv in H. destruct H as [_ Hf].
    rewrite List.Forall_forall in *. intros b Hb. apply Hf.
    revert Hb. clear. revert n. induction l as [|c l IH]; intros [|n];
      simpl; try tauto.
    intros [->|H]; [auto|right; eapply IH, H].
Qed.

Lemma descending_map (f : Q -> Q) (l : list Q) :
  (forall a b, a <= b -> f a <= f b) ->
  descending l -> descending (map f l).
Proof.
  unfold descending. intros Hf.
  induction 1 as [|a l Hs IH Hall]; simpl; constructor; [exact IH|].
  rewrite List.Forall_forall in *. intros b Hb.
  apply in_map_iff in Hb. destruct Hb as (c & <- & Hc). apply Hf, Hall, Hc.
Qed.

Lemma mapM_map {A B C : Type} (f : A -> result B) (g : B -> C) (h : A -> C)
    (l : list A) :
  (forall a b, f a = Ok b -> g b = h a) ->
  forall l', mapM f l = Ok l' -> map g l' = map h l.
Proof.
  intros Hf. induction l as [|a l IH]; intros l' H; simpl in H.
  - injection H as <-. reflexivity.
  - destruct (f a) as [b|] eqn:Ea; cbn [bind] in H; [|discriminate H].
    destruct (mapM f l) as [bs|]; cbn [bind] in H; [|discriminate H].
    injection H as <-. simpl. rewrite (Hf _ _ Ea), (IH bs eq_refl).
    reflexivity.
Qed.

Lemma zip_In_fst {A B : Type} (l : list A) (k : list B) (p : A * B) :
  In p (zip l k) -> In (fst p) l.
Proof.
  revert k. induction l as [|a l IH]; intros [|b k]; simpl; try tauto.
  intros [<-|H]; [left; reflexivity | right; eapply IH, H].
Qed.

Lemma take_In {A : Type} (n : nat) (l : list A) (a : A) :
  In a (take n l) -> In a l.
Proof.
  revert n. induction l as [|c l IH]; intros [|n]; simpl; try tauto.
  intros [->|H]; [auto | right; eapply IH, H].
Qed.

Lemma mapM_length {A B : Type} (f : A -> result B) (l : list A)
    (l' : list B) :
  mapM f l = Ok l' -> length l' = length l.
Proof.
  intros H.
  pose proof (mapM_map f (fun _ => tt) (fun _ => tt) l
                (fun _ _ _ => eq_refl) l' H) as E.
  apply (f_equal (@length unit)) in E. rewrite !length_map in E. exact E.
Qed.

Lemma top_features_length (self : Predict.PredictionService) (X : DataFrame) :
  (length (Predict.get_top_features self X) <= 5)%nat.
Proof.
  unfold Predict.get_top_features.
  destruct (Predict.model self ≫= feature_importances_) as [imps|];
    match goal with
    | |- context [mapM ?f ?l] => destruct (mapM f l) as [r|] eqn:E
    end; simpl; try lia;
    apply mapM_length in E; rewrite E; rewrite length_take; lia.
Qed.

(** X9.  The top features that the full pipeline returns: at most five, each
    named after a column of the feature matrix, and with importances in
    descending order (they are rounded after the sort, which keeps the
    order).  The complete list of the simple path is in descending order
    too. *)
Theorem top_features_are_ranked
    (self : Predict.PredictionService) (predictor : MlUtils.CropYieldPredictor)
    (X : DataFrame) :
  (length (Predict.get_top_features self X) <= 5)%nat
  /\ descending (map importance (Predict.get_top_features self X))
  /\ (forall f, In f (Predict.get_top_features self X) ->
                In (feature f) (columns X))
  /\ descending (map importance (MlUtils.get_feature_importance predictor X)).
Proof.
  split; [|split; [|split]]; [|unfold Predict.get_top_features..].
  - apply top_features_length.
  - destruct (Predict.model self ≫= feature_importances_) as [imps|];
      match goal with
      | |- context [mapM ?f ?l] => destruct (mapM f l) as [r|] eqn:E
      end; try constructor.
    + match type of E with
      | mapM ?f ?l = _ =>
          rewrite (mapM_map f importance (fun ni => Py.round (snd ni) 4) l
                 ltac:(clear; intros a b H; unfold bind in H;
                       destruct (MlUtils.first_value X (fst a));
                       [inversion H; reflexivity | discriminate H])
                 r E)
      end.
      rewrite <- (map_map snd (fun q => Py.round q 4)).
      apply descending_map; [intros a b; apply round_mono|].
      rewrite <- firstn_map. apply descending_take, sort_desc_descending.
    + match type of E with
      | mapM ?f ?l = _ =>
          rewrite (mapM_map f importance (fun _ => 1 # 10) l
                 ltac:(clear; intros a b H; unfold bind in H;
                       destruct (MlUtils.first_value X a);
                       [inversion H; reflexivity | discriminate H])
                 r E)
      end.
      clear. induction (take 5 (columns X)) as [|c l IH]; simpl;
        constructor; [exact IH|].
      apply List.Forall_forall. intros b Hb.
      apply in_map_iff in Hb. destruct Hb as (c' & <- & _). lra.
  - intros f Hf.
    destruct (Predict.model self ≫= feature_importances_) as [imps|];
      match type of Hf with
      | context [mapM ?g ?l] => destruct (mapM g l) as [r|] eqn:E
      end; try (destruct Hf; fail).
    + match type of E with
      | mapM ?g ?l = _ =>
      pose proof (mapM_map g feature fst l
                    ltac:(clear; intros a b H; unfold bind in H;
                          destruct (MlUtils.first_value X (fst a));
                          [inversion H; reflexivity | discriminate H])
                    r E) as Hmap
      end.
      assert (Hin : In (feature f) (map feature r)) by (apply in_map, Hf).
      rewrite Hmap in Hin. apply in_map_iff in Hin.
      destruct Hin as (p & <- & Hp).
      apply take_In, sort_desc_In in Hp. eapply zip_In_fst, Hp.
    + match type of E with
      | mapM ?g ?l = _ =>
      pose proof (mapM_map g feature (fun c => c) l
                    ltac:(clear; intros a b H; unfold bind in H;
                          destruct (MlUtils.first_value X a);
                          [inversion H; reflexivity | discriminate H])
                    r E) as Hmap
      end.
      assert (Hin : In (feature f) (map feature r)) by (apply in_map, Hf).
      rewrite Hmap, map_id in Hin. eapply take_In, Hin.
  - unfold MlUtils.get_feature_importance.
    destruct (MlUtils.model predictor) as [m|]; [|constructor].
    destruct (feature_importances_ m) as [imps|]; [|constructor].
    match goal with
    | |- context [mapM ?f ?l] => destruct (mapM f l) as [r|]
    end; [|constructor].
    apply sort_desc_descending.
Qed.

End RankingFacts.

(** ** What a completed prediction guarantees *)

Section ServiceFacts.
Import Pandas Features.
Variable ext : Extern.

Lemma Qleb_le (a b : Q) : Py.Qleb a b = true <-> a <= b.
Proof. unfold Py.Qleb. apply Qle_bool_iff. Qed.

Lemma scale_and_fill_serve_state (st st' : FeatureEngineer)
    (Xs X : DataFrame) (y0 y : option Series) :
  (let '(X2, st2) := scale_features ext st Xs false in
   let* X3 := fillna_median X2 in Ok (X3, y0, st2)) = Ok (X, y, st') ->
  st' = st.
Proof.
  destruct (scale_features_invariant ext st Xs false) as (_ & _ & Hs).
  destruct (scale_features ext st Xs false) as [X2 st2].
  simpl in Hs. rewrite (Hs eq_refl).
  destruct (fillna_median X2); cbn [bind]; [|discriminate].
  congruence.
Qed.

(** X10.  At serve time [prepare_features] never writes the engineer state,
    whatever the frame and whatever the state holds. *)
Theorem serve_time_never_writes_the_state
    (st st' : FeatureEngineer) (df X : DataFrame) (target_col : string)
    (feature_selection : bool) (y : option Series) :
  prepare_features ext st df target_col false feature_selection
  = Ok (X, y, st') ->
  st' = st.
Proof.
  unfold prepare_features.
  destruct (feature_frame ext st df target_col false)
    as [[[X0 y0] st0]|] eqn:Eff; cbn [bind]; [|discriminate].
  apply feature_frame_serve_state in Eff. subst st0.
  cbn [andb negb].
  destruct y0 as [y0|];
    (destruct (negb (length (selected_features st) =? 0)%nat);
     [destruct (select X0 (available_features st X0)) as [Xs|e] eqn:Es;
      cbn [bind]; [apply scale_and_fill_serve_state | discriminate]
     |cbn [bind]; apply scale_and_fill_serve_state]).
Qed.

End ServiceFacts.

Lemma serve_time_never_writes_the_state_witness :
  Features.selected_features fitted_engineer <> []
  /\ forall ext,
      exists X y st',
        Features.prepare_features ext fitted_engineer serve_frame "yield_t_ha"
          false false = Ok (X, y, st')
        /\ st' = fitted_engineer.
Proof.
  split; [discriminate|]. intros ext.
  eassert (E : Features.prepare_features ext fitted_engineer serve_frame
                 "yield_t_ha" false false = Ok (_, _, _))
    by (vm_compute; reflexivity).
  eexists _, _, _. split; [exact E|].
  exact (serve_time_never_writes_the_state ext _ _ _ _ _ _ _ E).
Defined.

Section PredictionFacts.
Import Pandas Features.
Variable ext : Extern.

(** X11.  When [PredictionService.predict] completes, the coordinates and the
    year were in range, a model was bound, the confidence lies in
    [0.1, 1.0], the data quality between 0.49 and 1.0, the lower bound of
    the interval is not negative and at most five top features are
    listed. *)
Theorem completed_prediction_is_well_formed
    (self : Predict.PredictionService) (clock : Predict.Clock)
    (request : Predict.PredictionRequest)
    (external_data : Predict.ExternalData) (r : Predict.PredictionResult) :
  Predict.predict ext self clock request external_data = Ok r ->
  ((-90 <= Predict.latitude request /\ Predict.latitude request <= 90)
   /\ (-180 <= Predict.longitude request /\ Predict.longitude request <= 180)
   /\ (2000 <= Predict.year request <= Predict.now_year clock + 1)%Z
   /\ Predict.model self <> None)
  /\ ((1 # 10) <= Predict.confidence r /\ Predict.confidence r <= 1)
  /\ ((49 # 100) <= Predict.data_quality r /\ Predict.data_quality r <= 1)
  /\ 0 <= fst (Predict.prediction_interval r)
  /\ (length (Predict.top_features r) <= 5)%nat.
Proof.
  unfold Predict.predict.
  destruct (Utils.validate_coordinates _ _) eqn:Ec; cbn [negb];
    [|discriminate].
  destruct (Utils.validate_year _ _) eqn:Ey; cbn [negb]; [|discriminate].
  destruct (prepare_features ext _ _ _ _ _) as [[[X y] st]|];
    cbn [bind]; [|discriminate].
  destruct (Predict.model self) as [m|] eqn:Em; [|discriminate].
  destruct (Model.predict m X) as [prediction|]; cbn [bind]; [|discriminate].
  intros H. injection H as <-.
  cbn [Predict.confidence Predict.data_quality Predict.prediction_interval
       Predict.top_features fst].
  split; [|split; [|split; [|split]]].
  - unfold Utils.validate_coordinates in Ec.
    destruct (Py.Qleb (-90) (Predict.latitude request)) eqn:E1;
      destruct (Py.Qleb (Predict.latitude request) 90) eqn:E2;
      try discriminate Ec;
      destruct (Py.Qleb (-180) (Predict.longitude request)) eqn:E3;
      destruct (Py.Qleb (Predict.longitude request) 180) eqn:E4;
      try discriminate Ec.
    apply Qleb_le in E1, E2, E3, E4.
    unfold Utils.validate_year in Ey. apply andb_true_iff in Ey.
    destruct Ey as [Y1 Y2]. apply Z.leb_le in Y1, Y2.
    repeat split; try assumption. discriminate.
  - assert (R1 : Py.round (1 # 10) 3 == 1 # 10) by (vm_compute; reflexivity).
    assert (R2 : Py.round 1 3 == 1) by (vm_compute; reflexivity).
    split.
    + rewrite <- R1. apply round_mono.
      unfold Utils.calculate_confidence_score. apply clamp_range. lra.
    + rewrite <- R2. apply round_mono.
      unfold Utils.calculate_confidence_score. apply clamp_range. lra.
  - apply data_quality_bounds.
  - apply round_nonneg, max_lower_l.
  - apply top_features_length.
Qed.

End PredictionFacts.

Lemma completed_prediction_is_well_formed_witness :
  Predict.model negative_service <> None
  /\ forall ext,
      exists r,
        Predict.predict ext negative_service serve_clock serve_request
          serve_external = Ok r
        /\ ((1 # 10) <= Predict.confidence r /\ Predict.confidence r <= 1)
        /\ (length (Predict.top_features r) <= 5)%nat.
Proof.
  split; [discriminate|]. intros ext.
  eassert (E : Predict.predict ext negative_service serve_clock serve_request
                 serve_external = Ok _) by (vm_compute; reflexivity).
  destruct (completed_prediction_is_well_formed ext _ _ _ _ _ E)
    as (_ & Hc & _ & _ & Ht).
  eexists. split; [exact E|]. split; assumption.
Defined.

(** ** The simple predictor of [backend/ml_utils.py] *)

Section SimplePredictorFacts.
Import Pandas Sklearn Model Random MlUtils.
Variable ext : Features.Extern.

Lemma simple_confidence_range (self : CropYieldPredictor)
    (features_df : DataFrame) (prediction : Q) (g : RandomState) :
  unit_samples g ->
  (1 # 2) <= fst (calculate_confidence_score self features_df prediction g)
  /\ fst (calculate_confidence_score self features_df prediction g)
     <= (95 # 100).
Proof.
  intros Hg. unfold calculate_confidence_score.
  destruct (test_r2 (model_metadata self)) as [[r|]|];
    cbn -[uniform Py.max Py.min].
  - apply clamp_range; lra.
  - destruct (uniform_range (7 # 10) (9 # 10) g) as [Hlo Hhi];
      [lra | exact Hg |]. split; lra.
  - apply clamp_range; lra.
Qed.

Lemma simple_confidence_draws_once (self : CropYieldPredictor)
    (features_df : DataFrame) (prediction : Q) (g : RandomState) :
  snd (calculate_confidence_score self features_df prediction g)
  = {| samples := samples g; consumed := S (consumed g) |}.
Proof.
  unfold calculate_confidence_score.
  destruct (test_r2 (model_metadata self)) as [[r|]|]; reflexivity.
Qed.

Lemma transform_one (enc : LabelEncoder) (x : string) :
  existsb (String.eqb x) (classes_ enc) = true ->
  transform enc [x] = Ok [label_code enc x].
Proof.
  intros H. apply (transform_known enc [x]). simpl.
  unfold known. rewrite H. reflexivity.
Qed.

Lemma index_of_known (l : list string) (x : string) :
  existsb (String.eqb x) l = false -> index_of x l = None.
Proof.
  induction l as [|y l IH]; simpl; [reflexivity|].
  destruct (String.eqb x y); simpl; [discriminate|].
  intros H. rewrite (IH H). reflexivity.
Qed.

Lemma preprocess_input_basic_known
    (self : CropYieldPredictor) (crop soil_type : string)
    (rainfall temperature humidity : Q) :
  known (crop_encoder self) "rice" = true ->
  known (soil_encoder self) "loamy" = true ->
  preprocess_input_basic self crop soil_type rainfall temperature humidity
  = Ok [("crop_encoded",
         Num [label_code (crop_encoder self)
                (if known (crop_encoder self) crop then crop else "rice")]);
        ("soil_encoded",
         Num [label_code (soil_encoder self)
                (if known (soil_encoder self) soil_type then soil_type
                 else "loamy")]);
        ("rainfall", Num [Some rainfall]);
        ("temperature", Num [Some temperature]);
        ("humidity", Num [Some humidity])].
Proof.
  intros Hr Hl. unfold preprocess_input_basic. unfold known in *.
  rewrite (transform_one (crop_encoder self)
             (if existsb (String.eqb crop) (classes_ (crop_encoder self))
              then crop else "rice")).
  2:{ destruct (existsb (String.eqb crop) (classes_ (crop_encoder self)))
        eqn:E; assumption. }
  cbn [bind].
  rewrite (transform_one (soil_encoder self)
             (if existsb (String.eqb soil_type)
                   (classes_ (soil_encoder self))
              then soil_type else "loamy")).
  2:{ destruct (existsb (String.eqb soil_type)
                  (classes_ (soil_encoder self))) eqn:E; assumption. }
  reflexivity.
Qed.

(** X13.  [preprocess_input_basic] with encoders that know the two fallback
    labels never raises: it returns the one-row frame of the five basic
    columns, in which a crop or soil type that the encoder never saw is
    encoded as ['rice'], respectively ['loamy']. *)
Theorem basic_preprocessing_falls_back
    (self : CropYieldPredictor) (crop soil_type : string)
    (rainfall temperature humidity : Q) :
  known (crop_encoder self) "rice" = true ->
  known (soil_encoder self) "loamy" = true ->
  preprocess_input_basic self crop soil_type rainfall temperature humidity
  = Ok [("crop_encoded",
         Num [label_code (crop_encoder self)
                (if known (crop_encoder self) crop then crop else "rice")]);
        ("soil_encoded",
         Num [label_code (soil_encoder self)
                (if known (soil_encoder self) soil_type then soil_type
                 else "loamy")]);
        ("rainfall", Num [Some rainfall]);
        ("temperature", Num [Some temperature]);
        ("humidity", Num [Some humidity])].
Proof.
  apply preprocess_input_basic_known.
Qed.


(** X14.  When the loaded crop encoder does not know ['rice'], every crop that it
    does not know makes [preprocess_input_basic] raise [ValueError]: the
    fallback label is itself unseen. *)
Theorem basic_preprocessing_needs_the_fallback
    (self : CropYieldPredictor) (crop soil_type : string)
    (rainfall temperature humidity : Q) :
  known (crop_encoder self) "rice" = false ->
  known (crop_encoder self) crop = false ->
  preprocess_input_basic self crop soil_type rainfall temperature humidity
  = Raise (ValueError "y contains previously unseen labels").
Proof.
  intros Hr Hc. unfold preprocess_input_basic. unfold known in *.
  rewrite Hc. unfold transform at 1. cbn [mapM].
  rewrite (index_of_known _ _ Hr). reflexivity.
Qed.

(** X15.  [preprocess_input_advanced] never raises when the encoders know the
    two fallback labels, whether or not a feature engineer is loaded and
    whether or not it raises; without a feature engineer it returns the
    basic frame and ignores the additional features. *)
Theorem advanced_preprocessing_never_raises
    (self : CropYieldPredictor) (crop soil_type : string)
    (rainfall temperature humidity : Q)
    (additional_features : option (list (string * scalar))) :
  known (crop_encoder self) "rice" = true ->
  known (soil_encoder self) "loamy" = true ->
  (exists X,
      preprocess_input_advanced ext self crop soil_type rainfall temperature
        humidity additional_features = Ok X)
  /\ (feature_engineer self = None ->
      preprocess_input_advanced ext self crop soil_type rainfall temperature
        humidity additional_features
      = preprocess_input_basic self crop soil_type rainfall temperature
          humidity).
Proof.
  intros Hr Hl.
  pose proof (preprocess_input_basic_known self crop soil_type rainfall
                temperature humidity Hr Hl) as Hb.
  split.
  - unfold preprocess_input_advanced.
    destruct (feature_engineer self) as [fe|].
    + match goal with
      | |- context [Features.prepare_features ?e ?f ?d ?t ?a ?b] =>
          destruct (Features.prepare_features e f d t a b) as [[[X y] st]|]
      end.
      * eexists. reflexivity.
      * rewrite Hb. eexists. reflexivity.
    + rewrite Hb. eexists. reflexivity.
  - intros Hn. unfold preprocess_input_advanced. rewrite Hn. reflexivity.
Qed.

(** X16.  When [CropYieldPredictor.predict] completes, the predictor was fitted
    with a model bound, the confidence lies in [0.5, 0.95], the data
    quality in [0.7, 1.0], the lower interval bound is not negative, at
    most five top features are listed, and the global generator has
    advanced by exactly one sample. *)
Theorem completed_simple_prediction_is_well_formed
    (self : CropYieldPredictor) (crop soil_type : string)
    (rainfall temperature humidity : Q)
    (additional_features : option (list (string * scalar)))
    (g g' : RandomState) (y c : Q) (info : PredictionInfo) :
  unit_samples g ->
  predict ext self crop soil_type rainfall temperature humidity
    additional_features g = Ok (y, c, info, g') ->
  (is_fitted self = true /\ model self <> None)
  /\ ((1 # 2) <= c /\ c <= (95 # 100))
  /\ ((7 # 10) <= data_quality info /\ data_quality info <= 1)
  /\ 0 <= fst (prediction_interval info)
  /\ (length (top_features info) <= 5)%nat
  /\ samples g' = samples g /\ consumed g' = S (consumed g).
Proof.
  intros Hg. unfold predict.
  destruct (is_fitted self); [|discriminate].
  destruct (model self) as [m|]; [|discriminate].
  destruct (preprocess_input_advanced _ _ _ _ _ _ _ _) as [X|];
    cbn [bind]; [|discriminate].
  destruct (Model.predict m X) as [yp|]; cbn [bind]; [|discriminate].
  pose proof (simple_confidence_range self X yp g Hg) as Hc.
  pose proof (simple_confidence_draws_once self X yp g) as Hd.
  destruct (calculate_confidence_score self X yp g) as [c0 g0].
  cbn [fst snd] in Hc, Hd.
  intros H. injection H as <- <- <- <-.
  cbn [data_quality prediction_interval top_features].
  split; [split; [reflexivity|discriminate]|].
  split; [exact Hc|].
  split; [apply simple_data_quality_bounds|].
  split.
  { unfold calculate_prediction_interval, interval_bounds. cbn [fst].
    apply round_nonneg, max_lower_l. }
  split; [rewrite length_take; lia|].
  rewrite Hd. split; reflexivity.
Qed.

End SimplePredictorFacts.

Lemma basic_preprocessing_falls_back_witness :
  Sklearn.index_of "rice" (Sklearn.classes_ (MlUtils.crop_encoder MlUtils.init))
  = Some 4%nat
  /\ MlUtils.preprocess_input_basic MlUtils.init "barley" "chalk" 900 28 70
     = Ok [("crop_encoded", Pandas.Num [Some 4]);
           ("soil_encoded", Pandas.Num [Some 3]);
           ("rainfall", Pandas.Num [Some 900]);
           ("temperature", Pandas.Num [Some 28]);
           ("humidity", Pandas.Num [Some 70])].
Proof.
  split; [reflexivity|].
  exact (basic_preprocessing_falls_back MlUtils.init "barley" "chalk"
           900 28 70 eq_refl eq_refl).
Defined.

Lemma basic_preprocessing_needs_the_fallback_witness :
  Sklearn.classes_ (MlUtils.crop_encoder narrow_predictor)
  = ["maize"; "wheat"]%string
  /\ MlUtils.preprocess_input_basic narrow_predictor "barley" "clay" 900 28 70
     = Raise (ValueError "y contains previously unseen labels").
Proof.
  split; [reflexivity|].
  exact (basic_preprocessing_needs_the_fallback narrow_predictor "barley"
           "clay" 900 28 70 eq_refl eq_refl).
Defined.

Lemma advanced_preprocessing_never_raises_witness :
  MlUtils.feature_engineer loaded_predictor = None
  /\ forall ext,
      MlUtils.preprocess_input_advanced ext loaded_predictor "barley" "clay"
        900 28 70 (Some [("gdd", MlUtils.SNum 2400)]%string)
      = MlUtils.preprocess_input_basic loaded_predictor "barley" "clay"
          900 28 70.
Proof.
  split; [reflexivity|]. intros ext.
  exact (proj2 (advanced_preprocessing_never_raises ext loaded_predictor
                  "barley" "clay" 900 28 70
                  (Some [("gdd", MlUtils.SNum 2400)]%string)
                  eq_refl eq_refl) eq_refl).
Defined.

Lemma completed_simple_prediction_is_well_formed_witness :
  Random.unit_samples (Random.constant (1 # 2))
  /\ forall ext,
      exists y c info g',
        MlUtils.predict ext loaded_predictor "rice" "clay" 900 28 70 None
          (Random.constant (1 # 2)) = Ok (y, c, info, g')
        /\ ((1 # 2) <= c /\ c <= (95 # 100))
        /\ Random.consumed g' = 1%nat.
Proof.
  assert (Hg : Random.unit_samples (Random.constant (1 # 2))).
  { intros n. simpl. split; lra. }
  split; [exact Hg|]. intros ext.
  eassert (E : MlUtils.predict ext loaded_predictor "rice" "clay" 900 28 70
                 None (Random.constant (1 # 2)) = Ok (_, _, _, _))
    by (vm_compute; reflexivity).
  destruct (completed_simple_prediction_is_well_formed ext _ _ _ _ _ _ _ _ _
              _ _ _ Hg E) as (_ & Hc & _ & _ & _ & _ & Hn).
  eexists _, _, _, _. split; [exact E|]. split; [exact Hc|exact Hn].
Defined.

(** ** The [/predict] endpoint of [backend/main.py] *)

Section EndpointFacts.
Import BackendMain.
Variable ext : Features.Extern.

(** X17.  The endpoint never returns a prediction: every call ends in an
    [HTTPException] with status 400 or 500.  An unloaded model is reported
    as 500 (the 503 raised inside the [try] block is caught by
    [except Exception]); a prediction that the predictor completes is lost
    when its three values are unpacked into two names, reported as 400. *)
Theorem endpoint_never_returns_a_prediction
    (predictor : MlUtils.CropYieldPredictor) (request : PredictionRequest)
    (g : Random.RandomState) :
  (exists status detail,
      predict_yield ext predictor request g = HTTPException status detail
      /\ (status = 400 \/ status = 500)%Z)
  /\ (MlUtils.is_fitted predictor = false ->
      predict_yield ext predictor request g
      = HTTPException 500 "Internal server error during prediction")
  /\ (forall t g',
        MlUtils.predict ext predictor (crop request) (soil_type request)
          (rainfall request) (temperature request) (humidity request)
          None g = Ok (t, g') ->
        predict_yield ext predictor request g
        = HTTPException 400 "too many values to unpack (expected 2)").
Proof.
  unfold predict_yield, predict_yield_body.
  split; [|split].
  - destruct (MlUtils.is_fitted predictor); cbn [negb].
    + destruct (MlUtils.predict _ _ _ _ _ _ _ _ _) as [[t g']|e].
      * eexists _, _. split; [reflexivity|]. left. reflexivity.
      * destruct e; eexists _, _; (split; [reflexivity|]); auto.
    + eexists _, _. split; [reflexivity|]. right. reflexivity.
  - intros ->. reflexivity.
  - intros t g' E.
    destruct (MlUtils.is_fitted predictor) eqn:Ef; cbn [negb].
    + rewrite E. reflexivity.
    + unfold MlUtils.predict in E. rewrite Ef in E. discriminate E.
Qed.

End EndpointFacts.

Lemma endpoint_never_returns_a_prediction_witness :
  MlUtils.is_fitted loaded_predictor = true
  /\ forall ext,
      BackendMain.predict_yield ext loaded_predictor backend_request
        (Random.constant (1 # 2))
      = BackendMain.HTTPException 400
          "too many values to unpack (expected 2)".
Proof.
  split; [reflexivity|]. intros ext.
  eassert (E : MlUtils.predict ext loaded_predictor "rice" "clay" 900 28 70
                 None (Random.constant (1 # 2)) = Ok (_, _))
    by (vm_compute; reflexivity).
  exact (proj2 (proj2 (endpoint_never_returns_a_prediction ext
                         loaded_predictor backend_request
                         (Random.constant (1 # 2)))) _ _ E).
Defined.

(** ** Label encoders *)

Section EncoderFacts.
Import Pandas Sklearn Features.

Lemma compare_lt (a b : string) : String.compare a b = Lt <-> string_lt a b.
Proof. apply OrderedTypeEx.String_as_OT.cmp_lt. Qed.

Lemma compare_gt (a b : string) : String.compare a b = Gt -> string_lt b a.
Proof.
  intros H. apply compare_lt. rewrite String.compare_antisym, H. reflexivity.
Qed.

Lemma insert_label_In (x y : string) (l : list string) :
  In y (insert_label x l) <-> y = x \/ In y l.
Proof.
  induction l as [|z l IH]; simpl.
  - intuition.
  - destruct (String.compare x z) eqn:E; simpl.
    + apply String.compare_eq_iff in E. subst z. intuition.
    + intuition.
    + rewrite IH. intuition.
Qed.

Lemma unique_In (x : string) (xs : list string) :
  In x (unique xs) <-> In x xs.
Proof.
  induction xs as [|y xs IH]; simpl; [tauto|].
  rewrite insert_label_In, IH. intuition.
Qed.

Lemma insert_label_sorted (x : string) (l : list string) :
  StronglySorted string_lt l -> StronglySorted string_lt (insert_label x l).
Proof.
  induction 1 as [|z l Hs IH Hz]; simpl.
  - constructor; constructor.
  - destruct (String.compare x z) eqn:E.
    + constructor; assumption.
    + apply compare_lt in E. constructor; [constructor; assumption|].
      constructor; [exact E|].
      eapply List.Forall_impl; [|exact Hz]. intros w Hw.
      eapply OrderedTypeEx.String_as_OT.lt_trans; eassumption.
    + apply compare_gt in E. constructor; [exact IH|].
      apply List.Forall_forall. intros w Hw.
      apply insert_label_In in Hw. destruct Hw as [->|Hw]; [exact E|].
      rewrite List.Forall_forall in Hz. apply Hz, Hw.
Qed.

Lemma unique_sorted (xs : list string) : StronglySorted string_lt (unique xs).
Proof.
  induction xs as [|x xs IH]; simpl; [constructor|].
  apply insert_label_sorted, IH.
Qed.

Lemma In_known (l : list string) (x : string) :
  In x l -> existsb (String.eqb x) l = true.
Proof.
  intros H. apply existsb_exists. exists x. split; [exact H|].
  apply String.eqb_refl.
Qed.

Lemma index_of_bound (l : list string) (x : string) (i : nat) :
  index_of x l = Some i -> l !! i = Some x.
Proof.
  revert i. induction l as [|y l IH]; simpl; intros i; [discriminate|].
  destruct (String.eqb x y) eqn:E.
  - apply eqb_true in E. subst y. intros [= <-]. reflexivity.
  - destruct (index_of x l) as [j|]; simpl; [|discriminate].
    intros [= <-]. simpl. apply IH. reflexivity.
Qed.

Lemma lookup_In {A : Type} (l : list A) (i : nat) (x : A) :
  l !! i = Some x -> In x l.
Proof.
  revert i. induction l as [|y l IH]; intros [|i]; simpl; try discriminate.
  - intros [= ->]. left. reflexivity.
  - intros H. right. apply (IH i H).
Qed.

Lemma known_all (xs : list string) :
  forallb (known {| classes_ := unique xs |}) xs = true.
Proof.
  apply forallb_forall. intros x Hx. unfold known. simpl.
  apply In_known, unique_In, Hx.
Qed.

(** [LabelEncoder.fit_transform] never raises.  The classes it learns are
    the labels of the column, strictly ascending (so without
    repetition), and decoding the code of a cell through [classes_] gives
    the cell back. *)
Lemma fit_transform_round_trip (xs : list string) :
  exists codes,
    fit_transform xs = Ok ({| classes_ := unique xs |}, codes)
    /\ length codes = length xs
    /\ StronglySorted string_lt (unique xs)
    /\ (forall x, In x (unique xs) <-> In x xs)
    /\ (forall (i : nat) (x : string),
          xs !! i = Some x ->
          exists n : nat,
            codes !! i = Some (Some (inject_Z (Z.of_nat n)))
            /\ unique xs !! n = Some x).
Proof.
  unfold fit_transform.
  rewrite (transform_known _ xs (known_all xs)). cbn [bind].
  eexists. split; [reflexivity|].
  split; [apply length_map|].
  split; [apply unique_sorted|].
  split; [intros x; apply unique_In|].
  intros i x Hi.
  assert (Hin : In x xs).
  { apply (lookup_In xs i x Hi). }
  destruct (known_index (unique xs) x) as [n Hn].
  { apply In_known, unique_In, Hin. }
  exists n. split.
  - change (map (label_code {| classes_ := unique xs |}) xs)
      with (label_code {| classes_ := unique xs |} <$> xs).
    rewrite list_lookup_fmap, Hi. simpl.
    unfold label_code. simpl. rewrite Hn. reflexivity.
  - apply index_of_bound, Hn.
Qed.

End EncoderFacts.

(** ** Encoding and scaling at fit time *)

Section FitFacts.
Import Pandas Sklearn Features.
Variable ext : Extern.

Lemma encode_column_fit (df df1 : DataFrame) (st st1 : FeatureEngineer)
    (col : string) :
  encode_column ext true (df, st) col = Ok (df1, st1) ->
  (has_col df col = false /\ df1 = df /\ st1 = st)
  \/ exists s,
       lookup_col df col = Some s
       /\ df1 = assign df (encoded_name col)
                  (Num (map (label_code
                               {| classes_ := unique (astype_str ext s) |})
                          (astype_str ext s)))
       /\ st1 = set_encoders st
                  (<[col := {| classes_ := unique (astype_str ext s) |}]>
                     (encoders st)).
Proof.
  unfold encode_column.
  destruct (has_col df col) eqn:Hc.
  2:{ intros [= <- <-]. left. auto. }
  apply has_col_lookup in Hc. destruct Hc as [s Hs].
  rewrite (get_lookup _ _ _ Hs). cbn [bind].
  unfold fit_transform.
  rewrite (transform_known _ _ (known_all (astype_str ext s))). cbn [bind].
  intros [= <- <-]. right. exists s. auto.
Qed.

Lemma encode_fit_other_keys (cols : list string) :
  forall (df df' : DataFrame) (st st' : FeatureEngineer) (c : string),
    foldM (encode_column ext true) cols (df, st) = Ok (df', st') ->
    ~ In c cols ->
    encoders st' !! c = encoders st !! c.
Proof.
  induction cols as [|col cols IH]; intros df df' st st' c; cbn [foldM].
  - intros [= <- <-] _. reflexivity.
  - destruct (encode_column ext true (df, st) col) as [[df1 st1]|] eqn:E;
      cbn [bind]; [|discriminate].
    intros H Hc. rewrite (IH _ _ _ _ c H) by (intros Hin; apply Hc; now right).
    apply encode_column_fit in E.
    destruct E as [(_ & _ & ->)|(s & _ & _ & ->)]; [reflexivity|].
    simpl. apply lookup_insert_ne. intros ->. apply Hc. now left.
Qed.

Lemma encode_fit_then_serve (cols : list string) :
  List.NoDup cols ->
  forall (df df' : DataFrame) (st st' st2 : FeatureEngineer),
    foldM (encode_column ext true) cols (df, st) = Ok (df', st') ->
    (forall c, In c cols -> encoders st2 !! c = encoders st' !! c) ->
    foldM (encode_column ext false) cols (df, st2) = Ok (df', st2).
Proof.
  induction 1 as [|col cols Hnin Hnd IH]; intros df df' st st' st2;
    cbn [foldM].
  - intros [= <- <-] _. reflexivity.
  - destruct (encode_column ext true (df, st) col) as [[df1 st1]|] eqn:E;
      cbn [bind]; [|discriminate].
    intros H Hst.
    assert (Hcol : encoders st2 !! col = encoders st1 !! col).
    { rewrite (Hst col) by now left.
      apply (encode_fit_other_keys cols df1 df' st1 st' col H).
      exact Hnin. }
    assert (Hs : encode_column ext false (df, st2) col = Ok (df1, st2)).
    { apply encode_column_fit in E.
      destruct E as [(Hc & -> & ->)|(s & Hs & -> & ->)].
      - unfold encode_column. rewrite Hc. reflexivity.
      - unfold encode_column.
        assert (Hh : has_col df col = true)
          by (apply has_col_lookup; eauto).
        rewrite Hh, (get_lookup _ _ _ Hs). cbn [bind].
        rewrite Hcol. cbn [encoders set_encoders].
        rewrite lookup_insert_eq.
        pose proof (known_all (astype_str ext s)) as Hk.
        fold (known {| classes_ := unique (astype_str ext s) |}).
        rewrite Hk.
        rewrite (transform_known _ _ Hk). reflexivity. }
    rewrite Hs. cbn [bind].
    apply (IH df1 df' st1 st' st2 H).
    intros c Hc. apply Hst. now right.
Qed.

(** X19.  Encoding the training frame again at serve time, with the engineer
    that the fit-time encoding produced, reproduces the fit-time frame
    and leaves the engineer as it is: no label of the training frame is
    unseen. *)
Theorem fit_then_serve_encoding_agrees
    (st st' : FeatureEngineer) (df df' : DataFrame) :
  encode_categorical_features ext st df true = Ok (df', st') ->
  encode_categorical_features ext st' df false = Ok (df', st').
Proof.
  unfold encode_categorical_features. intros H.
  apply (encode_fit_then_serve categorical_cols) with (st := st) (st' := st').
  - unfold categorical_cols.
    repeat (apply List.NoDup_cons; [simpl; intuition discriminate|]).
    apply List.NoDup_nil.
  - exact H.
  - reflexivity.
Qed.

(** X18.  The encoder that fit-time encoding stores for a column has the labels
    of that column as its classes, and its first class, the label that
    serve-time encoding substitutes for an unseen category as the most
    frequent one, is the smallest label of the column in string order,
    whatever the frequencies were. *)
Theorem fallback_label_is_the_smallest
    (df df1 : DataFrame) (st st1 : FeatureEngineer) (col : string)
    (s : Series) :
  lookup_col df col = Some s ->
  encode_column ext true (df, st) col = Ok (df1, st1) ->
  exists enc,
    encoders st1 !! col = Some enc
    /\ (forall x, In x (classes_ enc) <-> In x (astype_str ext s))
    /\ forall most_frequent rest,
         classes_ enc = most_frequent :: rest ->
         forall x, In x (astype_str ext s) ->
                   x = most_frequent \/ string_lt most_frequent x.
Proof.
  intros Hs E. apply encode_column_fit in E.
  destruct E as [(Hc & _ & _)|(s' & Hs' & _ & ->)].
  { apply has_col_false_lookup in Hc. congruence. }
  rewrite Hs in Hs'. injection Hs' as <-.
  eexists. split; [cbn [encoders set_encoders]; apply lookup_insert_eq|].
  cbn [classes_]. split; [intros x; apply unique_In|].
  intros m rest Hm x Hx.
  pose proof (unique_sorted (astype_str ext s)) as Hsorted.
  rewrite Hm in Hsorted. apply StronglySorted_inv in Hsorted.
  destruct Hsorted as [_ Hall].
  apply unique_In in Hx. rewrite Hm in Hx.
  destruct Hx as [<-|Hx]; [left; reflexivity|].
  right. rewrite List.Forall_forall in Hall. apply Hall, Hx.
Qed.

(** X20.  Fit-time encoding never raises, and it never touches the scalers or
    the feature lists of the engineer. *)
Theorem fit_time_encoding_never_raises (st : FeatureEngineer)
    (df : DataFrame) :
  exists df' st',
    encode_categorical_features ext st df true = Ok (df', st')
    /\ scalers st' = scalers st
    /\ feature_names st' = feature_names st
    /\ selected_features st' = selected_features st.
Proof.
  unfold encode_categorical_features.
  generalize categorical_cols. intros cols. revert df st.
  induction cols as [|col cols IH]; intros df st; cbn [foldM].
  - exists df, st. auto.
  - assert (E : exists df1 st1,
               encode_column ext true (df, st) col = Ok (df1, st1)
               /\ scalers st1 = scalers st
               /\ feature_names st1 = feature_names st
               /\ selected_features st1 = selected_features st).
    { unfold encode_column.
      destruct (has_col df col) eqn:Hc; [|exists df, st; auto].
      apply has_col_lookup in Hc. destruct Hc as [s Hs].
      rewrite (get_lookup _ _ _ Hs). cbn [bind].
      unfold fit_transform.
      rewrite (transform_known _ _ (known_all (astype_str ext s))).
      cbn [bind]. eexists _, _. split; [reflexivity|]. auto. }
    destruct E as (df1 & st1 & -> & E1 & E2 & E3). cbn [bind].
    destruct (IH df1 st1) as (df' & st' & -> & F1 & F2 & F3).
    exists df', st'. split; [reflexivity|].
    rewrite F1, F2, F3. auto.
Qed.

Lemma scale_column_other (fit : bool) (X : DataFrame)
    (st : FeatureEngineer) (col n : string) :
  n <> col ->
  lookup_col (fst (scale_column ext fit (X, st) col)) n = lookup_col X n.
Proof.
  intros Hn. unfold scale_column.
  destruct (lookup_col X col) as [[v|v]|]; [|reflexivity..].
  destruct fit; [apply lookup_assign_ne, Hn|].
  destruct (scalers st !! col); [apply lookup_assign_ne, Hn|reflexivity].
Qed.

Lemma scale_fold_other (fit : bool) (cols : list string) (n : string) :
  ~ In n cols ->
  forall (X : DataFrame) (st : FeatureEngineer),
    lookup_col (fst (fold_left (scale_column ext fit) cols (X, st))) n
    = lookup_col X n.
Proof.
  induction cols as [|col cols IH]; intros Hn X st; [reflexivity|].
  cbn [fold_left].
  destruct (scale_column ext fit (X, st) col) as [X1 st1] eqn:E.
  rewrite IH by (intros Hin; apply Hn; now right).
  replace X1 with (fst (scale_column ext fit (X, st) col))
    by (rewrite E; reflexivity).
  apply scale_column_other. intros ->. apply Hn. now left.
Qed.

(** X21.  [scale_features] never changes a column whose name ends in
    [_encoded], [_optimal], [_high] or [_low], a numeric column with at
    most two distinct values, or an [object] column, at fit time or at
    serve time. *)
Theorem scaling_leaves_flag_columns
    (st : FeatureEngineer) (X : DataFrame) (fit : bool) (col : string) :
  (Py.endswith col "_encoded" || Py.endswith col "_optimal"
   || Py.endswith col "_high" || Py.endswith col "_low" = true
   \/ (exists v, lookup_col X col = Some (Num v)
                 /\ (nunique (Num v) <= 2)%nat)
   \/ (exists v, lookup_col X col = Some (Obj v))) ->
  lookup_col (fst (scale_features ext st X fit)) col = lookup_col X col.
Proof.
  intros H. unfold scale_features. apply scale_fold_other.
  unfold cols_to_scale. intros Hin. apply filter_In in Hin.
  destruct Hin as [_ Hf].
  destruct H as [H|[(v & Hv & Hn)|(v & Hv)]].
  - destruct (lookup_col X col) as [[v|v]|]; try discriminate Hf.
    apply negb_true_iff in Hf. apply orb_false_iff in Hf.
    destruct Hf as [Hf _]. congruence.
  - rewrite Hv in Hf. apply negb_true_iff in Hf. apply orb_false_iff in Hf.
    destruct Hf as [_ Hf]. apply Nat.leb_gt in Hf. lia.
  - rewrite Hv in Hf. discriminate.
Qed.

End FitFacts.

Lemma fit_then_serve_encoding_agrees_witness :
  Pandas.has_col labelled_frame "crop" = true
  /\ forall ext,
      exists df' st',
        Features.encode_categorical_features ext Features.init
          labelled_frame true = Ok (df', st')
        /\ Features.encode_categorical_features ext st' labelled_frame false
           = Ok (df', st').
Proof.
  split; [reflexivity|]. intros ext.
  eassert (E : Features.encode_categorical_features ext Features.init
                 labelled_frame true = Ok (_, _))
    by (vm_compute; reflexivity).
  eexists _, _. split; [exact E|].
  exact (fit_then_serve_encoding_agrees ext _ _ _ _ E).
Defined.

Lemma fallback_label_is_the_smallest_witness :
  Pandas.lookup_col labelled_frame "crop"
  = Some (Pandas.Obj ["Rice"; "Wheat"; "Rice"]%string)
  /\ forall ext,
      exists df1 st1 enc,
        Features.encode_column ext true (labelled_frame, Features.init) "crop"
        = Ok (df1, st1)
        /\ Features.encoders st1 !! "crop"%string = Some enc.
Proof.
  split; [reflexivity|]. intros ext.
  eassert (E : Features.encode_column ext true
                 (labelled_frame, Features.init) "crop" = Ok (_, _))
    by (vm_compute; reflexivity).
  destruct (fallback_label_is_the_smallest ext labelled_frame _
              Features.init _ "crop" _ eq_refl E) as (enc & He & _).
  eexists _, _, enc. split; [exact E|exact He].
Defined.

Lemma scaling_leaves_flag_columns_witness :
  Py.endswith "crop_encoded" "_encoded" = true
  /\ forall ext,
      Pandas.lookup_col
        (fst (Features.scale_features ext Features.init training_frame true))
        "crop_encoded"
      = Pandas.lookup_col training_frame "crop_encoded".
Proof.
  split; [reflexivity|]. intros ext.
  apply (scaling_leaves_flag_columns ext Features.init training_frame true
           "crop_encoded").
  left. reflexivity.
Defined.

Section FitScalingFacts.
Import Pandas Sklearn Features.
Variable ext : Extern.

Lemma scale_fold_fit_keys (cols : list string) :
  forall (X : DataFrame) (st : FeatureEngineer),
    (forall c, In c cols -> exists v, lookup_col X c = Some (Num v)) ->
    (forall c, In c cols ->
       is_Some (scalers (snd (fold_left (scale_column ext true) cols
                                (X, st))) !! c))
    /\ (forall c, ~ In c cols ->
          scalers (snd (fold_left (scale_column ext true) cols (X, st))) !! c
          = scalers st !! c)
    /\ encoders (snd (fold_left (scale_column ext true) cols (X, st)))
       = encoders st
    /\ selected_features
         (snd (fold_left (scale_column ext true) cols (X, st)))
       = selected_features st.
Proof.
  induction cols as [|col cols IH]; intros X st Hnum; cbn [fold_left].
  - split; [intros c []|]. auto.
  - destruct (Hnum col (or_introl eq_refl)) as [v Hv].
    unfold scale_column at 2 4 6 8. rewrite Hv.
    match goal with
    | |- context [fold_left _ cols (?X1, ?st1)] =>
        destruct (IH X1 st1) as (K1 & K2 & K3 & K4)
    end.
    { intros c Hc. destruct (String.eqb_spec c col) as [->|Hne].
      - rewrite lookup_assign_eq. eauto.
      - rewrite lookup_assign_ne by exact Hne. apply Hnum. now right. }
    split; [|split; [|split]].
    + intros c [<-|Hc]; [|apply K1, Hc].
      destruct (in_dec string_dec col cols) as [Hin|Hnin]; [apply K1, Hin|].
      rewrite (K2 col Hnin). cbn [scalers set_scalers].
      rewrite lookup_insert_eq. eauto.
    + intros c Hc. rewrite K2 by (intros Hin; apply Hc; now right).
      cbn [scalers set_scalers]. apply lookup_insert_ne.
      intros ->. apply Hc. now left.
    + rewrite K3. reflexivity.
    + rewrite K4. reflexivity.
Qed.

(** X22.  After [scale_features] at fit time the engineer holds a scaler for
    every column that was to be scaled, the scalers of all other names
    are the ones it had, and the encoders and the selected features are
    untouched. *)
Theorem fit_time_scaling_records_scalers
    (st : FeatureEngineer) (X : DataFrame) :
  (forall c, In c (cols_to_scale X) ->
     is_Some (scalers (snd (scale_features ext st X true)) !! c))
  /\ (forall c, ~ In c (cols_to_scale X) ->
        scalers (snd (scale_features ext st X true)) !! c = scalers st !! c)
  /\ encoders (snd (scale_features ext st X true)) = encoders st
  /\ selected_features (snd (scale_features ext st X true))
     = selected_features st.
Proof.
  unfold scale_features. apply scale_fold_fit_keys.
  intros c Hc. unfold cols_to_scale in Hc. apply filter_In in Hc.
  destruct Hc as [_ Hf].
  destruct (lookup_col X c) as [[v|v]|]; try discriminate Hf. eauto.
Qed.

Lemma zip_filter_In {A : Type} (l : list A) (mask : list bool) (x : A) :
  In x (map fst (List.filter snd (zip l mask))) -> In x l.
Proof.
  revert mask. induction l as [|a l IH]; intros [|b mask]; simpl; try tauto.
  destruct b; simpl; [intros [<-|H]; [now left|right; eauto]|].
  intros H. right. eauto.
Qed.

(** X23.  [select_features] stores in the engineer exactly the list it returns;
    every selected name is a numeric column of the frame; the scalers and
    encoders are untouched. *)
Theorem selected_features_are_numeric_columns
    (st st' : FeatureEngineer) (X : DataFrame) (y : Series) (k : nat)
    (selected : list string) :
  select_features ext st X y k = Ok (selected, st') ->
  selected_features st' = selected
  /\ scalers st' = scalers st /\ encoders st' = encoders st
  /\ Forall (fun c => exists v, In (c, Num v) X) selected.
Proof.
  unfold select_features.
  destruct (select X _) as [Xn|]; cbn [bind]; [|discriminate].
  destruct (fillna_median Xn) as [Xf|]; cbn [bind]; [|discriminate].
  destruct (k_best_support ext Xf y _) as [mask|]; cbn [bind];
    [|discriminate].
  intros [= <- <-]. split; [reflexivity|]. split; [reflexivity|].
  split; [reflexivity|].
  apply List.Forall_forall. intros c Hc. apply zip_filter_In in Hc.
  apply in_map_iff in Hc. destruct Hc as ([c0 s] & <- & Hin).
  apply filter_In in Hin. destruct Hin as [Hin Hs]. simpl in Hs.
  destruct s as [v|v]; [|discriminate]. exists v. exact Hin.
Qed.

End FitScalingFacts.

Lemma selected_features_are_numeric_columns_witness :
  exists st',
    Features.select_features keep_all Features.init training_frame
      (Pandas.Num [Some 3; Some (7 # 2); Some 4]) 50
    = Ok (["precip_sum"; "temp_max"; "crop_encoded"]%string, st')
    /\ Features.selected_features st'
       = ["precip_sum"; "temp_max"; "crop_encoded"]%string.
Proof.
  eassert (E : Features.select_features keep_all Features.init training_frame
                 (Pandas.Num [Some 3; Some (7 # 2); Some 4]) 50
               = Ok (_, _)) by (vm_compute; reflexivity).
  eexists. split; [exact E|].
  exact (proj1 (selected_features_are_numeric_columns keep_all _ _ _ _ _ _ E)).
Defined.

(** ** Derived weather and temporal features *)

Section DerivedFeatureFacts.
Import Pandas Sklearn Features.
Variable ext : Extern.

Ltac stage E :=
  repeat match type of E with
         | (if ?c then _ else _) = _ => destruct c eqn:?
         | bind ?a _ = _ =>
             let v := fresh "v" in
             destruct a as [v|] eqn:?; cbn [bind] in E; [|discriminate E]
         end;
  injection E as <-.

Ltac untouched :=
  intros; rewrite ?lookup_assign_ne by (simpl in *; intuition congruence);
  reflexivity.

Lemma np_where_lookup (cond : Q -> bool) (t : Q -> Q) (e : Q)
    (v : list (option Q)) (i : nat) (c : option Q) :
  v !! i = Some c ->
  np_where cond t e v !! i
  = Some (match c with
          | Some q => if cond q then Some (t q) else Some e
          | None => Some e
          end).
Proof.
  intros H. unfold np_where.
  match goal with
  | |- map ?f v !! i = _ => change (map f v) with (f <$> v)
  end.
  rewrite list_lookup_fmap, H. reflexivity.
Qed.

(** X24.  The three growing-degree-day columns that [create_weather_features]
    derives classify every row into exactly one band: optimal (flag 1, no
    deficit, no excess) for 2000 <= gdd <= 3000, a positive deficit below
    2000, a positive excess above 3000.  A NaN gdd gives 0 in all three
    columns: it counts as not optimal with no deficit and no excess. *)
Theorem gdd_bands_partition
    (df df' : DataFrame) (g : list (option Q)) :
  create_weather_features df = Ok df' ->
  lookup_col df "gdd" = Some (Num g) ->
  exists opt def exc,
    lookup_col df' "gdd_optimal" = Some (Num opt)
    /\ lookup_col df' "gdd_deficit" = Some (Num def)
    /\ lookup_col df' "gdd_excess" = Some (Num exc)
    /\ forall (i : nat) (c : option Q),
         g !! i = Some c ->
         exists o d e,
           opt !! i = Some (Some o) /\ def !! i = Some (Some d)
           /\ exc !! i = Some (Some e)
           /\ match c with
              | None => o = 0 /\ d = 0 /\ e = 0
              | Some x =>
                  (2000 <= x /\ x <= 3000 /\ o = 1 /\ d = 0 /\ e = 0)
                  \/ (x < 2000 /\ o = 0 /\ d = 2000 - x /\ 0 < d /\ e = 0)
                  \/ (3000 < x /\ o = 0 /\ d = 0 /\ e = x - 3000 /\ 0 < e)
              end.
Proof.
  unfold create_weather_features. intros H Hg.
  match type of H with
  | bind ?a _ = _ => destruct a as [df1|] eqn:E1; cbn [bind] in H;
                     [|discriminate H]
  end.
  match type of H with
  | bind ?a _ = _ => destruct a as [df2|] eqn:E2; cbn [bind] in H;
                     [|discriminate H]
  end.
  match type of H with
  | bind ?a _ = _ => destruct a as [df3|] eqn:E3; cbn [bind] in H;
                     [|discriminate H]
  end.
  match type of H with
  | bind ?a _ = _ => destruct a as [df4|] eqn:E4; cbn [bind] in H;
                     [|discriminate H]
  end.
  assert (G1 : lookup_col df1 "gdd" = lookup_col df "gdd").
  { stage E1; untouched. }
  assert (G2 : lookup_col df2 "gdd" = lookup_col df1 "gdd").
  { stage E2; untouched. }
  assert (G3 : lookup_col df3 "gdd" = lookup_col df2 "gdd").
  { stage E3; untouched. }
  assert (G4 : lookup_col df4 "gdd" = lookup_col df3 "gdd").
  { stage E4; untouched. }
  rewrite <- G1, <- G2, <- G3, <- G4 in Hg.
  assert (Hh : has_col df4 "gdd" = true) by (apply has_col_lookup; eauto).
  rewrite Hh in H. unfold get_num in H.
  rewrite (get_lookup _ _ _ Hg) in H. cbn [bind] in H.
  injection H as <-.
  eexists _, _, _.
  split; [rewrite !lookup_assign_ne by discriminate;
          apply lookup_assign_eq|].
  split; [rewrite lookup_assign_ne by discriminate;
          apply lookup_assign_eq|].
  split; [apply lookup_assign_eq|].
  intros i c Hi.
  rewrite !(np_where_lookup _ _ _ g i c Hi).
  destruct c as [x|].
  2:{ eexists _, _, _. repeat (split; [reflexivity|]). auto. }
  unfold between, lt, gt.
  destruct (Py.Qleb 2000 x) eqn:A; destruct (Py.Qleb x 3000) eqn:B;
    cbn [andb];
    destruct (Py.Qltb x 2000) eqn:C; destruct (Py.Qltb 3000 x) eqn:D;
    eexists _, _, _; (repeat (split; [reflexivity|]));
    try apply Qleb_le in A; try apply Qleb_le in B;
    try apply Qltb_lt in C; try apply Qltb_lt in D;
    try apply Qltb_ge in C; try apply Qltb_ge in D;
    try (assert (~ 2000 <= x)
           by (intros F; apply Qleb_le in F; congruence));
    try (assert (~ x <= 3000)
           by (intros F; apply Qleb_le in F; congruence));
    try lra;
    first [ left; repeat split; (reflexivity || lra)
          | right; left; repeat split; (reflexivity || lra)
          | right; right; repeat split; (reflexivity || lra) ].
Qed.

End DerivedFeatureFacts.

Lemma gdd_bands_partition_witness :
  exists df' opt def exc,
    Features.create_weather_features labelled_frame = Ok df'
    /\ Pandas.lookup_col df' "gdd_optimal" = Some (Pandas.Num opt)
    /\ Pandas.lookup_col df' "gdd_deficit" = Some (Pandas.Num def)
    /\ Pandas.lookup_col df' "gdd_excess" = Some (Pandas.Num exc).
Proof.
  eassert (E : Features.create_weather_features labelled_frame = Ok _)
    by (vm_compute; reflexivity).
  destruct (gdd_bands_partition _ _ [Some 1800; Some 2500; None] E eq_refl)
    as (opt & def & exc & H1 & H2 & H3 & _).
  eexists _, opt, def, exc. split; [exact E|]. auto.
Defined.

Section TemporalFacts.
Import Pandas Sklearn Features.
Variable ext : Extern.

Lemma min_same (y : Q) (n : nat) : fold_left Py.min (repeat y n) y = y.
Proof.
  induction n as [|n IH]; simpl; [reflexivity|].
  unfold Py.min at 2. destruct (Qlt_le_dec y y); exact IH.
Qed.

Lemma max_same (y : Q) (n : nat) : fold_left Py.max (repeat y n) y = y.
Proof.
  induction n as [|n IH]; simpl; [reflexivity|].
  unfold Py.max at 2. destruct (Qlt_le_dec y y); exact IH.
Qed.

Lemma dropna_repeat (y : Q) (n : nat) :
  dropna (repeat (Some y) n) = repeat y n.
Proof.
  induction n as [|n IH]; [reflexivity|].
  change (dropna (repeat (Some y) (S n)))
    with (y :: dropna (repeat (Some y) n)).
  rewrite IH. reflexivity.
Qed.

(** X25.  On a frame whose [year] column holds one and the same year in every
    row (every one-row serve-time frame is such a frame)
    [create_temporal_features] returns, and [year_normalized] is NaN in
    every row: the year range it divides by is zero. *)
Theorem constant_year_normalises_to_nan
    (df : DataFrame) (y : Q) (n : nat) :
  lookup_col df "year" = Some (Num (repeat (Some y) (S n))) ->
  exists df',
    create_temporal_features ext df = Ok df'
    /\ lookup_col df' "year_normalized" = Some (Num (repeat None (S n))).
Proof.
  intros Hy. unfold create_temporal_features.
  assert (Hh : has_col df "year" = true) by (apply has_col_lookup; eauto).
  rewrite Hh. unfold get_num. rewrite (get_lookup _ _ _ Hy). cbn [bind].
  cbv zeta.
  assert (Hmin : vmin (repeat (Some y) (S n)) = Some y).
  { unfold vmin. rewrite dropna_repeat. cbn [repeat].
    rewrite min_same. reflexivity. }
  assert (Hmax : vmax (repeat (Some y) (S n)) = Some y).
  { unfold vmax. rewrite dropna_repeat. cbn [repeat].
    rewrite max_same. reflexivity. }
  rewrite Hmin, Hmax.
  eexists. split; [reflexivity|].
  rewrite !lookup_assign_ne by discriminate. rewrite lookup_assign_eq.
  do 2 f_equal.
  assert (Hz : Qeq_bool (y - y) 0 = true) by (apply Qeq_bool_iff; lra).
  generalize (S n). intros m.
  induction m as [|m IH]; simpl; [reflexivity|].
  rewrite IH, Hz. reflexivity.
Qed.

End TemporalFacts.

Lemma constant_year_normalises_to_nan_witness :
  Pandas.lookup_col serve_frame "year" = Some (Pandas.Num [Some 2024])
  /\ forall ext,
      exists df',
        Features.create_temporal_features ext serve_frame = Ok df'
        /\ Pandas.lookup_col df' "year_normalized"
           = Some (Pandas.Num [None]).
Proof.
  split; [reflexivity|]. intros ext.
  exact (constant_year_normalises_to_nan ext serve_frame 2024 0 eq_refl).
Defined.

(** ** Advisory regimes *)

Lemma prefix_append (sub a b : string) :
  String.prefix sub a = true -> String.prefix sub (String.append a b) = true.
Proof.
  revert a. induction sub as [|c sub IH]; intros a.
  - intros _. destruct (String.append a b); reflexivity.
  - destruct a as [|c' a]; simpl; [discriminate|].
    destruct (Ascii.ascii_dec c c'); [apply IH|discriminate].
Qed.

Lemma contains_before (a b sub : string) :
  Py.contains a sub = true -> Py.contains (String.append a b) sub = true.
Proof.
  induction a as [|c a IH]; simpl.
  - rewrite orb_false_r. intros H. destruct sub; [|discriminate H].
    destruct b; reflexivity.
  - intros H. apply orb_true_iff in H. destruct H as [H|H].
    + apply orb_true_iff. left.
      apply (prefix_append sub (String c a) b H).
    + apply orb_true_iff. right. apply IH, H.
Qed.

Lemma contains_after (a b sub : string) :
  Py.contains b sub = true -> Py.contains (String.append a b) sub = true.
Proof.
  intros H. induction a as [|c a IH]; simpl; [exact H|].
  apply orb_true_iff. right. exact IH.
Qed.

Section AdvisoryRegimeFacts.
Import Model Predict Advisory.
Local Open Scope string_scope.

(** X26.  The pest-risk level and the list of risk factors agree: the level is
    one of the three names; it is Low exactly when no factor was found,
    Medium exactly when high temperature is the only factor, and High
    exactly when humidity or rainfall exceeds its threshold; the factors
    come in the order humidity, temperature, rainfall. *)
Theorem pest_risk_level_matches_factors
    (self : AdvisoryEngine) (humidity temp_max precip_sum : option Q) :
  let rules := pest_risk (advisory_rules self) in
  let level := fst (assess_pest_risk self humidity temp_max precip_sum) in
  let factors := snd (assess_pest_risk self humidity temp_max precip_sum) in
  (level = "Low" \/ level = "Medium" \/ level = "High")
  /\ (level = "Low" <-> factors = [])
  /\ (level = "Medium" <-> factors = ["high temperature"])
  /\ (level = "High"
      <-> cell_gt humidity (high_humidity_threshold rules)
          || cell_gt precip_sum 1000 = true)
  /\ factors
     = ((if cell_gt humidity (high_humidity_threshold rules)
         then ["high humidity"] else [])
        ++ (if cell_gt temp_max (high_temp_threshold rules)
            then ["high temperature"] else [])
        ++ (if cell_gt precip_sum 1000
            then ["excessive rainfall"] else []))%list.
Proof.
  cbv zeta. unfold assess_pest_risk.
  destruct (cell_gt humidity _); destruct (cell_gt temp_max _);
    destruct (cell_gt precip_sum 1000); cbn;
    repeat split; intros; try discriminate; try reflexivity;
    try (intuition discriminate); auto.
Qed.

(** X27.  The irrigation advisory is chosen by the seasonal rainfall of the top
    features alone: below 500 mm the low-rainfall text, above 1200 mm the
    high-rainfall text, and the normal text otherwise, the two thresholds
    included and also when the rainfall is NaN.  The farmer's reported
    irrigation events never change the text, which always ends with the
    timing sentence. *)
Theorem irrigation_regime_follows_rainfall
    (pr : PredictionResult) (request request' : PredictionRequest) :
  let precip_sum := get_or (feature_dict pr) "precip_sum" 800 in
  let text := generate_irrigation_advisory new pr request in
  (forall q, precip_sum = Some q -> q < 500 ->
     Py.startswith text "Low rainfall detected" = true
     /\ Py.contains text "Increase irrigation to 10 events." = true)
  /\ (forall q, precip_sum = Some q -> 1200 < q ->
        Py.startswith text "High rainfall detected" = true)
  /\ (forall q, precip_sum = Some q -> 500 <= q -> q <= 1200 ->
        Py.startswith text "Normal rainfall pattern" = true)
  /\ (precip_sum = None ->
      text = "Normal rainfall pattern (nanmm). Maintain 8 irrigation events. Apply 40-50mm per irrigation. Monitor soil moisture at 15cm depth. Best irrigation times: early morning (6-8 AM) or evening (6-8 PM).")
  /\ generate_irrigation_advisory new pr request' = text
  /\ exists body,
       text = body +:+ " Best irrigation times: early morning (6-8 AM) or evening (6-8 PM).".
Proof.
  cbv zeta. unfold generate_irrigation_advisory.
  cbn [advisory_rules new load_advisory_rules irrigation
       low_rainfall_threshold high_rainfall_threshold
       optimal_irrigation_events].
  split; [|split; [|split; [|split; [|split]]]].
  - intros q -> Hq. unfold cell_lt.
    rewrite (proj2 (Qltb_lt q 500) Hq).
    split; [reflexivity|].
    apply contains_before. apply contains_after. apply contains_after.
    reflexivity.
  - intros q -> Hq. unfold cell_lt, cell_gt.
    rewrite (proj2 (Qltb_ge q 500)) by lra.
    rewrite (proj2 (Qltb_lt 1200 q) Hq). reflexivity.
  - intros q -> H1 H2. unfold cell_lt, cell_gt.
    rewrite (proj2 (Qltb_ge q 500) H1).
    rewrite (proj2 (Qltb_ge 1200 q) H2). reflexivity.
  - intros ->. reflexivity.
  - reflexivity.
  - eexists. reflexivity.
Qed.

End AdvisoryRegimeFacts.

Lemma append_assoc (a b c : string) :
  String.append (String.append a b) c = String.append a (String.append b c).
Proof.
  induction a as [|x a IH]; [reflexivity|].
  change (String x (String.append (String.append a b) c)
          = String x (String.append a (String.append b c))).
  f_equal. exact IH.
Qed.

Section AdvisoryTextFacts.
Import Model Predict Advisory.
Local Open Scope string_scope.

Ltac grade_cases :=
  change ("high" =? "high") with true;
  change ("medium" =? "high") with false;
  change ("medium" =? "medium") with true;
  change ("low" =? "high") with false;
  change ("low" =? "medium") with false;
  cbv iota;
  repeat match goal with
         | |- context [Py.Qltb (confidence ?pr) ?c] =>
             destruct (Py.Qltb (confidence pr) c)
         | |- context [if ?a && ?b && ?c then _ else _] =>
             destruct (a && b && c)
         end.

(** X28.  For a crop that is neither rice nor wheat the fertilizer advisory
    takes the three split applications of the rice table but describes
    the two-dose schedule of the other crops: the text ends with a
    sentence that announces 3 doses and lists two.  For wheat it
    announces 2 doses, for rice 3 doses with the three-stage schedule. *)
Theorem fertilizer_split_schedule
    (pr : PredictionResult) (request : PredictionRequest) :
  exists body,
    generate_fertilizer_advisory new pr request
    = body +:+
      (if String.eqb (Py.lower (crop request)) "rice" then
         "Split fertilizer application into 3 doses: basal (50%), tillering (25%), panicle initiation (25%)."
       else if String.eqb (Py.lower (crop request)) "wheat" then
         "Split fertilizer application into 2 doses: basal (60%), tillering/jointing (40%)."
       else
         "Split fertilizer application into 3 doses: basal (60%), tillering/jointing (40%).").
Proof.
  unfold generate_fertilizer_advisory.
  rewrite crop_fertilizer_rules_cases.
  destruct (farmer_inputs request) as [fi|]; cbv zeta beta iota;
    match goal with
    | |- exists body,
           (if String.eqb ?c "rice" then (?adv +:+ ?s) +:+ ?r1
            else (?adv' +:+ ?s') +:+ ?r2) = _ =>
        exists adv
    end;
    destruct (String.eqb_spec (Py.lower (crop request)) "rice") as [Er|Er];
    try rewrite Er; try reflexivity;
    destruct (String.eqb (Py.lower (crop request)) "wheat");
    rewrite append_assoc; reflexivity.
Qed.

(** X29.  The general advisory grades the predicted yield against the low and
    medium thresholds of the crop, wheat having its own and every other
    crop those of rice; the [high] threshold is never consulted, so any
    yield from the medium threshold upward is "above average".  The text
    always ends with the market sentence. *)
Theorem yield_grade_follows_crop_thresholds
    (clock : Clock) (pr : PredictionResult) (request : PredictionRequest) :
  let y := predicted_yield pr in
  let lo := if String.eqb (Py.lower (crop request)) "wheat"
            then 15 # 10 else 2 in
  let med := if String.eqb (Py.lower (crop request)) "wheat"
             then 25 # 10 else 35 # 10 in
  let text := generate_general_advisory new clock pr request in
  (y < lo -> Py.startswith text "Predicted yield is below average" = true)
  /\ (lo <= y -> y < med ->
      Py.startswith text "Predicted yield is average" = true)
  /\ (med <= y ->
      Py.startswith text "Predicted yield is above average" = true)
  /\ exists body,
       text = body +:+ "Monitor market prices and consider value addition opportunities. Maintain harvest and post-harvest records for better planning.".
Proof.
  cbv zeta. unfold generate_general_advisory.
  assert (T : default (default rice_thresholds
                         (yield_thresholds (advisory_rules new) !! "rice"))
                (yield_thresholds (advisory_rules new)
                   !! Py.lower (crop request))
              = if String.eqb (Py.lower (crop request)) "wheat"
                then wheat_thresholds else rice_thresholds).
  { cbn [advisory_rules new load_advisory_rules yield_thresholds].
    destruct (String.eqb_spec (Py.lower (crop request)) "wheat")
      as [-> | Hw].
    - rewrite lookup_insert_eq. reflexivity.
    - rewrite (lookup_insert_ne _ "wheat" (Py.lower (crop request)))
        by congruence.
      destruct (String.eqb_spec (Py.lower (crop request)) "rice")
        as [-> | Hr].
      + rewrite lookup_insert_eq. reflexivity.
      + rewrite (lookup_insert_ne _ "rice" (Py.lower (crop request)))
          by congruence.
        rewrite lookup_empty. reflexivity. }
  rewrite T. clear T.
  split; [|split; [|split]].
  - intros Hy.
    destruct (String.eqb (Py.lower (crop request)) "wheat");
      cbn [low medium wheat_thresholds rice_thresholds];
      rewrite (proj2 (Qltb_lt _ _) Hy); grade_cases; reflexivity.
  - intros H1 H2.
    destruct (String.eqb (Py.lower (crop request)) "wheat");
      cbn [low medium wheat_thresholds rice_thresholds];
      rewrite (proj2 (Qltb_ge _ _) H1), (proj2 (Qltb_lt _ _) H2);
      grade_cases; reflexivity.
  - intros H1.
    destruct (String.eqb (Py.lower (crop request)) "wheat");
      cbn [low medium wheat_thresholds rice_thresholds];
      rewrite !(proj2 (Qltb_ge (predicted_yield pr) _)) by lra;
      grade_cases; reflexivity.
  - match goal with
    | |- context [let '(a, b) := ?p in _] => destruct p as [cat pot]
    end.
    eexists. reflexivity.
Qed.

(** X30.  A prediction with confidence below 0.6 gets both warnings: the
    general advisory carries the moderate-confidence caveat and the
    bundle carries the limited-data disclaimer.  The bundle reports the
    prediction's own confidence and names at most three features, the
    first ones of the top-feature list. *)
Theorem low_confidence_is_flagged_twice
    (clock : Clock) (pr : PredictionResult) (request : PredictionRequest) :
  (confidence pr < 6 # 10 ->
   Py.contains (general_text
                  (advisory (generate_advisory new clock pr request)))
     "Prediction confidence is moderate." = true
   /\ disclaimer (advisory (generate_advisory new clock pr request))
      = Some "Recommendations are based on limited data. Consider consulting local agricultural experts.")
  /\ (7 # 10 <= confidence pr ->
      disclaimer (advisory (generate_advisory new clock pr request)) = None)
  /\ advisory_confidence (generate_advisory new clock pr request)
     = confidence pr
  /\ (length (based_on_features (generate_advisory new clock pr request))
      <= 3)%nat
  /\ based_on_features (generate_advisory new clock pr request)
     = take 3 (map feature (top_features pr)).
Proof.
  split; [|split; [|split; [|split]]].
  - intros Hc.
    cbn [generate_advisory advisory general_text disclaimer].
    split.
    + unfold generate_general_advisory.
      rewrite (proj2 (Qltb_lt _ _) Hc).
      match goal with
      | |- context [let '(a, b) := ?p in _] => destruct p as [cat pot]
      end.
      apply contains_before.
      match goal with
      | |- context [if ?c then _ else _] => destruct c
      end;
        [|match goal with
          | |- context [if ?c then _ else _] => destruct c
          end];
        try (apply contains_before; apply contains_after; reflexivity);
        apply contains_after; reflexivity.
    + assert (H7 : confidence pr < 7 # 10) by lra.
      rewrite (proj2 (Qltb_lt _ _) H7). reflexivity.
  - intros Hc. cbn [generate_advisory advisory disclaimer].
    rewrite (proj2 (Qltb_ge _ _) Hc). reflexivity.
  - reflexivity.
  - cbn [generate_advisory based_on_features].
    rewrite length_map, length_take. lia.
  - cbn [generate_advisory based_on_features].
    change (map feature (take 3 (top_features pr)))
      with (feature <$> take 3 (top_features pr)).
    change (map feature (top_features pr))
      with (feature <$> top_features pr).
    rewrite fmap_take. reflexivity.
Qed.

End AdvisoryTextFacts.

Lemma service_interval_brackets_estimate_witness :
  Predict.model forest_service = Some forest_model
  /\ forall ext,
      exists r,
        Predict.predict ext forest_service serve_clock serve_request
          serve_external = Ok r
        /\ 0 <= fst (Predict.prediction_interval r)
        /\ fst (Predict.prediction_interval r) <= Predict.predicted_yield r
        /\ Predict.predicted_yield r <= snd (Predict.prediction_interval r).
Proof.
  split; [reflexivity|]. intros ext.
  eassert (E : Predict.predict ext forest_service serve_clock serve_request
                 serve_external = Ok _) by (vm_compute; reflexivity).
  eexists. split; [exact E|].
  apply (service_interval_brackets_estimate ext _ _ _ _ _ E).
  vm_compute. discriminate.
Defined.
